(** * FlukaQueueSub: job fan-out for HTCondor, LSF and Task Spooler

    A shallow embedding of [launch_jobs_htcondor.py], [launch_jobs_lsf.py]
    and [scripts/launch_jobs_ts.py], and the properties of their seed
    mutation, directory allocation, launch-command construction and
    submission loop.

    Conventions of the model.
    - Python [str] is [string], the texts over the characters with code
      points below 256; Python [int] is [Z].
    - A regular file is text, the characters its bytes decode to in the
      encoding of the locale ([File]), or data that does not decode ([Raw]).
      The scripts open their files without a [newline] argument: on reading,
      the text layer of Python hands over the line ends CR LF and CR as LF;
      on writing it leaves LF as it is.
    - The file system is a finite map from absolute, normalised paths
      (lists of components) to nodes; there are no symbolic links, and
      permissions, quotas and signals are not modelled.
    - A command line handed to the shell is read as its words; names hold
      no blanks or shell metacharacters.
    - What the environment decides (the numbers the random generator
      yields, the outcome of an external command, of the HTCondor client) is
      read from an [environment] record. *)

From stdpp Require Import gmap strings list pretty.
From Stdlib Require Import ZArith Ascii String.

Local Open Scope string_scope.
Local Open Scope list_scope.
Local Open Scope Z_scope.

(** ** Part I. Definitions *)

(** *** Exceptions and results *)

Inductive exn :=
| FileNotFoundError
| FileExistsError
| NotADirectoryError
| IsADirectoryError
| KeyError (key : string)
| ValueError
| UnicodeDecodeError
| SchedulerError (msg : string)
| NonTermination.

Inductive result (A : Type) :=
| Ok (a : A)
| Raise (e : exn).
Arguments Ok {A} a.
Arguments Raise {A} e.

#[global] Instance result_ret : MRet result := λ A a, Ok a.
#[global] Instance result_bind : MBind result := λ A B f m,
  match m with Ok a => f a | Raise e => Raise e end.
#[global] Instance result_fmap : FMap result := λ A B f m,
  match m with Ok a => Ok (f a) | Raise e => Raise e end.

Definition is_ok {A} (r : result A) : bool :=
  match r with Ok _ => true | Raise _ => false end.

(** *** Python strings *)

Module Py.

(** [pat in s] *)
Fixpoint contains (pat s : string) : bool :=
  String.prefix pat s ||
  match s with
  | "" => false
  | String _ s' => contains pat s'
  end.

(** [s.startswith(c)] and [s.endswith(c)] for a one-character [c] *)
Definition starts_with_char (c : ascii) (s : string) : bool :=
  match s with
  | String a _ => bool_decide (a = c)
  | "" => false
  end.

Fixpoint ends_with_char (c : ascii) (s : string) : bool :=
  match s with
  | "" => false
  | String a "" => bool_decide (a = c)
  | String _ s' => ends_with_char c s'
  end.

(** [str.isspace] of a character: the blanks of ASCII, the next-line
    control and the no-break space *)
Definition is_space (c : ascii) : bool :=
  let n := nat_of_ascii c in
  ((9 <=? n)%nat && (n <=? 13)%nat) || ((28 <=? n)%nat && (n <=? 32)%nat)
  || (n =? 133)%nat || (n =? 160)%nat.

Fixpoint lstrip (s : string) : string :=
  match s with
  | "" => ""
  | String c s' => if is_space c then lstrip s' else s
  end.

Definition rstrip (s : string) : string := String.rev (lstrip (String.rev s)).

(** [s.strip()] *)
Definition strip (s : string) : string := rstrip (lstrip s).

Fixpoint fill (n : nat) (c : ascii) : string :=
  match n with
  | O => ""
  | S n' => String c (fill n' c)
  end.

(** [s.rjust(width, c)]: pads on the left, never truncates *)
Definition rjust (width : nat) (c : ascii) (s : string) : string :=
  fill (width - String.length s) c +:+ s.

(** [f"{i:04d}"]: the sign first, then zeros up to a total width of 4 *)
Definition format_04d (i : Z) : string :=
  if bool_decide (i < 0)
  then "-" +:+ rjust 3 "0" (pretty (- i))
  else rjust 4 "0" (pretty i).

(** [f"{seed:>10n}"]: the script never calls [locale.setlocale], so ["n"]
    prints as ["d"]; right-aligned with blanks in a field of width 10 *)
Definition format_r10n (seed : Z) : string := rjust 10 " " (pretty seed).

(** What the text layer hands over for the characters of a file opened
    without [newline]: CR LF and a CR alone become LF. [pendingcr] says
    that the character before was a CR, which has been handed over as LF. *)
Fixpoint newlines_go (pendingcr : bool) (s : string) : string :=
  match s with
  | "" => ""
  | String c s' =>
      if bool_decide (c = "013"%char) then String "010" (newlines_go true s')
      else if pendingcr && bool_decide (c = "010"%char) then newlines_go false s'
      else String c (newlines_go false s')
  end.

Definition universal_newlines (s : string) : string := newlines_go false s.

(** [f.readlines()] of a text: each line keeps its terminator *)
Fixpoint readlines (s : string) : list string :=
  match s with
  | "" => []
  | String c s' =>
      if bool_decide (c = "010"%char) then String c "" :: readlines s'
      else match readlines s' with
           | [] => [String c ""]
           | l :: ls => String c l :: ls
           end
  end.

(** the text [f.writelines(data)] emits *)
Fixpoint joinlines (data : list string) : string :=
  match data with
  | [] => ""
  | l :: ls => l +:+ joinlines ls
  end.

Fixpoint str_take (n : nat) (s : string) : string :=
  match n, s with
  | S n', String c s' => String c (str_take n' s')
  | _, _ => ""
  end.

Fixpoint str_drop (n : nat) (s : string) : string :=
  match n, s with
  | S n', String _ s' => str_drop n' s'
  | _, _ => s
  end.

(** [s.split(sep)] for a one-character separator *)
Fixpoint split (sep : ascii) (s : string) : list string :=
  match s with
  | "" => [""]
  | String c s' =>
      if bool_decide (c = sep) then "" :: split sep s'
      else match split sep s' with
           | [] => [String c ""]
           | h :: t => String c h :: t
           end
  end.

(** [s.rpartition(sep)]: the text before and after the last [sep] *)
Fixpoint rsplit1 (sep : ascii) (s : string) : option (string * string) :=
  match s with
  | "" => None
  | String c s' =>
      match rsplit1 sep s' with
      | Some (a, b) => Some (String c a, b)
      | None => if bool_decide (c = sep) then Some ("", s') else None
      end
  end.

Fixpoint all_chars (P : ascii → bool) (s : string) : bool :=
  match s with
  | "" => true
  | String c s' => P c && all_chars P s'
  end.

(** *** [string.Template.substitute] *)

Definition is_id_start (c : ascii) : bool :=
  let n := nat_of_ascii c in
  bool_decide (c = "_"%char)
  || ((97 <=? n)%nat && (n <=? 122)%nat)
  || ((65 <=? n)%nat && (n <=? 90)%nat).

Definition is_id_char (c : ascii) : bool :=
  let n := nat_of_ascii c in
  is_id_start c || ((48 <=? n)%nat && (n <=? 57)%nat).

Fixpoint lookup_key (mapping : list (string * string)) (key : string) : result string :=
  match mapping with
  | [] => Raise (KeyError key)
  | (k, v) :: rest => if bool_decide (k = key) then Ok v else lookup_key rest key
  end.

(** The scanner of the placeholder pattern: [$$], [$name], [${name}];
    a [$] followed by anything else is invalid. *)
Inductive scan :=
| SText
| SDollar
| SNamed (acc : string)
| SBraced (acc : string).

Fixpoint substitute_go (mapping : list (string * string)) (st : scan) (t : string)
  : result string :=
  match t with
  | "" =>
      match st with
      | SText => Ok ""
      | SDollar => Raise ValueError
      | SNamed acc => lookup_key mapping acc
      | SBraced _ => Raise ValueError
      end
  | String c t' =>
      match st with
      | SText =>
          if bool_decide (c = "$"%char) then substitute_go mapping SDollar t'
          else String c <$> substitute_go mapping SText t'
      | SDollar =>
          if bool_decide (c = "$"%char) then String c <$> substitute_go mapping SText t'
          else if is_id_start c then substitute_go mapping (SNamed (String c "")) t'
          else if bool_decide (c = "{"%char) then substitute_go mapping (SBraced "") t'
          else Raise ValueError
      | SNamed acc =>
          if is_id_char c then substitute_go mapping (SNamed (acc +:+ String c "")) t'
          else v ← lookup_key mapping acc;
               rest ← (if bool_decide (c = "$"%char) then substitute_go mapping SDollar t'
                       else String c <$> substitute_go mapping SText t');
               Ok (v +:+ rest)
      | SBraced acc =>
          if bool_decide (c = "}"%char) then
            if bool_decide (acc = "") then Raise ValueError
            else v ← lookup_key mapping acc;
                 rest ← substitute_go mapping SText t';
                 Ok (v +:+ rest)
          else if (if bool_decide (acc = "") then is_id_start c else is_id_char c)
               then substitute_go mapping (SBraced (acc +:+ String c "")) t'
               else Raise ValueError
      end
  end.

(** [Template(t).substitute] applied to the keyword arguments [mapping] *)
Definition substitute (t : string) (mapping : list (string * string)) : result string :=
  substitute_go mapping SText t.

End Py.

(** *** [os.path] *)

Module OsPath.

(** [os.path.join(a, b)] *)
Definition join (a b : string) : string :=
  if Py.starts_with_char "/" b then b
  else if bool_decide (a = "") || Py.ends_with_char "/" a then a +:+ b
  else a +:+ "/" +:+ b.

(** [os.path.basename(p)] *)
Definition basename (p : string) : string :=
  match Py.rsplit1 "/" p with
  | Some (_, b) => b
  | None => p
  end.

(** [os.path.splitext(p)]: the extension starts at the last dot of the last
    component, unless only dots come before it *)
Definition splitext_name (b : string) : string * string :=
  match Py.rsplit1 "." b with
  | Some (stem, ext) =>
      if Py.all_chars (λ c, bool_decide (c = "."%char)) stem then (b, "")
      else (stem, "." +:+ ext)
  | None => (b, "")
  end.

Definition splitext (p : string) : string * string :=
  match Py.rsplit1 "/" p with
  | Some (d, b) => let '(r, e) := splitext_name b in (d +:+ "/" +:+ r, e)
  | None => splitext_name p
  end.

(** One component of a path, applied to the directory reached so far. *)
Definition walk (acc : list string) (c : string) : list string :=
  if bool_decide (c = "") || bool_decide (c = ".") then acc
  else if bool_decide (c = "..") then removelast acc
  else acc ++ [c].

(** The absolute, normalised path a path string names from [cwd]. *)
Definition resolve (cwd : list string) (p : string) : list string :=
  foldl walk (if Py.starts_with_char "/" p then [] else cwd) (Py.split "/" p).

(** [os.getcwd()] as text *)
Fixpoint render (p : list string) : string :=
  match p with
  | [] => ""
  | c :: p' => "/" +:+ c +:+ render p'
  end.

Definition getcwd_text (p : list string) : string :=
  match p with
  | [] => "/"
  | _ => render p
  end.

End OsPath.

(** *** The world: working directory, file system and observable effects *)

Inductive node :=
| Dir
| File (content : string)    (* text *)
| Raw (bytes : string).      (* bytes that do not decode *)

#[global] Instance node_eq_dec : EqDecision node.
Proof. solve_decision. Defined.

(** Python values stored in a submit description. *)
Inductive pyval :=
| PStr (s : string)
| PInt (z : Z).

#[global] Instance pyval_eq_dec : EqDecision pyval.
Proof. solve_decision. Defined.

(** A [dict] with string keys, in insertion order. *)
Definition dict := list (string * pyval).

Fixpoint dict_get (d : dict) (key : string) : option pyval :=
  match d with
  | [] => None
  | (k, v) :: rest => if bool_decide (k = key) then Some v else dict_get rest key
  end.

(** The text of a message: plain, or a prefix followed by the [repr] of a
    dictionary (which is kept as the dictionary). *)
Inductive message :=
| Text (s : string)
| TextDict (s : string) (d : dict).

Inductive event :=
| LogInfo (m : message)                (* logging.info *)
| Print (s : string)                   (* print *)
| System (cmd : string)                (* os.system *)
| SubprocessRun (cmd : string)         (* subprocess.run(cmd, shell=True, ...) *)
| Chmod (p : list string) (mode : Z)   (* os.chmod *)
| ScheddConnect                        (* htcondor.Schedd() *)
| ScheddSubmit (d : dict).             (* schedd.submit(htcondor.Submit(d)) *)

Record world := World {
  cwd : list string;                  (* the working directory of the process *)
  fs : gmap (list string) node;       (* the file system *)
  trace : list event;                 (* what the process has done to the outside *)
  draws : nat                         (* how often the generator has been asked *)
}.

Definition with_cwd (p : list string) (w : world) : world :=
  World p (fs w) (trace w) (draws w).
Definition with_fs (m : gmap (list string) node) (w : world) : world :=
  World (cwd w) m (trace w) (draws w).
Definition with_event (ev : event) (w : world) : world :=
  World (cwd w) (fs w) (trace w ++ [ev]) (draws w).

(** [subprocess.CompletedProcess] *)
Record completed_process := CompletedProcess {
  returncode : Z;
  stdout : string;
  stderr : string
}.

(** What the environment decides, by job index. *)
Record environment := Environment {
  raw_random : nat → Z;                       (* the k-th number the generator yields *)
  shell_run : Z → completed_process;          (* the outcome of the submission command of job i *)
  schedd_connect : result unit;               (* the outcome of htcondor.Schedd() *)
  schedd_submit : Z → result Z                (* the cluster id schedd.submit returns in job i *)
}.

(** [int(9E7)] *)
Definition int_9E7 : Z := 90000000.

(** *** Computations: state and exceptions *)

Definition M (A : Type) : Type := world → result A * world.

#[global] Instance M_ret : MRet M := λ A a w, (Ok a, w).
#[global] Instance M_bind : MBind M := λ A B f m w,
  match m w with
  | (Ok a, w') => f a w'
  | (Raise e, w') => (Raise e, w')
  end.

Definition emit (ev : event) : M unit :=
  λ w, (Ok tt, with_event ev w).

Definition lift {A} (r : result A) : M A := λ w, (r, w).

(** [for x in l: body(x)] *)
Fixpoint for_each {A} (l : list A) (body : A → M unit) : M unit :=
  match l with
  | [] => mret tt
  | x :: l' => body x ;; for_each l' body
  end.

(** [range(lo, hi)] *)
Definition range (lo hi : Z) : list Z := seqZ lo (hi - lo).

(** *** [os] *)

Module Os.

Definition lookup_path (p : string) (w : world) : option node :=
  if bool_decide (p = "") then None else fs w !! OsPath.resolve (cwd w) p.

(** [os.path.exists(p)] *)
Definition path_exists (p : string) (w : world) : bool :=
  bool_decide (is_Some (lookup_path p w)).

(** The directories [os.makedirs] walks through, creating the missing ones. *)
Fixpoint mkdirs (reached todo : list string) (m : gmap (list string) node)
  : result (gmap (list string) node) :=
  match todo with
  | [] => Ok m
  | c :: rest =>
      let q := reached ++ [c] in
      match m !! q with
      | Some (File _) | Some (Raw _) => Raise NotADirectoryError
      | Some Dir => mkdirs q rest m
      | None => mkdirs q rest (<[q := Dir]> m)
      end
  end.

(** [os.makedirs(name)], with [exist_ok=False] *)
Definition makedirs (name : string) : M unit := λ w,
  if bool_decide (name = "") then (Raise FileNotFoundError, w)
  else
    let p := OsPath.resolve (cwd w) name in
    if bool_decide (is_Some (fs w !! p)) then (Raise FileExistsError, w)
    else match mkdirs [] p (fs w) with
         | Ok m => (Ok tt, with_fs m w)
         | Raise e => (Raise e, w)
         end.

(** [os.chdir(p)] *)
Definition chdir (p : string) : M unit := λ w,
  match lookup_path p w with
  | Some Dir => (Ok tt, with_cwd (OsPath.resolve (cwd w) p) w)
  | Some (File _) | Some (Raw _) => (Raise NotADirectoryError, w)
  | None => (Raise FileNotFoundError, w)
  end.

(** [os.system(f"cp {src} {dst}")]: the exit status is not looked at. The
    copy lands in [dst] under the base name of [src] when [src] is a regular
    file and [dst] a directory that holds no directory of that name;
    otherwise [cp] fails and changes nothing. *)
Definition system_cp (src dst : string) : M unit := λ w,
  let w1 := with_event (System ("cp " +:+ src +:+ " " +:+ dst)) w in
  match lookup_path src w, lookup_path dst w with
  | Some (File _ as regular), Some Dir | Some (Raw _ as regular), Some Dir =>
      let target := OsPath.resolve (cwd w) dst ++ [OsPath.basename src] in
      match fs w !! target with
      | Some Dir => (Ok tt, w1)
      | _ => (Ok tt, with_fs (<[target := regular]> (fs w1)) w1)
      end
  | _, _ => (Ok tt, w1)
  end.

(** [os.rename(src, dst)] of a regular file: it replaces a regular file at
    [dst] and refuses a directory there. (Both callers rename a file they
    have just opened.) *)
Definition rename (src dst : string) : M unit := λ w,
  match lookup_path src w with
  | Some (File _ as regular) | Some (Raw _ as regular) =>
      let s := OsPath.resolve (cwd w) src in
      let d := OsPath.resolve (cwd w) dst in
      if bool_decide (dst = "") then (Raise FileNotFoundError, w)
      else match fs w !! d with
           | Some Dir => (Raise IsADirectoryError, w)
           | _ => (Ok tt, with_fs (<[d := regular]> (delete s (fs w))) w)
           end
  | Some Dir => (Raise IsADirectoryError, w)
  | None => (Raise FileNotFoundError, w)
  end.

(** [os.chmod(p, mode)] *)
Definition chmod (p : string) (mode : Z) : M unit := λ w,
  match lookup_path p w with
  | Some _ => (Ok tt, with_event (Chmod (OsPath.resolve (cwd w) p) mode) w)
  | None => (Raise FileNotFoundError, w)
  end.

(** A file opened in text mode: where it is and the position of the next
    read or write. *)
Record file_obj := FileObj {
  f_path : list string;
  f_pos : nat
}.

(** [open(name, "r+")]: nothing is decoded yet *)
Definition open_rplus (name : string) : M file_obj := λ w,
  match lookup_path name w with
  | Some (File _) | Some (Raw _) => (Ok (FileObj (OsPath.resolve (cwd w) name) 0), w)
  | Some Dir => (Raise IsADirectoryError, w)
  | None => (Raise FileNotFoundError, w)
  end.

(** [open(name, "w")]: creates or truncates *)
Definition open_w (name : string) : M file_obj := λ w,
  if bool_decide (name = "") then (Raise FileNotFoundError, w)
  else
    let p := OsPath.resolve (cwd w) name in
    match fs w !! p with
    | Some Dir => (Raise IsADirectoryError, w)
    | _ =>
        match fs w !! removelast p with
        | Some Dir => (Ok (FileObj p 0), with_fs (<[p := File ""]> (fs w)) w)
        | Some (File _) | Some (Raw _) => (Raise NotADirectoryError, w)
        | None => (Raise FileNotFoundError, w)
        end
    end.

Definition content_of (f : file_obj) (w : world) : string :=
  match fs w !! f_path f with
  | Some (File content) => content
  | _ => ""
  end.

(** [f.readlines()]: the lines from the position to the end, as the text
    layer hands them over; [UnicodeDecodeError] when the file does not
    decode. *)
Definition f_readlines (f : file_obj) : M (list string * file_obj) := λ w,
  match fs w !! f_path f with
  | Some (Raw _) => (Raise UnicodeDecodeError, w)
  | _ =>
      let content := content_of f w in
      (Ok (Py.readlines (Py.universal_newlines (Py.str_drop (f_pos f) content)),
           FileObj (f_path f) (String.length content)), w)
  end.

(** [f.seek(pos)] *)
Definition f_seek (f : file_obj) (pos : nat) : file_obj := FileObj (f_path f) pos.

(** [f.write(text)]: overwrites from the position on. (The scripts write
    to a file they have created, or read to its end, which is text.) *)
Definition f_write (f : file_obj) (text : string) : M file_obj := λ w,
  let content := content_of f w in
  let content' :=
    Py.str_take (f_pos f) content +:+ text
    +:+ Py.str_drop (f_pos f + String.length text) content in
  (Ok (FileObj (f_path f) (f_pos f + String.length text)),
   with_fs (<[f_path f := File content']> (fs w)) w).

(** [f.writelines(data)] *)
Definition f_writelines (f : file_obj) (data : list string) : M file_obj :=
  f_write f (Py.joinlines data).

(** [f.truncate()]: cuts the file at the position *)
Definition f_truncate (f : file_obj) : M unit := λ w,
  (Ok tt, with_fs (<[f_path f := File (Py.str_take (f_pos f) (content_of f w))]> (fs w)) w).

End Os.

(** *** The seed mutation, the same text in the three scripts *)

Definition MARKER : string := "RANDOMIZ".

(** [new_randomiz] *)
Definition seed_record (seed : Z) : string :=
  "RANDOMIZ          1." +:+ Py.format_r10n seed +:+ String "010" "".

(** The scan of [generate_input]: the first line that holds the marker is
    overwritten in place, and the scan stops there. *)
Definition replace_first_marker (data : list string) (new_randomiz : string)
  : list string :=
  match list_find (λ line, Py.contains MARKER line = true) data with
  | Some (index, _) => <[index := new_randomiz]> data
  | None => data
  end.

(** [random.randint(a, b)]: [a] plus a number below [b - a + 1], which the
    generator derives from its next raw number. *)
Definition random_randint (env : environment) (a b : Z) : M Z := λ w,
  if bool_decide (b < a) then (Raise ValueError, w)
  else (Ok (a + raw_random env (draws w) `mod` (b - a + 1)),
        World (cwd w) (fs w) (trace w) (S (draws w))).

(** [generate_input(input, iteration)] *)
Definition generate_input (env : environment) (input : string) (iteration : Z) : M string :=
  seed ← random_randint env 1 int_9E7;
  let new_randomiz := seed_record seed in
  f ← Os.open_rplus (input +:+ ".inp");
  '(data, f) ← Os.f_readlines f;
  let data := replace_first_marker data new_randomiz in
  let f := Os.f_seek f 0 in
  f ← Os.f_writelines f data;
  Os.f_truncate f;;
  let file_name := input +:+ "_" +:+ Py.format_04d iteration +:+ ".inp" in
  Os.rename (input +:+ ".inp") file_name;;
  mret file_name.

(** *** The allocation of the output root, the same text in the three scripts *)

(** [while os.path.exists(new_directory_name): ...]; [fuel] bounds the
    number of tests. *)
Fixpoint probe (fuel : nat) (base : string) (name : string) (counter : Z) (w : world)
  : option string :=
  match fuel with
  | O => None
  | S fuel' =>
      if Os.path_exists name w
      then probe fuel' base (base +:+ "_" +:+ pretty counter) (counter + 1) w
      else Some name
  end.

(** [os.path.splitext(os.path.basename(input_file))[0]] *)
Definition stripped_name_of (input_file : string) : string :=
  (OsPath.splitext (OsPath.basename input_file)).1.

(** [stripped_name if output_dir is None else output_dir] *)
Definition base_directory_name (input_file : string) (output_dir : option string)
  : string :=
  match output_dir with
  | None => stripped_name_of input_file
  | Some d => d
  end.

(** The first lines of [launch_jobs]: the free root name and the creation
    of the root. The loop is given two tests more than the file system has
    entries, which always suffices (lemma [probe_total] below), so that the
    exception [NonTermination] is never raised. *)
Definition allocate_root (input_file : string) (output_dir : option string) : M string :=
  λ w,
  let base := base_directory_name input_file output_dir in
  match probe (S (S (size (fs w)))) base base 1 w with
  | None => (Raise NonTermination, w)
  | Some directory => (Os.makedirs directory ;; mret directory) w
  end.

(** *** [launch_jobs_htcondor.py] *)

Module HTCondor.

Definition HTCONDOR_QUEUE : string := "vanilla".

Definition SCRIPT_TEMPLATE : string :=
"#!/bin/env bash

. /cvmfs/sft.cern.ch/lcg/views/setupViews.sh LCG_97python3 x86_64-centos7-gcc9-opt

$fluka_command $input
".

(** The arguments of [launch_jobs], as [argparse] types them. *)
Record args := Args {
  input_file : string;
  job_number : Z;
  custom_exe : string;
  queue : string;
  mem : string;
  ncpu : Z;
  disk : Z;
  time : Z;
  dry_run : bool;
  output_dir : option string;
  transfer_files : string;
  output : string;
  error : string;
  log : string
}.

(** The command line of [generate_sh] *)
Definition fluka_command (fluka_path custom_exe : string) : string :=
  if bool_decide (custom_exe = "None")
  then fluka_path +:+ "/rfluka -M 1"
  else fluka_path +:+ "/rfluka -M 1 -e " +:+ custom_exe.

Definition script_content (input fluka_path custom_exe : string) : result string :=
  Py.substitute SCRIPT_TEMPLATE
    [("fluka_command", fluka_command fluka_path custom_exe); ("input", input)].

Definition generate_sh (input : string) (iteration : Z) (fluka_path custom_exe : string)
  : M string :=
  content ← lift (script_content input fluka_path custom_exe);
  let script_name := "job_" +:+ Py.format_04d iteration +:+ ".sh" in
  sh ← Os.open_w script_name;
  Os.f_write sh content;;
  Os.chmod script_name 493;;
  mret script_name.

Definition generate_submit_description (iteration : Z) (input script_name mem : string)
    (ncpu disk time : Z) (transfer_files output error log : string) : dict :=
  [ ("universe", PStr "vanilla");
    ("executable", PStr script_name);
    ("transfer_input_files", PStr input);
    ("should_transfer_files", PStr transfer_files);
    ("when_to_transfer_output", PStr "ON_EXIT");
    ("output", PStr output);
    ("error", PStr error);
    ("log", PStr log);
    ("request_memory", PStr mem);
    ("request_cpus", PInt ncpu);
    ("request_disk", PInt disk);
    ("+MaxRuntime", PInt time) ].

Section launch.
(** The module-level [FLUKA_PATH], set by the main script. *)
Variable FLUKA_PATH : string.
Variable env : environment.

(** The submission step of job [i]: the [if dry_run: ... else: ...] of the loop. *)
Definition submit (a : args) (i : Z) (submit_description : dict) : M unit :=
  if dry_run a
  then emit (LogInfo (TextDict "Dry run: condor_submit " submit_description))
  else
    emit (ScheddSubmit submit_description);;
    cluster ← lift (schedd_submit env i);
    emit (LogInfo (Text ("Submitted job " +:+ pretty cluster))).

(** One turn of the loop of [launch_jobs]. *)
Definition job (a : args) (stripped_name directory : string) (i : Z) : M unit :=
  let job_name := "job_" +:+ Py.format_04d i in
  let job_dir := OsPath.join directory job_name in
  Os.makedirs job_dir;;
  Os.system_cp (input_file a) job_dir;;
  Os.chdir job_dir;;
  new_input ← generate_input env stripped_name i;
  script_name ← generate_sh new_input i FLUKA_PATH (custom_exe a);
  let submit_description :=
    generate_submit_description i new_input script_name (mem a) (ncpu a) (disk a)
      (time a) (transfer_files a) (output a) (error a) (log a) in
  submit a i submit_description;;
  Os.chdir "../..".

Definition launch_jobs (a : args) : M unit :=
  let stripped_name := stripped_name_of (input_file a) in
  directory ← allocate_root (input_file a) (output_dir a);
  (if dry_run a then mret tt else emit ScheddConnect;; lift (schedd_connect env));;
  for_each (range 1 (job_number a + 1)) (job a stripped_name directory).
End launch.

End HTCondor.

(** *** [launch_jobs_lsf.py] *)

Module LSF.

Definition LSF_QUEUE : string := "normal".

(** The line of the resource selection holds two double quotes (code 34). *)
Definition SCRIPT_TEMPLATE : string := Eval cbv in
("#!/bin/bash

#BSUB -J $input
#BSUB -n $ntasks
#BSUB -R " +:+ String "034" ("select[mem>$mem]rusage[mem=$mem]" +:+ String "034" "
#BSUB -W $time
#BSUB -o $pog_dir/%J.out
#BSUB -e $pog_dir/%J.err
#BSUB -q $queue

cd $pog_dir

echo
echo Launching FLUKA run...
$fluka_command $pog_dir/$input
")).

Record args := Args {
  input_file : string;
  job_number : Z;
  custom_exe : string;
  queue : string;
  mem : string;
  ntasks : Z;
  time : string;
  dry_run : bool;
  output_dir : option string
}.

Definition fluka_command (fluka_path custom_exe : string) : string :=
  if bool_decide (custom_exe = "None")
  then fluka_path +:+ "/rfluka -M 1"
  else fluka_path +:+ "/rfluka -M 1 -e " +:+ custom_exe.

(** The keyword arguments [generate_sh] hands to [substitute]. *)
Definition script_mapping (input fluka_path custom_exe pog_dir mem : string)
    (ntasks : Z) (time : string) : list (string * string) :=
  [ ("input", input);
    ("fluka_command", fluka_command fluka_path custom_exe);
    ("pog_dir", pog_dir);
    ("mem", mem);
    ("ntasks", pretty ntasks);
    ("time", time) ].

Definition generate_sh (input : string) (iteration : Z) (fluka_path custom_exe mem : string)
    (ntasks : Z) (time : string) : M unit :=
  λ w,
  let pog_dir := OsPath.getcwd_text (cwd w) in
  (content ← lift (Py.substitute SCRIPT_TEMPLATE
                     (script_mapping input fluka_path custom_exe pog_dir mem ntasks time));
   let script_name := "job_" +:+ Py.format_04d iteration +:+ ".sh" in
   sh ← Os.open_w script_name;
   Os.f_write sh content;;
   Os.chmod script_name 493) w.

Section launch.
Variable FLUKA_PATH : string.
Variable env : environment.

(** The submission step of job [i], named [job_name], of a batch of
    [job_number] jobs. *)
Definition submit (dry_run : bool) (job_number : Z) (job_name : string) (i : Z)
  : M unit :=
  let cmd := "bsub < ./" +:+ job_name +:+ ".sh" in
  if dry_run
  then emit (LogInfo (Text ("Dry run: " +:+ cmd)))
  else
    emit (SubprocessRun cmd);;
    let result := shell_run env i in
    if bool_decide (returncode result = 0)
    then emit (Print ("Job " +:+ pretty job_number +:+ " " +:+ Py.strip (stdout result)))
    else emit (Print ("Job " +:+ pretty job_number +:+ " submission failed: "
                      +:+ Py.strip (stderr result))).

Definition job (a : args) (stripped_name directory : string) (i : Z) : M unit :=
  let job_name := "job_" +:+ Py.format_04d i in
  let job_dir := OsPath.join directory job_name in
  Os.makedirs job_dir;;
  Os.system_cp (input_file a) job_dir;;
  Os.chdir job_dir;;
  new_input ← generate_input env stripped_name i;
  generate_sh new_input i FLUKA_PATH (custom_exe a) (mem a) (ntasks a) (time a);;
  submit (dry_run a) (job_number a) job_name i;;
  Os.chdir "../..".

Definition launch_jobs (a : args) : M unit :=
  let stripped_name := stripped_name_of (input_file a) in
  directory ← allocate_root (input_file a) (output_dir a);
  for_each (range 1 (job_number a + 1)) (job a stripped_name directory).
End launch.

End LSF.

(** *** [scripts/launch_jobs_ts.py] *)

Module TS.

Record args := Args {
  input_file : string;
  job_number : Z;
  custom_exe : string;
  dry_run : bool;
  output_dir : option string
}.

(** The command line built in the loop of [launch_jobs] *)
Definition fluka_command (custom_exe new_input : string) : string :=
  if bool_decide (custom_exe = "None")
  then "rfluka -M 1 " +:+ new_input
  else "rfluka -M 1 -e " +:+ custom_exe +:+ " " +:+ new_input.

Section launch.
Variable env : environment.

(** The submission step of job [i]. *)
Definition submit (dry_run : bool) (fluka_command : string) (i : Z) : M unit :=
  if dry_run
  then emit (LogInfo (Text ("Dry run: ts " +:+ fluka_command)))
  else
    emit (SubprocessRun ("ts " +:+ fluka_command));;
    let result := shell_run env i in
    if bool_decide (returncode result = 0)
    then emit (Print ("Job " +:+ pretty i +:+ " submitted: " +:+ Py.strip (stdout result)))
    else emit (Print ("Job " +:+ pretty i +:+ " submission failed: "
                      +:+ Py.strip (stderr result))).

Definition job (a : args) (stripped_name directory : string) (i : Z) : M unit :=
  let job_name := "job_" +:+ Py.format_04d i in
  let job_dir := OsPath.join directory job_name in
  Os.makedirs job_dir;;
  Os.system_cp (input_file a) job_dir;;
  Os.chdir job_dir;;
  new_input ← generate_input env stripped_name i;
  submit (dry_run a) (fluka_command (custom_exe a) new_input) i;;
  Os.chdir "../..".

Definition launch_jobs (a : args) : M unit :=
  let stripped_name := stripped_name_of (input_file a) in
  directory ← allocate_root (input_file a) (output_dir a);
  for_each (range 1 (job_number a + 1)) (job a stripped_name directory).
End launch.

End TS.

(** *** Vocabulary of the statements *)

Definition is_digit (c : ascii) : bool :=
  let n := nat_of_ascii c in (48 <=? n)%nat && (n <=? 57)%nat.

(** [s] holds no occurrence of the character [c]. *)
Definition free_of (c : ascii) (s : string) : bool :=
  Py.all_chars (λ a, negb (bool_decide (a = c))) s.

Definition is_dot (c : ascii) : bool := bool_decide (c = "."%char).

(** A single path component that names an entry: no separator in it, and
    none of the empty name, [.] and [..]. *)
Definition is_name (s : string) : bool :=
  free_of "/" s && negb (bool_decide (s = "")) && negb (bool_decide (s = "."))
  && negb (bool_decide (s = "..")).

(** A line that ends in its terminator, and one that has none (the last
    line of a text may be of this kind). *)
Definition terminated (l : string) : Prop :=
  ∃ body, l = body +:+ String "010" "" ∧ free_of "010" body = true.

Definition unterminated (l : string) : Prop :=
  l ≠ "" ∧ free_of "010" l = true.

(** The shape of what [readlines] returns: every line but the last is
    terminated, and no line is empty. *)
Fixpoint lines_ok (ls : list string) : Prop :=
  match ls with
  | [] => True
  | [l] => terminated l ∨ unterminated l
  | l :: ls' => terminated l ∧ lines_ok ls'
  end.

(** The events by which a job reaches a scheduler: a run of an external
    submission command, or a call of the HTCondor client. *)
Definition is_submission (ev : event) : bool :=
  match ev with
  | SubprocessRun _ | ScheddConnect | ScheddSubmit _ => true
  | _ => false
  end.

(** The messages handed to [logging.info], in order. *)
Definition log_lines (evs : list event) : list message :=
  omap (λ ev, match ev with LogInfo m => Some m | _ => None end) evs.

(** [m] extends the trace by events that satisfy [Q], together with the
    result of [m]. *)
Definition emits {A} (Q : result A → list event → Prop) (m : M A) : Prop :=
  ∀ w, ∃ evs, trace (m w).2 = trace w ++ evs ∧ Q (m w).1 evs.

(** Events among which there is neither a log line nor a submission. *)
Definition quiet_events (evs : list event) : Prop :=
  log_lines evs = [] ∧ Forall (λ ev, is_submission ev = false) evs.

Definition quiet {A} (m : M A) : Prop := emits (λ _ evs, quiet_events evs) m.

(** When [m] returns, it returns [a]. *)
Definition returns {A} (m : M A) (a : A) : Prop := ∀ w b, (m w).1 = Ok b → b = a.

(** [Q] is not affected by quiet events before it, and holds of a
    computation that raises after quiet events only. *)
Definition absorbs {A} (Q : result A → list event → Prop) : Prop :=
  (∀ e evs, quiet_events evs → Q (Raise e) evs) ∧
  (∀ r evs1 evs2, quiet_events evs1 → Q r evs2 → Q r (evs1 ++ evs2)).

(** What one turn of a dry run leaves in the trace: no submission, and its
    line in the log unless the turn raised before reaching it. *)
Definition job_logs {A} (line : message) (r : result A) (evs : list event) : Prop :=
  Forall (λ ev, is_submission ev = false) evs ∧
  (log_lines evs = [line] ∨ (log_lines evs = [] ∧ is_ok r = false)).

(** What a dry run over the indices [l] leaves in the trace: no submission,
    and the lines of the turns it went through, in order; all of them when it
    returned. *)
Definition loop_logs {A X} (line : X → message) (l : list X)
    (r : result A) (evs : list event) : Prop :=
  Forall (λ ev, is_submission ev = false) evs ∧
  ∃ k : nat, (k ≤ List.length l)%nat ∧ log_lines evs = line <$> take k l ∧
             (is_ok r = true → k = List.length l).

(** The submit descriptions that reach the scheduler or the log name the
    universe [vanilla]. *)
Definition universe_vanilla (ev : event) : Prop :=
  match ev with
  | ScheddSubmit d | LogInfo (TextDict _ d) => dict_get d "universe" = Some (PStr "vanilla")
  | _ => True
  end.

(** The names the allocation tries, in order: [P], [P_1], [P_2], ... *)
Definition candidate (base : string) (k : Z) : string :=
  if bool_decide (k = 0) then base else base +:+ "_" +:+ pretty k.

(** The name of the directory of job [i]. *)
Definition job_name (i : Z) : string := "job_" +:+ Py.format_04d i.

Module HTCondorSpec.
(** The name [generate_input] gives the input of job [i], the name
    [generate_sh] gives its script, and the line a dry run logs for it. *)
Definition new_input (a : HTCondor.args) (i : Z) : string :=
  stripped_name_of (HTCondor.input_file a) +:+ "_" +:+ Py.format_04d i +:+ ".inp".

Definition script_name (i : Z) : string := "job_" +:+ Py.format_04d i +:+ ".sh".

Definition description (a : HTCondor.args) (i : Z) : dict :=
  HTCondor.generate_submit_description i (new_input a i) (script_name i)
    (HTCondor.mem a) (HTCondor.ncpu a) (HTCondor.disk a) (HTCondor.time a)
    (HTCondor.transfer_files a) (HTCondor.output a) (HTCondor.error a) (HTCondor.log a).

Definition dry_run_line (a : HTCondor.args) (i : Z) : message :=
  TextDict "Dry run: condor_submit " (description a i).

(** The events of the submission step of job [i], and of its whole turn
    under the root [R] of the directory [cwd0]. *)
Definition submit_events (env : environment) (a : HTCondor.args) (i : Z) : list event :=
  if HTCondor.dry_run a then [LogInfo (dry_run_line a i)]
  else match schedd_submit env i with
       | Ok cluster =>
           [ScheddSubmit (description a i);
            LogInfo (Text ("Submitted job " +:+ pretty cluster))]
       | Raise _ => [ScheddSubmit (description a i)]
       end.

Definition job_events (env : environment) (a : HTCondor.args)
    (cwd0 : list string) (R : string) (i : Z) : list event :=
  [ System ("cp " +:+ HTCondor.input_file a +:+ " " +:+ OsPath.join R (job_name i));
    Chmod (cwd0 ++ [R; job_name i; script_name i]) 493 ]
  ++ submit_events env a i.

(** The arguments with another queue. *)
Definition with_queue (q : string) (a : HTCondor.args) : HTCondor.args :=
  HTCondor.Args (HTCondor.input_file a) (HTCondor.job_number a) (HTCondor.custom_exe a)
    q (HTCondor.mem a) (HTCondor.ncpu a) (HTCondor.disk a) (HTCondor.time a)
    (HTCondor.dry_run a) (HTCondor.output_dir a) (HTCondor.transfer_files a)
    (HTCondor.output a) (HTCondor.error a) (HTCondor.log a).
End HTCondorSpec.

Module TSSpec.
Definition new_input (a : TS.args) (i : Z) : string :=
  stripped_name_of (TS.input_file a) +:+ "_" +:+ Py.format_04d i +:+ ".inp".

Definition dry_run_line (a : TS.args) (i : Z) : message :=
  Text ("Dry run: ts " +:+ TS.fluka_command (TS.custom_exe a) (new_input a i)).

(** What a turn of the Task Spooler loop prints for job [i]. *)
Definition report (env : environment) (i : Z) : string :=
  let result := shell_run env i in
  if bool_decide (returncode result = 0)
  then "Job " +:+ pretty i +:+ " submitted: " +:+ Py.strip (stdout result)
  else "Job " +:+ pretty i +:+ " submission failed: " +:+ Py.strip (stderr result).

(** The events of the turn of job [i] under the root [R], when the run is
    not a dry run. *)
Definition job_events (env : environment) (a : TS.args) (R : string) (i : Z)
  : list event :=
  [ System ("cp " +:+ TS.input_file a +:+ " " +:+ OsPath.join R (job_name i));
    SubprocessRun ("ts " +:+ TS.fluka_command (TS.custom_exe a) (TSSpec.new_input a i));
    Print (report env i) ].
End TSSpec.

(** Every entry of the file system lies in a directory. *)
Definition fs_closed (m : gmap (list string) node) : Prop :=
  ∀ p c, is_Some (m !! (p ++ [c])) → m !! p = Some Dir.

(** The file system [m] after the jobs [1..k] under the root [root], [m0]
    being the file system before the run: nothing changed outside the root,
    and the root holds the directories of these jobs and nothing else. *)
Record fs_inv (root : list string) (m0 : gmap (list string) node) (k : Z)
    (m : gmap (list string) node) : Prop := FsInv {
  inv_frame : ∀ p, ¬ root `prefix_of` p → m !! p = m0 !! p;
  inv_root : m !! root = Some Dir;
  inv_under : ∀ c rest, is_Some (m !! (root ++ c :: rest)) → ∃ i, 1 ≤ i ≤ k ∧ c = job_name i;
  inv_jobs : ∀ i, 1 ≤ i ≤ k → m !! (root ++ [job_name i]) = Some Dir
}.

(** The directory [p] and the directories above it are there. *)
Definition fs_closed_up_to (w : world) (p : list string) : Prop :=
  ∀ n, (0 < n ≤ List.length p)%nat → fs w !! take n p = Some Dir.

(** The state between two turns of the loop under the root [R] of the
    directory [cwd0], [k] jobs being done. *)
Definition between_jobs (cwd0 : list string) (R : string)
    (m0 : gmap (list string) node) (k : Z) (w : world) : Prop :=
  cwd w = cwd0 ∧ fs_inv (cwd0 ++ [R]) m0 k (fs w).

(** The HTCondor client accepts the connection and the jobs [1..N]. *)
Definition scheduler_accepts (env : environment) (N : Z) : Prop :=
  schedd_connect env = Ok tt ∧ ∀ i, 1 ≤ i ≤ N → is_ok (schedd_submit env i) = true.


(** [m] leaves the working directory where it is. *)
Definition keeps_cwd {A} (m : M A) : Prop := ∀ w, cwd (m w).2 = cwd w.

(** What a dry run of [N] jobs adds to the trace of [w]: no submission,
    and in the log the lines of the jobs [1..k] it went through, one each
    and in order; [k] is [N] when the run returned. *)
Definition logs_only (line : Z → message) (N : Z) (w : world)
    (out : result unit * world) : Prop :=
  ∃ evs (k : Z),
    trace out.2 = trace w ++ evs ∧
    Forall (λ ev, is_submission ev = false) evs ∧
    0 ≤ k ≤ Z.max 0 N ∧
    log_lines evs = line <$> seqZ 1 k ∧
    (is_ok out.1 = true → k = Z.max 0 N).

(** The layout a run of [N] jobs with the preferred root name [P] leaves
    in [w'], [w] being the world before: the root is the first free name
    among [P], [P_1], [P_2], ..., and its entries are the directories of the
    jobs [1..N]. *)
Definition layout (P : string) (N : Z) (w w' : world) : Prop :=
  ∃ k, 0 ≤ k ∧
    (∀ j, 0 ≤ j < k → Os.path_exists (candidate P j) w = true) ∧
    Os.path_exists (candidate P k) w = false ∧
    fs w' !! (cwd w ++ [candidate P k]) = Some Dir ∧
    (∀ c, is_Some (fs w' !! (cwd w ++ [candidate P k; c]))
          ↔ ∃ i, 1 ≤ i ≤ N ∧ c = job_name i) ∧
    (∀ i, 1 ≤ i ≤ N → fs w' !! (cwd w ++ [candidate P k; job_name i]) = Some Dir).

(** The names of the job directories: one per index, four digits wide up
    to 9999 with zeros in front, and the bare numeral from 1000 on. *)
Definition job_names_ok : Prop :=
  (∀ i j, 1 ≤ i → 1 ≤ j → job_name i = job_name j → i = j) ∧
  (∀ i, 1 ≤ i ≤ 9999 →
     job_name i = "job_" +:+ Py.fill (4 - String.length (pretty i)) "0" +:+ pretty i ∧
     String.length (job_name i) = 8%nat) ∧
  (∀ i, 1000 ≤ i → job_name i = "job_" +:+ pretty i).

(** The words of a command line without quoting. *)
Definition argv (cmd : string) : list string := Py.split " " cmd.

(** *** Concrete inputs *)

Module Demo.
Definition template : string :=
"TITLE
RANDOMIZ          1.        1.
RANDOMIZ again
STOP
".

Definition plain : string :=
"TITLE
STOP
".

(** The same texts with the line ends CR LF. *)
Definition CRLF : string := String "013" (String "010" "").

Definition template_crlf : string :=
  "TITLE" +:+ CRLF +:+ "RANDOMIZ          1.        1." +:+ CRLF
  +:+ "RANDOMIZ again" +:+ CRLF +:+ "STOP" +:+ CRLF.

Definition plain_crlf : string := "TITLE" +:+ CRLF +:+ "STOP" +:+ CRLF.

Definition failed : completed_process :=
  CompletedProcess 1 "" "queue closed
".

Definition queued : completed_process :=
  CompletedProcess 0 "queued
" "".

(** The generator yields 12344; the submission command fails for job 2;
    the HTCondor client accepts every job. *)
Definition env : environment :=
  Environment (λ _, 12344) (λ i, if bool_decide (i = 2) then failed else queued)
    (Ok tt) (λ i, Ok (100 + i)).

(** The generator yields the largest remainder. *)
Definition env_top : environment :=
  Environment (λ _, 89999999) (λ _, queued) (Ok tt) (λ i, Ok (100 + i)).

(** The HTCondor client refuses job 1. *)
Definition env_refuse : environment :=
  Environment (λ _, 12344) (λ _, queued) (Ok tt)
    (λ i, if bool_decide (i = 1) then Raise (SchedulerError "refused") else Ok (100 + i)).

Definition dirs : list (list string * node) :=
  [([], Dir); (["home"], Dir); (["home"; "u"], Dir)].

(** A home directory with the template [run.inp]. *)
Definition home : world :=
  World ["home"; "u"]
    (list_to_map (dirs ++ [(["home"; "u"; "run.inp"], File template)])) [] 0.

(** The same with a template that holds no marker. *)
Definition home_plain : world :=
  World ["home"; "u"]
    (list_to_map (dirs ++ [(["home"; "u"; "run.inp"], File plain)])) [] 0.

(** The same where [run] and [run_1] are taken. *)
Definition home_taken : world :=
  World ["home"; "u"]
    (list_to_map (dirs ++ [(["home"; "u"; "run.inp"], File template);
                           (["home"; "u"; "run"], Dir);
                           (["home"; "u"; "run_1"], File "")])) [] 0.

(** The same with the line ends CR LF. *)
Definition home_crlf : world :=
  World ["home"; "u"]
    (list_to_map (dirs ++ [(["home"; "u"; "run.inp"], File template_crlf)])) [] 0.

Definition home_plain_crlf : world :=
  World ["home"; "u"]
    (list_to_map (dirs ++ [(["home"; "u"; "run.inp"], File plain_crlf)])) [] 0.

(** The same with a template that does not decode: in UTF-8, the byte
    233 does not stand before a line end. *)
Definition undecodable : string :=
  "TITLE caf" +:+ String "233" (String "010" "RANDOMIZ          1.        1.
STOP
").

Definition home_raw : world :=
  World ["home"; "u"]
    (list_to_map (dirs ++ [(["home"; "u"; "run.inp"], Raw undecodable)])) [] 0.

(** The same where the new name of the input of job 1 is a directory. *)
Definition home_plain_blocked : world :=
  World ["home"; "u"]
    (list_to_map (dirs ++ [(["home"; "u"; "run.inp"], File plain);
                           (["home"; "u"; "run_0001.inp"], Dir)])) [] 0.

(** A home directory without the template. *)
Definition home_empty : world :=
  World ["home"; "u"] (list_to_map dirs) [] 0.

(** The same with the directories [out] and [out/run]. *)
Definition home_nested : world :=
  World ["home"; "u"]
    (list_to_map (dirs ++ [(["home"; "u"; "run.inp"], File template);
                           (["home"; "u"; "out"], Dir);
                           (["home"; "u"; "out"; "run"], Dir)])) [] 0.

(** A home directory with the root [run] and no template. *)
Definition home_empty_run : world :=
  World ["home"; "u"] (list_to_map (dirs ++ [(["home"; "u"; "run"], Dir)])) [] 0.

Definition htcondor_args (input_file : string) (N : Z) (custom_exe : string)
    (dry_run : bool) (output_dir : option string) : HTCondor.args :=
  HTCondor.Args input_file N custom_exe "vanilla" "1500" 1 100000 86400 dry_run output_dir
    "yes" "job_$(Cluster)_$(Process).out" "job_$(Cluster)_$(Process).err"
    "job_$(Cluster)_$(Process).log".

Definition ts_args (N : Z) (custom_exe : string) (dry_run : bool) : TS.args :=
  TS.Args "run.inp" N custom_exe dry_run None.
End Demo.

(** *** The properties of the seed mutation *)

(** The record [generate_input] writes for [seed]: the marker, the literal
    [1.] after ten blanks, the numeral right-aligned in ten columns, and the
    terminator; one line of 31 characters. *)
Definition record_ok (seed : Z) : Prop :=
  (∃ pad : nat,
     seed_record seed
     = MARKER +:+ "          1." +:+ Py.fill pad " " +:+ pretty seed +:+ String "010" "" ∧
     (pad + String.length (pretty seed) = 10)%nat) ∧
  Py.all_chars is_digit (pretty seed) = true ∧
  String.length (seed_record seed) = 31%nat ∧
  terminated (seed_record seed) ∧
  Py.readlines (seed_record seed) = [seed_record seed].

(** The file [generate_input] has rewritten holds [content'], in the state
    [out] in which the call ends: under the new name, which the call returns,
    or under the old name when [os.rename] found a directory in its way. *)
Definition left_with (input : string) (iteration : Z) (w : world)
    (out : result string * world) (content' : string) : Prop :=
  let src := OsPath.resolve (cwd w) (input +:+ ".inp") in
  let file_name := input +:+ "_" +:+ Py.format_04d iteration +:+ ".inp" in
  let dst := OsPath.resolve (cwd w) file_name in
  (out.1 = Ok file_name ∧
   fs out.2 !! src = None ∧ fs out.2 !! dst = Some (File content'))
  ∨ (out.1 = Raise IsADirectoryError ∧ fs w !! dst = Some Dir ∧
     fs out.2 !! src = Some (File content')).

(** [generate_input] on a template [content] with a marker: the call draws
    a seed of the closed range from 1 to 90 000 000, and the file it leaves
    holds the lines it has read, with the record of that seed, well formed,
    as the line that stood first with the marker. *)
Definition seed_record_written (env : environment) (input : string) (iteration : Z)
    (w : world) (content : string) : Prop :=
  ∃ seed pre line post,
    1 ≤ seed ≤ 90000000 ∧
    record_ok seed ∧
    Py.readlines (Py.universal_newlines content) = pre ++ line :: post ∧
    Forall (λ l, Py.contains MARKER l = false) pre ∧
    Py.contains MARKER line = true ∧
    left_with input iteration w (generate_input env input iteration w)
      (Py.joinlines (pre ++ seed_record seed :: post)) ∧
    Py.readlines (Py.joinlines (pre ++ seed_record seed :: post))
    = pre ++ seed_record seed :: post.

(** [generate_input] on a template [content] with a marker: the first line
    with the marker gives way to the record of the seed drawn, the other
    lines stay as they are in [content], and the file left has as many lines
    as the template. *)
Definition first_marker_replaced (env : environment) (input : string) (iteration : Z)
    (w : world) (content : string) : Prop :=
  let seed := 1 + raw_random env (draws w) `mod` int_9E7 in
  ∃ pre line post content',
    Py.readlines content = pre ++ line :: post ∧
    Forall (λ l, Py.contains MARKER l = false) pre ∧
    Py.contains MARKER line = true ∧
    left_with input iteration w (generate_input env input iteration w) content' ∧
    content' = Py.joinlines (pre ++ seed_record seed :: post) ∧
    Py.readlines content' = pre ++ seed_record seed :: post ∧
    List.length (Py.readlines content') = List.length (Py.readlines content).

(** [generate_input] on a template [content]: it returns the new name, the
    old name is gone, the new name holds a text file, nothing else changed;
    without a marker that file holds what the text layer handed over, which
    is the content of the template when this has no CR. *)
Definition renamed (env : environment) (input : string) (iteration : Z)
    (w : world) (content : string) : Prop :=
  let src := OsPath.resolve (cwd w) (input +:+ ".inp") in
  let file_name := input +:+ "_" +:+ Py.format_04d iteration +:+ ".inp" in
  let dst := OsPath.resolve (cwd w) file_name in
  ∃ w',
    generate_input env input iteration w = (Ok file_name, w') ∧
    fs w' !! src = None ∧
    (∃ content', fs w' !! dst = Some (File content')) ∧
    (∀ p, p ≠ src → p ≠ dst → fs w' !! p = fs w !! p) ∧
    cwd w' = cwd w ∧
    (Forall (λ l, Py.contains MARKER l = false) (Py.readlines (Py.universal_newlines content)) →
     fs w' !! dst = Some (File (Py.universal_newlines content)) ∧
     (free_of "013" content = true → fs w' !! dst = Some (File content))).

(** *** The properties of the command line *)

(** The command lines for the custom executable [v]: the restart flag
    alone for the sentinel, the override flag and [v] after it otherwise;
    and, for values without blanks, the words of these command lines. *)
Definition command_ok (fluka_path v new_input : string) : Prop :=
  HTCondor.fluka_command fluka_path "None" = fluka_path +:+ "/rfluka -M 1" ∧
  TS.fluka_command "None" new_input = "rfluka -M 1 " +:+ new_input ∧
  HTCondor.fluka_command fluka_path v = fluka_path +:+ "/rfluka -M 1 -e " +:+ v ∧
  TS.fluka_command v new_input = "rfluka -M 1 -e " +:+ v +:+ " " +:+ new_input ∧
  (free_of " " fluka_path = true → free_of " " v = true → free_of " " new_input = true →
   argv (HTCondor.fluka_command fluka_path "None") = [fluka_path +:+ "/rfluka"; "-M"; "1"] ∧
   argv (TS.fluka_command "None" new_input) = ["rfluka"; "-M"; "1"; new_input] ∧
   argv (HTCondor.fluka_command fluka_path v)
   = [fluka_path +:+ "/rfluka"; "-M"; "1"; "-e"; v] ∧
   argv (TS.fluka_command v new_input) = ["rfluka"; "-M"; "1"; "-e"; v; new_input]).

(** *** The properties of a dry run *)

Definition dry_run_ok (FLUKA_PATH : string) (env : environment)
    (ah : HTCondor.args) (ats : TS.args) (w : world) : Prop :=
  (∀ i d, HTCondor.submit env ah i d w
          = (Ok tt, with_event (LogInfo (TextDict "Dry run: condor_submit " d)) w)) ∧
  (∀ i cmd, TS.submit env (TS.dry_run ats) cmd i w
            = (Ok tt, with_event (LogInfo (Text ("Dry run: ts " +:+ cmd))) w)) ∧
  logs_only (HTCondorSpec.dry_run_line ah) (HTCondor.job_number ah) w
    (HTCondor.launch_jobs FLUKA_PATH env ah w) ∧
  logs_only (TSSpec.dry_run_line ats) (TS.job_number ats) w (TS.launch_jobs env ats w).

(** *** The properties of a batch *)

(** A Task Spooler run of the jobs [1..N] that goes through all of them,
    whatever the exit statuses: under some root [R] the trace grows by the
    events of the jobs in order, so that every job is submitted and
    reported; a command that exits with a status other than 0 is reported
    as failed, with its index and what it wrote to standard error. *)
Definition batch_completes (env : environment) (a : TS.args) (w : world)
    (out : result unit * world) : Prop :=
  ∃ R w',
    out = (Ok tt, w') ∧
    trace w' = trace w ++ List.concat (TSSpec.job_events env a R <$> seqZ 1 (TS.job_number a)) ∧
    (∀ j, 1 ≤ j ≤ TS.job_number a →
       SubprocessRun ("ts " +:+ TS.fluka_command (TS.custom_exe a) (TSSpec.new_input a j))
         ∈ trace w' ∧
       Print (TSSpec.report env j) ∈ trace w') ∧
    (∀ j, returncode (shell_run env j) ≠ 0 →
       TSSpec.report env j
       = "Job " +:+ pretty j +:+ " submission failed: " +:+ Py.strip (stderr (shell_run env j))).

(** An exception in a turn of the loop leaves the loop: the turns after
    it are not run. *)
Definition raise_ends_loop : Prop :=
  ∀ (body : Z → M unit) (i : Z) (l : list Z) w e w',
    body i w = (Raise e, w') → for_each (i :: l) body w = (Raise e, w').

(** A turn of the loop that returns leaves the working directory where it
    was. *)
Definition turn_restores_cwd (FLUKA_PATH : string) (env : environment)
    (ah : HTCondor.args) (ats : TS.args) (stripped_name directory : string) (i : Z)
    (w : world) : Prop :=
  (∀ w', HTCondor.job FLUKA_PATH env ah stripped_name directory i w = (Ok tt, w') →
         cwd w' = cwd w) ∧
  (∀ w', TS.job env ats stripped_name directory i w = (Ok tt, w') → cwd w' = cwd w).

(** *** The report of a submission *)








(** *** The main scripts *)

(** What the main part of a script needs beyond [launch_jobs]: the colour
    codes of [colorama], the outcome of [fluka-config], the line read from
    the standard input, and what it shows on the console. The rendering of
    [tabulate] is not looked into: the table is kept as its rows. *)

Module Color.
Record palette := Palette {
  G : string;    (* Fore.GREEN *)
  R : string;    (* Fore.RED *)
  Y : string;    (* Fore.YELLOW *)
  B : string;    (* Fore.BLUE *)
  M : string;    (* Fore.MAGENTA *)
  C : string;    (* Fore.CYAN *)
  RE : string    (* Style.RESET_ALL *)
}.
End Color.

(** [subprocess.check_output(["fluka-config", option])]: the decoded
    output, a non-zero exit status, or no command to run. *)
Inductive check_output :=
| Output (text : string)
| CalledProcessError
| OSError (e : exn).

Record terminal := Terminal {
  colors : Color.palette;
  fluka_config : string → check_output;    (* by option: [--bin], [--path] *)
  stdin_line : option string               (* the line [input] reads; [None] at the end of input *)
}.

Inductive console :=
| LoggingError (s : string)                  (* logging.error *)
| LoggingInfo (s : string)                   (* logging.info *)
| PrintTabulate (table : list (list string)) (* print(tabulate(table, ...)) *)
| InputPrompt (prompt : string).             (* input(prompt) *)

(** How a main script ends: at its last statement, by [exit], or by an
    exception nobody catches. *)
Inductive outcome :=
| Returned
| SystemExit (code : option Z)
| Uncaught (e : exn)
| UncaughtEOFError.

Module Script.

(** [s.endswith(suffix)] *)
Definition endswith (s suffix : string) : bool :=
  bool_decide (Py.str_drop (String.length s - String.length suffix) s = suffix).

(** [str.lower] on the ASCII range. (No character beyond it becomes one of
    the letters of [yes].) *)
Definition lower_char (c : ascii) : ascii :=
  let n := nat_of_ascii c in
  if (65 <=? n)%nat && (n <=? 90)%nat then ascii_of_nat (n + 32) else c.

Fixpoint lower (s : string) : string :=
  match s with
  | "" => ""
  | String c s' => String (lower_char c) (lower s')
  end.

(** [a > b] on [str]: the order of the first character that differs, and
    the longer text when one is the beginning of the other. *)
Fixpoint str_gt (a b : string) : bool :=
  match a, b with
  | "", _ => false
  | String _ _, "" => true
  | String x a', String y b' =>
      if (nat_of_ascii y <? nat_of_ascii x)%nat then true
      else if (nat_of_ascii x <? nat_of_ascii y)%nat then false
      else str_gt a' b'
  end.

(** [f"{b}"] of a [bool] *)
Definition bool_text (b : bool) : string := if b then "True" else "False".

(** [args.output_dir if args.output_dir else 'Default'] *)
Definition shown_output_dir (output_dir : option string) : string :=
  match output_dir with
  | Some d => if bool_decide (d = "") then "Default" else d
  | None => "Default"
  end.

(** [f"{colour}{text}{RE}"] *)
Definition cell (c : Color.palette) (colour text : string) : string :=
  colour +:+ text +:+ Color.RE c.

(** The [try] block around the two calls of [fluka-config]: the paths, or
    the way the script ends there. Only [CalledProcessError] is caught. *)
Definition fluka_paths (t : terminal) : list console * (outcome + string * string) :=
  match fluka_config t "--bin" with
  | Output bin =>
      match fluka_config t "--path" with
      | Output path => ([], inr (Py.strip bin, Py.strip path))
      | CalledProcessError =>
          ([LoggingError "FLUKA is not installed or fluka-config command is not found."],
           inl (SystemExit (Some 1)))
      | OSError e => ([], inl (Uncaught e))
      end
  | CalledProcessError =>
      ([LoggingError "FLUKA is not installed or fluka-config command is not found."],
       inl (SystemExit (Some 1)))
  | OSError e => ([], inl (Uncaught e))
  end.

Definition PROMPT : string := "Proceed with launching jobs? (yes/no): ".

(** [confirmation.lower() not in ['yes', 'y']] *)
Definition declined (confirmation : string) : bool :=
  negb (bool_decide (lower confirmation ∈ ["yes"; "y"])).

(** The end of a main script: the table, the question, and the launch when
    the answer is yes. *)
Definition confirm_and_launch (t : terminal) (table : list (list string))
    (launch : world → result unit * world) (w : world)
  : outcome * list console * world :=
  let shown := [PrintTabulate table; InputPrompt PROMPT] in
  match stdin_line t with
  | None => (UncaughtEOFError, shown, w)
  | Some confirmation =>
      if declined confirmation
      then (SystemExit None,
            shown ++ [LoggingInfo (cell (colors t) (Color.R (colors t)) "Aborting job launch.")],
            w)
      else
        let '(r, w') := launch w in
        (match r with Ok _ => Returned | Raise e => Uncaught e end, shown, w')
  end.

End Script.

Module HTCondorMain.

Definition max_time : Z := 345600.

Definition table (c : Color.palette) (a : HTCondor.args) (FLUKA_PATH FLUKA_FOLDER : string)
  : list (list string) :=
  let R := Color.R c in let M := Color.M c in let C := Color.C c in
  let B := Color.B c in let Y := Color.Y c in
  [ ["Command"; "Parameter"; "Value"];
    ["-f"; Script.cell c R "Input file"; Script.cell c R (HTCondor.input_file a)];
    ["-n"; Script.cell c R "Number of jobs"; Script.cell c R (pretty (HTCondor.job_number a))];
    ["-c"; Script.cell c M "Custom executable"; Script.cell c M (HTCondor.custom_exe a)];
    ["-q"; Script.cell c C "Queue"; Script.cell c C (HTCondor.queue a)];
    ["-m"; Script.cell c C "Memory"; Script.cell c C (HTCondor.mem a)];
    ["-t"; Script.cell c C "Number of cpus per job"; Script.cell c C (pretty (HTCondor.ncpu a))];
    ["-o"; Script.cell c C "Number of disk (kB)"; Script.cell c C (pretty (HTCondor.disk a))];
    ["-T"; Script.cell c C "Time limit"; Script.cell c C (pretty (HTCondor.time a))];
    ["auto"; Script.cell c B "FLUKA Path"; Script.cell c B FLUKA_PATH];
    ["auto"; Script.cell c B "FLUKA Folder"; Script.cell c B FLUKA_FOLDER];
    ["-d"; Script.cell c B "Output Directory";
     Script.cell c B (Script.shown_output_dir (HTCondor.output_dir a))];
    ["-w"; Script.cell c Y "Dry Run"; Script.cell c Y (Script.bool_text (HTCondor.dry_run a))];
    ["--transfer-files"; Script.cell c Y "Transfer Files";
     Script.cell c Y (HTCondor.transfer_files a)];
    ["--output"; Script.cell c Y "Output File"; Script.cell c Y (HTCondor.output a)];
    ["--error"; Script.cell c Y "Error File"; Script.cell c Y (HTCondor.error a)];
    ["--log"; Script.cell c Y "Log File"; Script.cell c Y (HTCondor.log a)] ].

(** The script after [parser.parse_args()], [a] being the parsed arguments. *)
Definition main (t : terminal) (env : environment) (a : HTCondor.args) (w : world)
  : outcome * list console * world :=
  if negb (Script.endswith (HTCondor.input_file a) ".inp")
  then (SystemExit (Some 1), [LoggingError "Input file must end with .inp"], w)
  else
    match Script.fluka_paths t with
    | (shown, inl stop) => (stop, shown, w)
    | (_, inr (FLUKA_PATH, FLUKA_FOLDER)) =>
        if bool_decide (HTCondor.time a > max_time)
        then (SystemExit (Some 1),
              [LoggingError ("Time limit cannot exceed " +:+ pretty max_time +:+ " seconds")],
              w)
        else Script.confirm_and_launch t (table (colors t) a FLUKA_PATH FLUKA_FOLDER)
               (HTCondor.launch_jobs FLUKA_PATH env a) w
    end.

End HTCondorMain.

Module LSFMain.

Definition max_time : string := "4-00:00:00".

Definition table (c : Color.palette) (a : LSF.args) (FLUKA_PATH FLUKA_FOLDER : string)
  : list (list string) :=
  let R := Color.R c in let M := Color.M c in let C := Color.C c in
  let B := Color.B c in let Y := Color.Y c in
  [ ["Command"; "Parameter"; "Value"];
    ["-f"; Script.cell c R "Input file"; Script.cell c M (LSF.input_file a)];
    ["-n"; Script.cell c R "Number of jobs"; Script.cell c M (pretty (LSF.job_number a))];
    ["-c"; Script.cell c M "Custom executable"; Script.cell c M (LSF.custom_exe a)];
    ["-q"; Script.cell c M "Queue"; Script.cell c M (LSF.queue a)];
    ["-m"; Script.cell c C "Memory"; Script.cell c C (LSF.mem a)];
    ["-t"; Script.cell c C "Number of tasks"; Script.cell c C (pretty (LSF.ntasks a))];
    ["-T"; Script.cell c C "Time limit"; Script.cell c C (LSF.time a)];
    [" "; Script.cell c B "FLUKA Path"; Script.cell c B FLUKA_PATH];
    [" "; Script.cell c B "FLUKA Folder"; Script.cell c B FLUKA_FOLDER];
    ["-d"; Script.cell c B "Output Directory";
     Script.cell c B (Script.shown_output_dir (LSF.output_dir a))];
    ["-w"; Script.cell c Y "Dry Run"; Script.cell c Y (Script.bool_text (LSF.dry_run a))] ].

Definition main (t : terminal) (env : environment) (a : LSF.args) (w : world)
  : outcome * list console * world :=
  if negb (Script.endswith (LSF.input_file a) ".inp")
  then (SystemExit (Some 1), [LoggingError "Input file must end with .inp"], w)
  else
    match Script.fluka_paths t with
    | (shown, inl stop) => (stop, shown, w)
    | (_, inr (FLUKA_PATH, FLUKA_FOLDER)) =>
        if Script.str_gt (LSF.time a) max_time
        then (SystemExit (Some 1),
              [LoggingError ("Time limit cannot exceed " +:+ max_time)], w)
        else Script.confirm_and_launch t (table (colors t) a FLUKA_PATH FLUKA_FOLDER)
               (LSF.launch_jobs FLUKA_PATH env a) w
    end.

End LSFMain.

Module TSMain.

Definition table (c : Color.palette) (a : TS.args) : list (list string) :=
  let R := Color.R c in let M := Color.M c in
  let B := Color.B c in let Y := Color.Y c in
  [ ["Command"; "Parameter"; "Value"];
    ["-f"; Script.cell c R "Input file"; Script.cell c M (TS.input_file a)];
    ["-n"; Script.cell c R "Number of jobs"; Script.cell c M (pretty (TS.job_number a))];
    ["-c"; Script.cell c M "Custom executable"; Script.cell c M (TS.custom_exe a)];
    ["-d"; Script.cell c B "Output Directory";
     Script.cell c B (Script.shown_output_dir (TS.output_dir a))];
    ["-w"; Script.cell c Y "Dry Run"; Script.cell c Y (Script.bool_text (TS.dry_run a))] ].

(** [FLUKA_PATH] and [FLUKA_FOLDER] are set and not used. *)
Definition main (t : terminal) (env : environment) (a : TS.args) (w : world)
  : outcome * list console * world :=
  if negb (Script.endswith (TS.input_file a) ".inp")
  then (SystemExit (Some 1), [LoggingError "Input file must end with .inp"], w)
  else
    match Script.fluka_paths t with
    | (shown, inl stop) => (stop, shown, w)
    | (_, inr (FLUKA_PATH, FLUKA_FOLDER)) =>
        Script.confirm_and_launch t (table (colors t) a) (TS.launch_jobs env a) w
    end.

End TSMain.

(** *** Vocabulary of the further properties *)

(** The seed [generate_input] derives from the [k]-th number of the generator. *)
Definition seed_of (env : environment) (k : nat) : Z :=
  1 + raw_random env k `mod` int_9E7.

(** The text [generate_input] leaves for the template [content] and [seed]. *)
Definition mutated (content : string) (seed : Z) : string :=
  Py.joinlines (replace_first_marker (Py.readlines (Py.universal_newlines content))
                  (seed_record seed)).

(** The world [w] after one more number of the generator was consumed. *)
Definition drawn (w : world) : world := World (cwd w) (fs w) (trace w) (S (draws w)).

(** The script [generate_sh] of the HTCondor launcher writes for the
    input [input]: the template with its two placeholders filled in. *)
Definition script_text (fluka_path custom_exe input : string) : string :=
"#!/bin/env bash

. /cvmfs/sft.cern.ch/lcg/views/setupViews.sh LCG_97python3 x86_64-centos7-gcc9-opt

" +:+ HTCondor.fluka_command fluka_path custom_exe +:+ " " +:+ input +:+ String "010" "".

(** The name [generate_input] gives the input of job [i]. *)
Definition new_input_of (input_file : string) (i : Z) : string :=
  stripped_name_of input_file +:+ "_" +:+ Py.format_04d i +:+ ".inp".

(** The file system [m] with the directory of job [i] under [root], which
    holds the mutated input. *)
Definition with_job (root : list string) (input_file content : string)
    (env : environment) (d : nat) (i : Z) (m : gmap (list string) node)
  : gmap (list string) node :=
  <[root ++ [job_name i; new_input_of input_file i]
      := File (mutated content (seed_of env d))]>
    (<[root ++ [job_name i] := Dir]> m).

(** The same with the script of the job. *)
Definition with_script (root : list string) (input_file fluka_path custom_exe : string)
    (i : Z) (m : gmap (list string) node) : gmap (list string) node :=
  <[root ++ [job_name i; HTCondorSpec.script_name i]
      := File (script_text fluka_path custom_exe (new_input_of input_file i))]> m.

(** The state in which the turn of job [i] starts under the root [R] of
    [cwd0]: the process is in [cwd0], the root is there, nothing is there
    under the name of the job, and the template is where [input_file] says. *)
Definition ready (cwd0 : list string) (R input_file content : string) (i : Z) (w : world)
  : Prop :=
  cwd w = cwd0 ∧
  fs w !! cwd0 = Some Dir ∧
  fs_closed_up_to w (cwd0 ++ [R]) ∧
  (∀ rest, fs w !! ((cwd0 ++ [R]) ++ job_name i :: rest) = None) ∧
  fs w !! OsPath.resolve cwd0 input_file = Some (File content).

(** The files in the directory of job [i] after its turn, by name: the
    script and the mutated input for the HTCondor launcher, the mutated input
    for the Task Spooler launcher. [d0] is the number of draws before job 1. *)
Definition htcondor_files (env : environment) (input_file content fluka_path custom_exe : string)
    (d0 : nat) (i : Z) (c : string) : option string :=
  if bool_decide (c = HTCondorSpec.script_name i)
  then Some (script_text fluka_path custom_exe (new_input_of input_file i))
  else if bool_decide (c = new_input_of input_file i)
       then Some (mutated content (seed_of env (d0 + Z.to_nat (i - 1))))
       else None.

Definition ts_files (env : environment) (input_file content : string)
    (d0 : nat) (i : Z) (c : string) : option string :=
  if bool_decide (c = new_input_of input_file i)
  then Some (mutated content (seed_of env (d0 + Z.to_nat (i - 1))))
  else None.

(** The file system [m] after the jobs [1..k] under [root], [m0] being the
    file system before the run and [files i] the files of job [i]: nothing
    changed outside the root, and the root holds the directories of these
    jobs, each with its files, and nothing else. *)
Record jobs_done (root : list string) (m0 : gmap (list string) node)
    (files : Z → string → option string) (k : Z) (m : gmap (list string) node)
  : Prop := JobsDone {
  done_frame : ∀ p, ¬ root `prefix_of` p → m !! p = m0 !! p;
  done_root : m !! root = Some Dir;
  done_dirs : ∀ i, 1 ≤ i ≤ k → m !! (root ++ [job_name i]) = Some Dir;
  done_files : ∀ i c, 1 ≤ i ≤ k → m !! (root ++ [job_name i; c]) = File <$> files i c;
  done_only : ∀ c rest, is_Some (m !! (root ++ c :: rest)) →
                (∃ i, 1 ≤ i ≤ k ∧ c = job_name i) ∧ (List.length rest ≤ 1)%nat
}.

(** The world [w] after the turns of the jobs [1..k], [w0] being the world
    in which the loop started and [events i] what the turn of job [i] adds
    to the trace. *)
Definition after_jobs (cwd0 : list string) (R : string) (m0 : gmap (list string) node)
    (files : Z → string → option string) (events : Z → list event)
    (w0 : world) (k : Z) (w : world) : Prop :=
  cwd w = cwd0 ∧
  draws w = (draws w0 + Z.to_nat k)%nat ∧
  trace w = trace w0 ++ List.concat (events <$> seqZ 1 k) ∧
  jobs_done (cwd0 ++ [R]) m0 files k (fs w).

(** What the turn of job [i] of the Task Spooler launcher adds to the
    trace, under the root [R]. *)
Definition ts_turn_events (env : environment) (a : TS.args) (R : string) (i : Z)
  : list event :=
  System ("cp " +:+ TS.input_file a +:+ " " +:+ OsPath.join R (job_name i))
  :: (if TS.dry_run a then [LogInfo (TSSpec.dry_run_line a i)]
      else [SubprocessRun ("ts " +:+ TS.fluka_command (TS.custom_exe a)
                             (TSSpec.new_input a i));
            Print (TSSpec.report env i)]).

(** The setting in which a run can go through: the preferred root name is
    a single path component, every entry of the file system lies in a
    directory, the process is in a directory, and [input_file] names a
    text file whose base name is [<stripped>.inp]. *)
Definition runnable (input_file : string) (output_dir : option string) (content : string)
    (w : world) : Prop :=
  is_name (base_directory_name input_file output_dir) = true ∧
  fs_closed (fs w) ∧
  fs w !! cwd w = Some Dir ∧
  fs w !! OsPath.resolve (cwd w) input_file = Some (File content) ∧
  OsPath.basename input_file = stripped_name_of input_file +:+ ".inp".

(** The setting in which the root can be allocated. *)
Definition allocatable (input_file : string) (output_dir : option string) (w : world)
  : Prop :=
  is_name (base_directory_name input_file output_dir) = true ∧
  fs_closed (fs w) ∧
  fs w !! cwd w = Some Dir.

(** The world [w] with the new directory [R] in the working directory. *)
Definition with_root (R : string) (w : world) : world :=
  with_fs (<[cwd w ++ [R] := Dir]> (fs w)) w.

(** The descriptions handed to [schedd.submit], in order. *)
Definition submitted (evs : list event) : list dict :=
  omap (λ ev, match ev with ScheddSubmit d => Some d | _ => None end) evs.

(** The arguments the Task Spooler launcher has in common with the
    HTCondor launcher. *)
Definition ts_of (a : HTCondor.args) : TS.args :=
  TS.Args (HTCondor.input_file a) (HTCondor.job_number a) (HTCondor.custom_exe a)
    (HTCondor.dry_run a) (HTCondor.output_dir a).

(** The arguments with the dry-run flag set to [b]. *)
Definition with_dry_run (b : bool) (a : HTCondor.args) : HTCondor.args :=
  HTCondor.Args (HTCondor.input_file a) (HTCondor.job_number a) (HTCondor.custom_exe a)
    (HTCondor.queue a) (HTCondor.mem a) (HTCondor.ncpu a) (HTCondor.disk a) (HTCondor.time a)
    b (HTCondor.output_dir a) (HTCondor.transfer_files a)
    (HTCondor.output a) (HTCondor.error a) (HTCondor.log a).

(** [m] adds nothing to the trace. *)
Definition keeps_trace {A} (m : M A) : Prop := ∀ w, trace (m w).2 = trace w.

(** What a main script asks for before it calls [launch_jobs]: an input
    name that ends in [.inp], two calls of [fluka-config] that succeed, and
    the answer [yes] or [y], in any case of the letters. *)
Definition consent (t : terminal) (input_file : string) : Prop :=
  Script.endswith input_file ".inp" = true ∧
  (∃ bin path, fluka_config t "--bin" = Output bin ∧ fluka_config t "--path" = Output path) ∧
  (∃ answer, stdin_line t = Some answer ∧ Script.declined answer = false).

Module Sample.
(** A home directory where the name of the first input is a directory. *)
Definition home_blocked : world :=
  World ["home"; "u"]
    (list_to_map (Demo.dirs ++ [(["home"; "u"; "run.inp"], File Demo.template);
                                (["home"; "u"; "run_0001.inp"], Dir)])) [] 0.

(** The HTCondor client refuses job 2. *)
Definition env_refuse_second : environment :=
  Environment (λ _, 12344) (λ _, Demo.queued) (Ok tt)
    (λ i, if bool_decide (i = 2) then Raise (SchedulerError "refused") else Ok (100 + i)).

(** There is no scheduler to connect to. *)
Definition env_no_scheduler : environment :=
  Environment (λ _, 12344) (λ _, Demo.queued) (Raise (SchedulerError "no schedd"))
    (λ i, Ok (100 + i)).

Definition lsf_args (N : Z) (dry_run : bool) : LSF.args :=
  LSF.Args "run.inp" N "None" "normal" "1500" 1 "1-00:00:00" dry_run None.

Definition palette : Color.palette := Color.Palette "<G>" "<R>" "<Y>" "<B>" "<M>" "<C>" "<RE>".

(** [fluka-config] answers, and the user says yes. *)
Definition terminal_yes : terminal :=
  Terminal palette
    (λ option, if bool_decide (option = "--bin") then Output "/opt/fluka/bin
" else Output "/opt/fluka
")
    (Some "Yes").

(** The same with other answers of [fluka-config]. *)
Definition terminal_elsewhere : terminal :=
  Terminal palette
    (λ option, if bool_decide (option = "--bin") then Output "/usr/local/fluka/bin
" else Output "/usr/local/fluka
")
    (Some "Yes").

(** The same binary directory, written otherwise, and another folder. *)
Definition terminal_moved : terminal :=
  Terminal palette
    (λ option, if bool_decide (option = "--bin") then Output "  /opt/fluka/bin"
               else Output "/srv/fluka
")
    (Some "Yes").

(** A home directory whose template is named [.inp]. *)
Definition home_hidden : world :=
  World ["home"; "u"]
    (list_to_map (Demo.dirs ++ [(["home"; "u"; ".inp"], File Demo.template)])) [] 0.

(** A machine without [fluka-config]. *)
Definition terminal_bare : terminal :=
  Terminal palette (λ _, OSError FileNotFoundError) (Some "yes").
End Sample.

(** ** Part II. Properties *)

(** *** Strings *)

Section strings.
Implicit Types (s t u : string) (c : ascii).

Lemma app_cons c s t : String c s +:+ t = String c (s +:+ t).
Proof. reflexivity. Qed.

Lemma app_empty_l s : "" +:+ s = s.
Proof. reflexivity. Qed.

Lemma app_empty_r s : s +:+ "" = s.
Proof. induction s as [|c s IH]; [done|]. by rewrite app_cons, IH. Qed.

Lemma app_assoc_str s t u : (s +:+ t) +:+ u = s +:+ (t +:+ u).
Proof. induction s as [|c s IH]; [done|]. by rewrite !app_cons, IH. Qed.

Lemma length_app_str s t :
  String.length (s +:+ t) = (String.length s + String.length t)%nat.
Proof. induction s as [|c s IH]; [done|]. rewrite app_cons. simpl. by rewrite IH. Qed.

Lemma length_fill n c : String.length (Py.fill n c) = n.
Proof. induction n as [|n IH]; simpl; congruence. Qed.

Lemma length_rjust width c s :
  String.length (Py.rjust width c s) = (width `max` String.length s)%nat.
Proof. unfold Py.rjust. rewrite length_app_str, length_fill. lia. Qed.

Lemma rjust_long width c s :
  (width ≤ String.length s)%nat → Py.rjust width c s = s.
Proof.
  intros Hlen. unfold Py.rjust.
  by replace (width - String.length s)%nat with 0%nat by lia.
Qed.

Lemma str_take_app s t : Py.str_take (String.length s) (s +:+ t) = s.
Proof. induction s as [|c s IH]; [by destruct t|]. rewrite app_cons. simpl. by rewrite IH. Qed.

Lemma str_take_all s : Py.str_take (String.length s) s = s.
Proof. rewrite <-(app_empty_r s) at 2. apply str_take_app. Qed.

Lemma str_drop_0 s : Py.str_drop 0 s = s.
Proof. by destruct s. Qed.

Lemma str_take_0 s : Py.str_take 0 s = "".
Proof. by destruct s. Qed.

(** [all_chars] and concatenation *)
Lemma all_chars_app P s t :
  Py.all_chars P (s +:+ t) = Py.all_chars P s && Py.all_chars P t.
Proof.
  induction s as [|c s IH]; [done|].
  rewrite app_cons. simpl. rewrite IH. by rewrite andb_assoc.
Qed.

Lemma all_chars_fill P n c : P c = true → Py.all_chars P (Py.fill n c) = true.
Proof. intros Hc. induction n as [|n IH]; simpl; [done|]. by rewrite Hc, IH. Qed.

Lemma all_chars_impl (P Q : ascii → bool) s :
  (∀ c, P c = true → Q c = true) → Py.all_chars P s = true → Py.all_chars Q s = true.
Proof.
  intros HPQ. induction s as [|c s IH]; simpl; [done|].
  intros [Hc Hs]%andb_true_iff. rewrite (HPQ _ Hc). by apply IH.
Qed.
End strings.

(** Decimal numerals as [pretty] prints them. *)

Section numerals.
Implicit Types (x : N) (s : string).

Lemma pretty_N_char_digit x : is_digit (pretty_N_char x) = true.
Proof. unfold pretty_N_char. by repeat case_match. Qed.

Lemma pretty_N_go_digits x s :
  Py.all_chars is_digit s = true → Py.all_chars is_digit (pretty_N_go x s) = true.
Proof.
  revert s. induction (N.lt_wf_0 x) as [x _ IH]; intros s Hs.
  destruct (decide (x = 0)%N) as [->|]; [by rewrite pretty_N_go_0|].
  rewrite pretty_N_go_step by lia. apply IH; [apply N.div_lt; lia|].
  simpl. by rewrite pretty_N_char_digit, Hs.
Qed.

Lemma pretty_N_go_length_le x s (k : nat) :
  (x < 10 ^ N.of_nat k)%N →
  (String.length (pretty_N_go x s) ≤ k + String.length s)%nat.
Proof.
  revert x s. induction k as [|k IH]; intros x s Hx.
  - assert (x = 0%N) as -> by (simpl in Hx; lia). by rewrite pretty_N_go_0.
  - destruct (decide (x = 0)%N) as [->|]; [rewrite pretty_N_go_0; lia|].
    rewrite pretty_N_go_step by lia.
    etrans; [apply IH|simpl; lia].
    apply N.Div0.div_lt_upper_bound.
    by rewrite Nat2N.inj_succ, N.pow_succ_r' in Hx.
Qed.

Lemma pretty_N_go_length_ge x s (k : nat) :
  (10 ^ N.of_nat k ≤ x)%N →
  (S k + String.length s ≤ String.length (pretty_N_go x s))%nat.
Proof.
  revert x s. induction k as [|k IH]; intros x s Hx.
  - simpl in Hx. rewrite pretty_N_go_step by lia.
    assert (∀ y t, (String.length t ≤ String.length (pretty_N_go y t))%nat) as mono.
    { intros y. induction (N.lt_wf_0 y) as [y _ IHy]; intros t.
      destruct (decide (y = 0)%N) as [->|]; [by rewrite pretty_N_go_0|].
      rewrite pretty_N_go_step by lia.
      etrans; [|apply IHy, N.div_lt; lia]. simpl; lia. }
    etrans; [|apply mono]. simpl; lia.
  - rewrite Nat2N.inj_succ, N.pow_succ_r' in Hx.
    rewrite pretty_N_go_step by lia.
    etrans; [|apply IH].
    + simpl; lia.
    + apply N.div_le_lower_bound; lia.
Qed.

(** A positive number is printed without a leading zero. *)
Lemma pretty_N_go_head x s :
  (0 < x)%N → ∃ c r, pretty_N_go x s = String c r ∧ c ≠ "0"%char.
Proof.
  revert s. induction (N.lt_wf_0 x) as [x _ IH]; intros s Hx.
  rewrite pretty_N_go_step by done.
  destruct (decide (x < 10)%N) as [Hlt|Hge].
  - rewrite N.div_small, pretty_N_go_0 by done.
    eexists _, _; split; [done|].
    rewrite N.mod_small by done.
    assert (x = 1 ∨ x = 2 ∨ x = 3 ∨ x = 4 ∨ x = 5 ∨ x = 6
            ∨ x = 7 ∨ x = 8 ∨ x = 9)%N as Hcases by lia.
    destruct Hcases as [->|[->|[->|[->|[->|[->|[->|[->| ->]]]]]]]]; done.
  - apply IH; [apply N.div_lt; lia|]. apply N.div_str_pos; lia.
Qed.
End numerals.

Section pretty_Z.
Implicit Types (i : Z).

Lemma pretty_pos_unfold i : 0 < i → pretty i = pretty_N_go (Z.to_N i) "".
Proof.
  intros Hi. destruct i as [|p|p]; try lia.
  unfold pretty, pretty_Z, pretty, pretty_positive, pretty, pretty_N.
  by rewrite decide_False by lia.
Qed.

Lemma pretty_Z_digits i : 0 ≤ i → Py.all_chars is_digit (pretty i) = true.
Proof.
  intros Hi. destruct (decide (i = 0)) as [->|]; [done|].
  rewrite pretty_pos_unfold by lia. by apply pretty_N_go_digits.
Qed.

Lemma pretty_Z_length_le i (k : nat) :
  0 ≤ i < 10 ^ Z.of_nat k → (1 ≤ k)%nat → (String.length (pretty i) ≤ k)%nat.
Proof.
  intros Hi Hk. destruct (decide (i = 0)) as [->|]; [simpl; lia|].
  rewrite pretty_pos_unfold by lia.
  etrans; [apply (pretty_N_go_length_le _ _ k)|simpl; lia].
  apply N2Z.inj_lt. rewrite Z2N.id, N2Z.inj_pow, nat_N_Z by lia. lia.
Qed.

Lemma pretty_Z_length_ge i (k : nat) :
  10 ^ Z.of_nat k ≤ i → (S k ≤ String.length (pretty i))%nat.
Proof.
  intros Hi. assert (0 < 10 ^ Z.of_nat k) by (apply Z.pow_pos_nonneg; lia).
  rewrite pretty_pos_unfold by lia.
  etrans; [|apply (pretty_N_go_length_ge _ _ k)]; [simpl; lia|].
  apply N2Z.inj_le. rewrite Z2N.id, N2Z.inj_pow, nat_N_Z by lia. lia.
Qed.

Lemma pretty_Z_head i : 0 < i → ∃ c r, pretty i = String c r ∧ c ≠ "0"%char.
Proof. intros Hi. rewrite pretty_pos_unfold by done. apply pretty_N_go_head. lia. Qed.
End pretty_Z.

(** The job index as [f"{i:04d}"] prints it. *)
Section format.
Implicit Types (i j : Z) (s t : string).

Lemma format_04d_nonneg i : 0 ≤ i → Py.format_04d i = Py.rjust 4 "0" (pretty i).
Proof. intros Hi. unfold Py.format_04d. by rewrite bool_decide_eq_false_2 by lia. Qed.

(** Up to 9999 the field is four characters wide. *)
Lemma format_04d_width i : 0 ≤ i ≤ 9999 → String.length (Py.format_04d i) = 4%nat.
Proof.
  intros Hi. rewrite format_04d_nonneg, length_rjust by lia.
  pose proof (pretty_Z_length_le i 4). lia.
Qed.

(** From 1000 on the field is the bare numeral: it grows with the index. *)
Lemma format_04d_grows i : 1000 ≤ i → Py.format_04d i = pretty i.
Proof.
  intros Hi. rewrite format_04d_nonneg by lia. apply rjust_long.
  pose proof (pretty_Z_length_ge i 3). lia.
Qed.

Lemma format_04d_digits i : 0 ≤ i → Py.all_chars is_digit (Py.format_04d i) = true.
Proof.
  intros Hi. rewrite format_04d_nonneg by done. unfold Py.rjust.
  rewrite all_chars_app, all_chars_fill by done. by rewrite pretty_Z_digits.
Qed.

Lemma fill_zero_inj (n m : nat) s t c d s' t' :
  s = String c s' → t = String d t' → c ≠ "0"%char → d ≠ "0"%char →
  Py.fill n "0" +:+ s = Py.fill m "0" +:+ t → s = t.
Proof.
  intros -> -> Hc Hd. revert m.
  induction n as [|n IH]; intros [|m]; simpl; rewrite ?app_cons, ?app_empty_l.
  - done.
  - intros [= -> _]. done.
  - intros [= <- _]. done.
  - intros [= Heq]. by apply (IH m).
Qed.

Lemma format_04d_inj i j : 0 < i → 0 < j → Py.format_04d i = Py.format_04d j → i = j.
Proof.
  intros Hi Hj. rewrite !format_04d_nonneg by lia. unfold Py.rjust. intros Heq.
  destruct (pretty_Z_head i Hi) as (c & r & Hr & Hc).
  destruct (pretty_Z_head j Hj) as (d & r' & Hr' & Hd).
  apply (inj pretty). eapply fill_zero_inj; eauto.
Qed.
End format.

(** *** Paths *)

Section paths.
Implicit Types (s t : string) (c : ascii) (p q : list string).

Lemma free_of_app c s t : free_of c (s +:+ t) = free_of c s && free_of c t.
Proof. apply all_chars_app. Qed.

Lemma digits_free_of c s :
  is_digit c = false → Py.all_chars is_digit s = true → free_of c s = true.
Proof.
  intros Hc. apply all_chars_impl. intros a Ha.
  apply negb_true_iff, bool_decide_eq_false. congruence.
Qed.

Lemma split_free sep s : free_of sep s = true → Py.split sep s = [s].
Proof.
  induction s as [|c s IH]; [done|]. simpl.
  intros [Hc Hs]%andb_true_iff. apply negb_true_iff in Hc. rewrite Hc.
  by rewrite IH.
Qed.

Lemma split_nonempty sep s : Py.split sep s ≠ [].
Proof.
  induction s as [|c s IH]; [done|]. simpl.
  case_bool_decide; [done|]. by destruct (Py.split sep s).
Qed.

(** Splitting at a separator splits the list of components. *)
Lemma split_app_sep sep s t :
  Py.split sep (s +:+ String sep t) = Py.split sep s ++ Py.split sep t.
Proof.
  induction s as [|c s IH].
  - rewrite app_empty_l. simpl. by rewrite bool_decide_eq_true_2.
  - rewrite app_cons. simpl. rewrite IH. case_bool_decide; [done|].
    pose proof (split_nonempty sep s). by destruct (Py.split sep s).
Qed.

(** A suffix without separator extends the last component. *)
Lemma split_app_free sep s t :
  free_of sep t = true →
  ∃ init l, Py.split sep s = init ++ [l] ∧ Py.split sep (s +:+ t) = init ++ [l +:+ t].
Proof.
  intros Ht. induction s as [|c s (init & l & Hs & Hst)].
  - exists [], "". rewrite app_empty_l. split; [done|]. by apply split_free.
  - rewrite app_cons. simpl. rewrite Hs, Hst. case_bool_decide.
    + by exists ("" :: init), l.
    + destruct init as [|h init]; simpl.
      * by exists [], (String c l).
      * by exists (String c h :: init), l.
Qed.

Lemma is_name_free s : is_name s = true → free_of "/" s = true.
Proof. unfold is_name. rewrite !andb_true_iff. by intros [[[? _] _] _]. Qed.

Lemma walk_name p s : is_name s = true → OsPath.walk p s = p ++ [s].
Proof.
  unfold is_name, OsPath.walk. rewrite !andb_true_iff, !negb_true_iff.
  intros [[[_ ->] ->] ->]. done.
Qed.

Lemma starts_with_free c s : free_of c s = true → Py.starts_with_char c s = false.
Proof.
  destruct s as [|a s]; [done|]. simpl.
  intros [Ha _]%andb_true_iff. by apply negb_true_iff in Ha.
Qed.

Lemma ends_with_free c s : free_of c s = true → Py.ends_with_char c s = false.
Proof.
  induction s as [|a s IH]; [done|]. simpl.
  intros [Ha Hs]%andb_true_iff. apply negb_true_iff in Ha.
  destruct s; [done|]. by apply IH.
Qed.

(** A name is resolved to a child of the working directory. *)
Lemma resolve_name p s : is_name s = true → OsPath.resolve p s = p ++ [s].
Proof.
  intros Hs. unfold OsPath.resolve.
  rewrite starts_with_free, split_free by by apply is_name_free.
  simpl. by apply walk_name.
Qed.

(** [os.path.join] of two names is resolved to a grandchild. *)
Lemma resolve_join p s t :
  is_name s = true → is_name t = true →
  OsPath.resolve p (OsPath.join s t) = p ++ [s; t].
Proof.
  intros Hs Ht. unfold OsPath.join.
  rewrite (starts_with_free _ t), (ends_with_free _ s) by by apply is_name_free.
  assert (s ≠ "") as Hne.
  { intros ->. done. }
  rewrite bool_decide_eq_false_2 by done. simpl.
  unfold OsPath.resolve.
  assert (Py.starts_with_char "/" (s +:+ "/" +:+ t) = false) as ->.
  { destruct s as [|a s]; [done|]. rewrite app_cons.
    apply is_name_free in Hs. simpl in *.
    apply andb_true_iff in Hs as [Ha _]. by apply negb_true_iff in Ha. }
  change (s +:+ "/" +:+ t) with (s +:+ String "/" t).
  rewrite split_app_sep, !split_free by by apply is_name_free.
  simpl. rewrite (walk_name p s), (walk_name _ t) by done.
  by rewrite <-app_assoc.
Qed.

Lemma removelast_snoc {A} (l : list A) x : removelast (l ++ [x]) = l.
Proof. by rewrite removelast_app, app_nil_r by done. Qed.

(** ["../.."] leads two levels up. *)
Lemma resolve_up_up p s t : OsPath.resolve (p ++ [s; t]) "../.." = p.
Proof.
  unfold OsPath.resolve. simpl. unfold OsPath.walk. simpl.
  replace (p ++ [s; t]) with ((p ++ [s]) ++ [t]) by by rewrite <-app_assoc.
  by rewrite !removelast_snoc.
Qed.

Lemma rsplit1_none sep s : Py.rsplit1 sep s = None → free_of sep s = true.
Proof.
  unfold free_of. induction s as [|d s IH]; [done|]. simpl.
  destruct (Py.rsplit1 sep s) as [[??]|]; [done|].
  case_bool_decide; [done|]. intros _. by rewrite IH.
Qed.

Lemma rsplit1_free sep s a b : Py.rsplit1 sep s = Some (a, b) → free_of sep b = true.
Proof.
  revert a. induction s as [|c s IH]; intros a; [done|]. simpl.
  destruct (Py.rsplit1 sep s) as [[a' b']|] eqn:Hr.
  - intros [= _ <-]. by eapply IH.
  - case_bool_decide; [|done]. intros [= _ <-]. by apply rsplit1_none.
Qed.

(** [os.path.basename] returns a single component. *)
Lemma basename_free s : free_of "/" (OsPath.basename s) = true.
Proof.
  unfold OsPath.basename.
  destruct (Py.rsplit1 "/" s) as [[a b]|] eqn:Hr.
  - by eapply rsplit1_free.
  - by apply rsplit1_none.
Qed.
End paths.

(** *** Lines of a text *)

Section lines.
Implicit Types (s l body : string) (ls data : list string).

Lemma joinlines_readlines s : Py.joinlines (Py.readlines s) = s.
Proof.
  induction s as [|c s IH]; [done|]. simpl. case_bool_decide.
  - simpl. by rewrite IH.
  - destruct (Py.readlines s) as [|l ls]; simpl in *.
    + by rewrite <-IH.
    + by rewrite app_cons, IH.
Qed.

Lemma terminated_cons c l : c ≠ "010"%char → terminated l → terminated (String c l).
Proof.
  intros Hc (body & -> & Hbody). exists (String c body). split; [done|].
  unfold free_of in *. simpl. by rewrite bool_decide_eq_false_2, Hbody by done.
Qed.

Lemma unterminated_cons c l :
  c ≠ "010"%char → free_of "010" l = true → unterminated (String c l).
Proof.
  intros Hc Hl. split; [done|].
  unfold free_of in *. simpl. by rewrite bool_decide_eq_false_2, Hl by done.
Qed.

Lemma lines_ok_tail l ls : lines_ok (l :: ls) → lines_ok ls.
Proof. destruct ls; simpl; tauto. Qed.

Lemma lines_ok_cons l ls : terminated l → lines_ok ls → lines_ok (l :: ls).
Proof. destruct ls; simpl; tauto. Qed.

Lemma readlines_ok s : lines_ok (Py.readlines s).
Proof.
  induction s as [|c s IH]; [done|]. simpl. case_bool_decide as Hc.
  - subst c. apply lines_ok_cons; [|done]. by exists "".
  - destruct (Py.readlines s) as [|l ls].
    + right. by apply unterminated_cons.
    + destruct ls as [|l' ls].
      * destruct IH as [Hl|[_ Hl]].
        -- left. by apply terminated_cons.
        -- right. by apply unterminated_cons.
      * destruct IH as [Hl IH]. split; [by apply terminated_cons|done].
Qed.

Lemma readlines_terminated body s :
  free_of "010" body = true →
  Py.readlines (body +:+ String "010" s) = (body +:+ String "010" "") :: Py.readlines s.
Proof.
  unfold free_of. induction body as [|c body IH]; [done|]. simpl.
  intros [Hc Hbody]%andb_true_iff. apply negb_true_iff in Hc.
  rewrite !app_cons. simpl. by rewrite Hc, IH.
Qed.

Lemma readlines_unterminated l : unterminated l → Py.readlines l = [l].
Proof.
  intros [Hne Hfree]. unfold free_of in Hfree.
  induction l as [|c l IH]; [done|]. simpl in *.
  apply andb_true_iff in Hfree as [Hc Hl]. apply negb_true_iff in Hc. rewrite Hc.
  destruct l as [|d l]; [done|]. by rewrite IH.
Qed.

(** Reading back what [writelines] wrote returns the same lines. *)
Lemma readlines_joinlines ls : lines_ok ls → Py.readlines (Py.joinlines ls) = ls.
Proof.
  induction ls as [|l ls IH]; [done|]. intros Hok.
  destruct ls as [|l' ls].
  - simpl. rewrite app_empty_r. destruct Hok as [(body & -> & Hb)|Hl].
    + rewrite <-(app_empty_r (body +:+ _)). rewrite app_assoc_str.
      rewrite app_cons, app_empty_l. by rewrite readlines_terminated.
    + by apply readlines_unterminated.
  - destruct Hok as [(body & -> & Hb) Hok].
    change (Py.joinlines ((body +:+ String "010" "") :: l' :: ls))
      with ((body +:+ String "010" "") +:+ Py.joinlines (l' :: ls)).
    rewrite app_assoc_str, app_cons, app_empty_l.
    rewrite readlines_terminated by done. by rewrite IH.
Qed.

(** A text without CR goes through the text layer as it is. *)
Lemma universal_newlines_free s :
  free_of "013" s = true → Py.universal_newlines s = s.
Proof.
  unfold Py.universal_newlines, free_of.
  induction s as [|c s IH]; [done|]. simpl.
  intros [Hc Hs]%andb_true_iff. apply negb_true_iff in Hc. by rewrite Hc, IH.
Qed.

Lemma lines_ok_insert ls (i : nat) l :
  terminated l → lines_ok ls → lines_ok (<[i := l]> ls).
Proof.
  intros Hl. revert i. induction ls as [|l0 ls IH]; intros i Hok; [done|].
  destruct i as [|i]; simpl.
  - apply lines_ok_cons; [done|]. by eapply lines_ok_tail.
  - destruct ls as [|l1 ls]; [done|].
    destruct Hok as [Hl0 Hok]. apply lines_ok_cons; [done|]. by apply IH.
Qed.
End lines.

(** *** The scan for the marker *)

Section scan.
Implicit Types (data pre post : list string) (line new : string).

Lemma replace_first_marker_found data new pre line post :
  data = pre ++ line :: post →
  Forall (λ l, Py.contains MARKER l = false) pre →
  Py.contains MARKER line = true →
  replace_first_marker data new = pre ++ new :: post.
Proof.
  intros -> Hpre Hline. unfold replace_first_marker.
  assert (list_find (λ l, Py.contains MARKER l = true) (pre ++ line :: post)
          = Some (List.length pre, line)) as ->.
  { apply list_find_Some. split_and!.
    - by rewrite list_lookup_middle.
    - done.
    - intros j y Hj Hlt. rewrite lookup_app_l in Hj by done.
      rewrite Forall_forall in Hpre. rewrite (Hpre y); [done|].
      by eapply list_elem_of_lookup_2. }
  rewrite insert_app_r_alt by done. by rewrite Nat.sub_diag.
Qed.

Lemma replace_first_marker_split data new :
  Exists (λ l, Py.contains MARKER l = true) data →
  ∃ pre line post,
    data = pre ++ line :: post ∧
    Forall (λ l, Py.contains MARKER l = false) pre ∧
    Py.contains MARKER line = true ∧
    replace_first_marker data new = pre ++ new :: post.
Proof.
  intros Hex.
  destruct (list_find (λ l, Py.contains MARKER l = true) data) as [[i line]|] eqn:Hfind.
  - apply list_find_Some in Hfind as (Hi & Hline & Hbefore).
    exists (take i data), line, (drop (S i) data).
    assert (data = take i data ++ line :: drop (S i) data) as Hdata
      by by rewrite take_drop_middle.
    assert (Forall (λ l, Py.contains MARKER l = false) (take i data)) as Hpre.
    { apply Forall_forall. intros y [j Hj]%list_elem_of_lookup_1.
      apply lookup_take_Some in Hj as [Hj Hlt].
      specialize (Hbefore j y Hj Hlt). by destruct (Py.contains MARKER y). }
    split_and!; [done..|]. by eapply replace_first_marker_found.
  - apply list_find_None in Hfind. apply Exists_exists in Hex as (l & Hl & HP).
    rewrite Forall_forall in Hfind. by destruct (Hfind l Hl).
Qed.

(** Without a marker the lines are left as they are. *)
Lemma replace_first_marker_absent data new :
  Forall (λ l, Py.contains MARKER l = false) data →
  replace_first_marker data new = data.
Proof.
  intros Hall. unfold replace_first_marker.
  assert (list_find (λ l, Py.contains MARKER l = true) data = None) as ->; [|done].
  apply list_find_None. eapply Forall_impl; [done|]. simpl. congruence.
Qed.

Lemma length_replace_first_marker data new :
  List.length (replace_first_marker data new) = List.length data.
Proof.
  unfold replace_first_marker. destruct (list_find _ _) as [[??]|]; [|done].
  apply length_insert.
Qed.

Lemma lines_ok_replace_first_marker data new :
  terminated new → lines_ok data → lines_ok (replace_first_marker data new).
Proof.
  intros Hnew Hok. unfold replace_first_marker.
  destruct (list_find _ _) as [[??]|]; [|done]. by apply lines_ok_insert.
Qed.
End scan.

(** *** Running a computation *)

Section run.
Context {A B : Type}.
Implicit Types (m : M A) (f : A → M B) (w : world).

Lemma bind_ok m f w a w' : m w = (Ok a, w') → (m ≫= f) w = f a w'.
Proof. intros Hm. unfold mbind, M_bind. by rewrite Hm. Qed.

Lemma bind_raise m f w e w' : m w = (Raise e, w') → (m ≫= f) w = (Raise e, w').
Proof. intros Hm. unfold mbind, M_bind. by rewrite Hm. Qed.
End run.

Lemma lookup_path_resolve p w :
  p ≠ "" → Os.lookup_path p w = fs w !! OsPath.resolve (cwd w) p.
Proof. intros Hp. unfold Os.lookup_path. by rewrite bool_decide_eq_false_2. Qed.

(** *** Where the names of [generate_input] lead *)

Section suffix.
Implicit Types (s t l : string) (p d : list string).

Lemma split_components_free sep s :
  Forall (λ x, free_of sep x = true) (Py.split sep s).
Proof.
  induction s as [|c s IH]; [by repeat constructor|]. simpl.
  case_bool_decide as Hc; [by constructor|].
  destruct (Py.split sep s) as [|h t] eqn:Hsplit; [by apply split_nonempty in Hsplit|].
  apply Forall_cons in IH as [Hh Ht]. constructor; [|done].
  unfold free_of in *. simpl. by rewrite bool_decide_eq_false_2, Hh by done.
Qed.

Lemma starts_with_app c s t :
  free_of c t = true → Py.starts_with_char c (s +:+ t) = Py.starts_with_char c s.
Proof. intros Ht. destruct s; [by apply starts_with_free|done]. Qed.

(** A separator-free text with a character other than the dot is a name. *)
Lemma dotless_is_name s :
  free_of "/" s = true → Py.all_chars is_dot s = false → is_name s = true.
Proof.
  intros Hfree Hdot. unfold is_name. rewrite Hfree. simpl.
  rewrite !andb_true_iff, !negb_true_iff, !bool_decide_eq_false.
  split_and!; by intros ->.
Qed.

(** A path string followed by a separator-free text that is not made of
    dots leads to an entry whose name ends in that text; the directory and
    the stem of the name depend on the path string alone. *)
Lemma resolve_suffix p s :
  ∃ d l, ∀ t, free_of "/" t = true → Py.all_chars is_dot t = false →
    OsPath.resolve p (s +:+ t) = d ++ [l +:+ t].
Proof.
  destruct (split_app_free "/" s "") as (init & l & Hs & _); [done|].
  exists (foldl OsPath.walk (if Py.starts_with_char "/" s then [] else p) init), l.
  intros t Hfree Hdot.
  destruct (split_app_free "/" s t Hfree) as (init' & l' & Hs' & Hst).
  rewrite Hs in Hs'. apply app_inj_tail in Hs' as [<- <-].
  unfold OsPath.resolve. rewrite starts_with_app, Hst, foldl_app by done. simpl.
  apply walk_name, dotless_is_name.
  - rewrite free_of_app, Hfree, andb_true_r.
    pose proof (split_components_free "/" s) as Hall.
    rewrite Hs, Forall_app, Forall_singleton in Hall. tauto.
  - by rewrite all_chars_app, Hdot, andb_false_r.
Qed.

Lemma free_of_cons c a s :
  free_of c (String a s) = negb (bool_decide (a = c)) && free_of c s.
Proof. reflexivity. Qed.

Lemma rjust_digits_free width i :
  0 ≤ i → free_of "/" (Py.rjust width "0" (pretty i)) = true.
Proof.
  intros Hi. unfold Py.rjust. rewrite free_of_app. apply andb_true_iff. split.
  - by apply all_chars_fill.
  - apply digits_free_of; [done|]. by apply pretty_Z_digits.
Qed.

Lemma format_04d_free i : free_of "/" (Py.format_04d i) = true.
Proof.
  unfold Py.format_04d. case_bool_decide.
  - rewrite app_cons, app_empty_l, free_of_cons. simpl.
    apply rjust_digits_free. lia.
  - apply rjust_digits_free. lia.
Qed.

Lemma renamed_suffix_free i : free_of "/" ("_" +:+ Py.format_04d i +:+ ".inp") = true.
Proof.
  rewrite app_cons, app_empty_l, free_of_cons. simpl.
  by rewrite free_of_app, format_04d_free.
Qed.


(** The template and the renamed file lie in one directory, under
    different names. *)
Lemma generate_input_paths p input i :
  ∃ d l,
    OsPath.resolve p (input +:+ ".inp") = d ++ [l +:+ ".inp"] ∧
    OsPath.resolve p (input +:+ "_" +:+ Py.format_04d i +:+ ".inp")
      = d ++ [l +:+ "_" +:+ Py.format_04d i +:+ ".inp"] ∧
    OsPath.resolve p (input +:+ ".inp")
      ≠ OsPath.resolve p (input +:+ "_" +:+ Py.format_04d i +:+ ".inp").
Proof.
  destruct (resolve_suffix p input) as (d & l & Hres).
  exists d, l.
  rewrite (Hres ".inp"), (Hres ("_" +:+ Py.format_04d i +:+ ".inp"))
    by (done || apply renamed_suffix_free).
  split_and!; [done..|].
  intros [=Heq]%(inj (app d)). by apply (inj (String.app l)) in Heq.
Qed.
End suffix.

(** *** [generate_input] on a template that is there *)

Section generate_input.
Variable env : environment.
Implicit Types (w : world) (input content : string) (iteration : Z).

(** The seed [generate_input] draws in the world [w]. *)
Lemma random_randint_seed w :
  random_randint env 1 int_9E7 w
  = (Ok (1 + raw_random env (draws w) `mod` int_9E7),
     World (cwd w) (fs w) (trace w) (S (draws w))).
Proof. reflexivity. Qed.

Lemma generate_input_spec input iteration w content :
  let src := OsPath.resolve (cwd w) (input +:+ ".inp") in
  let file_name := input +:+ "_" +:+ Py.format_04d iteration +:+ ".inp" in
  let dst := OsPath.resolve (cwd w) file_name in
  let seed := 1 + raw_random env (draws w) `mod` int_9E7 in
  fs w !! src = Some (File content) →
  fs w !! dst ≠ Some Dir →
  generate_input env input iteration w
  = (Ok file_name,
     World (cwd w)
       (<[dst := File (Py.joinlines
                         (replace_first_marker (Py.readlines (Py.universal_newlines content))
                            (seed_record seed)))]>
          (delete src (fs w)))
       (trace w) (S (draws w))).
Proof.
  intros src file_name dst seed Hsrc Hdst.
  destruct (generate_input_paths (cwd w) input iteration) as (d & l & _ & _ & Hne).
  fold src in Hne. fold file_name in Hne. fold dst in Hne.
  assert (input +:+ ".inp" ≠ "") as Hne1 by by destruct input.
  assert (file_name ≠ "") as Hne2 by by destruct input.
  unfold generate_input.
  erewrite bind_ok by apply random_randint_seed. fold seed.
  set (w1 := World (cwd w) (fs w) (trace w) (S (draws w))).
  erewrite bind_ok; last first.
  { unfold Os.open_rplus. rewrite lookup_path_resolve by done. simpl.
    fold src. by rewrite Hsrc. }
  erewrite bind_ok; last first.
  { unfold Os.f_readlines, Os.content_of. simpl. fold src. rewrite Hsrc.
    rewrite ?str_drop_0. reflexivity. }
  simpl.
  set (data := replace_first_marker (Py.readlines (Py.universal_newlines content))
                 (seed_record seed)).
  erewrite bind_ok; last first.
  { unfold Os.f_writelines, Os.f_write, Os.content_of. simpl. fold src.
    rewrite Hsrc. rewrite ?str_take_0. reflexivity. }
  erewrite bind_ok; last first.
  { unfold Os.f_truncate, Os.content_of. simpl. fold src.
    rewrite lookup_insert_eq, insert_insert_eq, app_empty_l. by rewrite str_take_app. }
  erewrite bind_ok; last first.
  { unfold Os.rename. rewrite lookup_path_resolve by done. simpl. fold src.
    rewrite lookup_insert_eq. fold file_name. fold dst.
    rewrite bool_decide_eq_false_2 by done.
    rewrite lookup_insert_ne by done.
    destruct (fs w !! dst) as [[|?|?]|] eqn:Hd; [done|reflexivity..]. }
  unfold mret, M_ret. unfold with_fs. simpl. by rewrite delete_insert_eq.
Qed.

Lemma generate_input_names input iteration :
  input +:+ ".inp" ≠ "" ∧ input +:+ "_" +:+ Py.format_04d iteration +:+ ".inp" ≠ "".
Proof. by destruct input. Qed.

(** The steps of [generate_input] up to the rename. *)
Lemma generate_input_rewrites input iteration w content :
  let src := OsPath.resolve (cwd w) (input +:+ ".inp") in
  fs w !! src = Some (File content) →
  generate_input env input iteration w
  = (Os.rename (input +:+ ".inp") (input +:+ "_" +:+ Py.format_04d iteration +:+ ".inp");;
     mret (input +:+ "_" +:+ Py.format_04d iteration +:+ ".inp"))
      (with_fs (<[src := File (mutated content (seed_of env (draws w)))]> (fs w)) (drawn w)).
Proof.
  intros src Hsrc.
  destruct (generate_input_names input iteration) as [Hne1 Hne2].
  unfold generate_input.
  erewrite bind_ok by apply random_randint_seed.
  erewrite bind_ok; last first.
  { unfold Os.open_rplus. rewrite lookup_path_resolve by done. simpl.
    fold src. by rewrite Hsrc. }
  erewrite bind_ok; last first.
  { unfold Os.f_readlines, Os.content_of. simpl. fold src. rewrite Hsrc.
    rewrite ?str_drop_0. reflexivity. }
  simpl.
  erewrite bind_ok; last first.
  { unfold Os.f_writelines, Os.f_write, Os.content_of. simpl. fold src.
    rewrite Hsrc. rewrite ?str_take_0. reflexivity. }
  erewrite bind_ok; last first.
  { unfold Os.f_truncate, Os.content_of. simpl. fold src.
    rewrite lookup_insert_eq, insert_insert_eq, app_empty_l. by rewrite str_take_app. }
  reflexivity.
Qed.

(** The rename of [generate_input] when a directory is in its way. *)
Lemma generate_input_blocked input iteration w content :
  let src := OsPath.resolve (cwd w) (input +:+ ".inp") in
  let dst := OsPath.resolve (cwd w) (input +:+ "_" +:+ Py.format_04d iteration +:+ ".inp") in
  fs w !! src = Some (File content) →
  fs w !! dst = Some Dir →
  generate_input env input iteration w
  = (Raise IsADirectoryError,
     with_fs (<[src := File (mutated content (seed_of env (draws w)))]> (fs w)) (drawn w)).
Proof.
  intros src dst Hsrc Hdst.
  destruct (generate_input_names input iteration) as [Hne1 Hne2].
  rewrite (generate_input_rewrites input iteration w content Hsrc).
  apply bind_raise. unfold Os.rename.
  rewrite lookup_path_resolve by done. cbn [cwd fs with_fs drawn]. fold src.
  rewrite lookup_insert_eq, bool_decide_eq_false_2 by done. fold dst.
  rewrite lookup_insert_ne by (intros Heq; rewrite Heq in Hsrc; congruence).
  by rewrite Hdst.
Qed.
End generate_input.

(** *** What a computation adds to the trace *)

Section trace.
Context {A B : Type}.
Implicit Types (m : M A) (f : A → M B) (w : world) (evs : list event).

Lemma quiet_events_nil : quiet_events [].
Proof. by split. Qed.

Lemma quiet_events_app evs1 evs2 :
  quiet_events evs1 → quiet_events evs2 → quiet_events (evs1 ++ evs2).
Proof.
  intros [Hl1 Hs1] [Hl2 Hs2]. split.
  - unfold log_lines in *. by rewrite omap_app, Hl1, Hl2.
  - by apply Forall_app.
Qed.

Lemma emits_weaken (Q Q' : result A → list event → Prop) m :
  (∀ r evs, Q r evs → Q' r evs) → emits Q m → emits Q' m.
Proof. intros HQ Hm w. destruct (Hm w) as (evs & ? & ?). eauto. Qed.

(** The rule of sequencing. *)
Lemma emits_bind (Q1 : result A → list event → Prop)
    (Q2 : A → result B → list event → Prop) (Q : result B → list event → Prop) m f :
  emits Q1 m →
  (∀ a, emits (Q2 a) (f a)) →
  (∀ e evs, Q1 (Raise e) evs → Q (Raise e) evs) →
  (∀ a evs1 r evs2, Q1 (Ok a) evs1 → Q2 a r evs2 → Q r (evs1 ++ evs2)) →
  emits Q (m ≫= f).
Proof.
  intros Hm Hf Hraise Hok w. unfold mbind, M_bind.
  destruct (Hm w) as (evs1 & Ht1 & HQ1).
  destruct (m w) as [[a|e] w1]; simpl in *.
  - destruct (Hf a w1) as (evs2 & Ht2 & HQ2).
    exists (evs1 ++ evs2). split; [|by eapply Hok].
    by rewrite Ht2, Ht1, <-app_assoc.
  - exists evs1. eauto.
Qed.

(** Sequencing after a quiet computation whose value is known. *)
Lemma emits_after_quiet (Q : result B → list event → Prop) m f a :
  quiet m → returns m a → absorbs Q → emits Q (f a) → emits Q (m ≫= f).
Proof.
  intros Hm Hret [Hraise Hpre] Hf w. unfold mbind, M_bind.
  destruct (Hm w) as (evs1 & Ht1 & HQ1). specialize (Hret w).
  destruct (m w) as [[b|e] w1]; simpl in *.
  - rewrite (Hret b eq_refl).
    destruct (Hf w1) as (evs2 & Ht2 & HQ2).
    exists (evs1 ++ evs2). split; [|by apply Hpre].
    by rewrite Ht2, Ht1, <-app_assoc.
  - exists evs1. eauto.
Qed.

Lemma emits_after_quiet_any (Q : result B → list event → Prop) m f :
  quiet m → absorbs Q → (∀ a, emits Q (f a)) → emits Q (m ≫= f).
Proof.
  intros Hm [Hraise Hpre] Hf.
  eapply emits_bind; [exact Hm|exact Hf|..]; simpl; eauto.
Qed.
End trace.

Lemma absorbs_quiet {A} : absorbs (λ (_ : result A) evs, quiet_events evs).
Proof. split; [done|]. intros _ ???. by apply quiet_events_app. Qed.

Lemma quiet_bind {A B} (m : M A) (f : A → M B) :
  quiet m → (∀ a, quiet (f a)) → quiet (m ≫= f).
Proof. intros. by apply emits_after_quiet_any; [|apply absorbs_quiet|]. Qed.

Lemma quiet_ret {A} (a : A) : quiet (mret a).
Proof. intros w. exists []. simpl. by rewrite app_nil_r. Qed.

Lemma quiet_lift {A} (r : result A) : quiet (lift r).
Proof. intros w. exists []. simpl. by rewrite app_nil_r. Qed.

Lemma quiet_emit ev :
  is_submission ev = false → (∀ m, ev ≠ LogInfo m) → quiet (emit ev).
Proof.
  intros Hs Hl w. exists [ev]. split; [done|]. split.
  - unfold log_lines. simpl. destruct ev; naive_solver.
  - by repeat constructor.
Qed.

(** Operations that leave the trace as it is. *)
Ltac silent :=
  intros w; exists []; rewrite app_nil_r;
  split; [|exact quiet_events_nil];
  repeat (simpl; case_match); simpl; try done.

Section os_trace.
Implicit Types (p name src dst : string) (f : Os.file_obj).

Lemma quiet_random_randint env a b : quiet (random_randint env a b).
Proof. unfold random_randint. silent. Qed.

Lemma quiet_makedirs name : quiet (Os.makedirs name).
Proof. unfold Os.makedirs. silent. Qed.

Lemma quiet_chdir p : quiet (Os.chdir p).
Proof. unfold Os.chdir. silent. Qed.

Lemma quiet_rename src dst : quiet (Os.rename src dst).
Proof. unfold Os.rename. silent. Qed.

Lemma quiet_open_rplus name : quiet (Os.open_rplus name).
Proof. unfold Os.open_rplus. silent. Qed.

Lemma quiet_open_w name : quiet (Os.open_w name).
Proof. unfold Os.open_w. silent. Qed.

Lemma quiet_f_readlines f : quiet (Os.f_readlines f).
Proof. unfold Os.f_readlines. silent. Qed.

Lemma quiet_f_write f text : quiet (Os.f_write f text).
Proof. unfold Os.f_write. silent. Qed.

Lemma quiet_f_truncate f : quiet (Os.f_truncate f).
Proof. unfold Os.f_truncate. silent. Qed.

Lemma quiet_system_cp src dst : quiet (Os.system_cp src dst).
Proof.
  intros w. exists [System ("cp " +:+ src +:+ " " +:+ dst)]. split.
  - unfold Os.system_cp. repeat (simpl; case_match); done.
  - split; [done|]. by repeat constructor.
Qed.

Lemma quiet_chmod p mode : quiet (Os.chmod p mode).
Proof.
  intros w. unfold Os.chmod. destruct (Os.lookup_path p w); simpl.
  - eexists [_]. split; [done|]. split; [done|]. by repeat constructor.
  - exists []. rewrite app_nil_r. split; [done|]. exact quiet_events_nil.
Qed.

Lemma quiet_generate_input env input iteration :
  quiet (generate_input env input iteration).
Proof.
  unfold generate_input.
  apply quiet_bind; [apply quiet_random_randint|intros seed].
  apply quiet_bind; [apply quiet_open_rplus|intros f].
  apply quiet_bind; [apply quiet_f_readlines|intros [data f']].
  apply quiet_bind; [apply quiet_f_write|intros f''].
  apply quiet_bind; [apply quiet_f_truncate|intros _].
  apply quiet_bind; [apply quiet_rename|intros _].
  apply quiet_ret.
Qed.

Lemma returns_generate_input env input iteration :
  returns (generate_input env input iteration)
    (input +:+ "_" +:+ Py.format_04d iteration +:+ ".inp").
Proof.
  intros w b. unfold generate_input, mbind, M_bind, mret, M_ret.
  repeat (case_match; simpl; try done); congruence.
Qed.

Lemma quiet_allocate_root input_file output_dir :
  quiet (allocate_root input_file output_dir).
Proof.
  intros w. unfold allocate_root.
  destruct (probe _ _ _ _ _) as [directory|].
  - apply (quiet_bind (Os.makedirs directory) (λ _, mret directory));
      [apply quiet_makedirs|intros; apply quiet_ret].
  - exists []. simpl. rewrite app_nil_r. split; [done|]. exact quiet_events_nil.
Qed.
End os_trace.

(** *** The log of a dry run *)

Lemma log_lines_cons m evs : log_lines (LogInfo m :: evs) = m :: log_lines evs.
Proof. reflexivity. Qed.

Section dry_run_log.
Context {X : Type}.
Implicit Types (l : list X) (body : X → M unit) (line : X → message).

Lemma absorbs_job_logs {A} (ln : message) : absorbs (@job_logs A ln).
Proof.
  split.
  - intros e evs [Hl Hs]. split; [done|]. by right.
  - intros r evs1 evs2 [Hl Hs] [Hs2 Hlog]. split; [by apply Forall_app|].
    unfold log_lines in *. rewrite omap_app, Hl. exact Hlog.
Qed.

Lemma absorbs_loop_logs {A} line l : absorbs (@loop_logs A X line l).
Proof.
  split.
  - intros e evs [Hl Hs]. split; [done|].
    exists 0%nat. split_and!; [lia|by rewrite take_0|done].
  - intros r evs1 evs2 [Hl Hs] [Hs2 (k & Hk & Hlog & Hok)].
    split; [by apply Forall_app|].
    exists k. split_and!; [done| |done].
    unfold log_lines in *. by rewrite omap_app, Hl.
Qed.

Lemma emits_for_each line l body :
  (∀ x, emits (job_logs (line x)) (body x)) →
  emits (loop_logs line l) (for_each l body).
Proof.
  intros Hbody. induction l as [|x l IH]; simpl.
  - intros w. exists []. simpl. rewrite app_nil_r. split; [done|].
    split; [done|]. by exists 0%nat.
  - eapply (emits_bind _ (λ _, loop_logs line l)); [apply Hbody|intros ?; apply IH|..].
    + intros e evs [Hs [Hlog|[Hlog _]]]; (split; [done|]).
      * exists 1%nat. simpl. split_and!; [lia|by rewrite ?take_0|done].
      * exists 0%nat. simpl. split_and!; [lia|done|done].
    + intros [] evs1 r evs2 [Hs1 [Hlog1|[_ ?]]] [Hs2 (k & Hk & Hlog2 & Hok)]; [|done].
      split; [by apply Forall_app|].
      exists (S k). simpl. split_and!; [lia| |auto].
      unfold log_lines in *. by rewrite omap_app, Hlog1, Hlog2.
Qed.
End dry_run_log.

Lemma take_range (k : nat) (lo hi : Z) :
  (k ≤ List.length (range lo hi))%nat → take k (range lo hi) = seqZ lo (Z.of_nat k).
Proof.
  unfold range, seqZ. rewrite length_fmap, length_seq. intros Hk.
  rewrite <-fmap_take, take_seq, Nat2Z.id. do 2 f_equal. lia.
Qed.

Lemma length_range lo hi : List.length (range lo hi) = Z.to_nat (hi - lo).
Proof. apply length_seqZ. Qed.

Section htcondor_trace.
Variable FLUKA_PATH : string.
Variable env : environment.
Implicit Types (a : HTCondor.args) (i : Z).

Lemma quiet_htcondor_generate_sh input i fluka_path custom_exe :
  quiet (HTCondor.generate_sh input i fluka_path custom_exe).
Proof.
  unfold HTCondor.generate_sh.
  apply quiet_bind; [apply quiet_lift|intros content].
  apply quiet_bind; [apply quiet_open_w|intros sh].
  apply quiet_bind; [apply quiet_f_write|intros _].
  apply quiet_bind; [apply quiet_chmod|intros _].
  apply quiet_ret.
Qed.

Lemma returns_htcondor_generate_sh input i fluka_path custom_exe :
  returns (HTCondor.generate_sh input i fluka_path custom_exe)
    (HTCondorSpec.script_name i).
Proof.
  intros w b. unfold HTCondor.generate_sh, mbind, M_bind, mret, M_ret, lift.
  unfold HTCondorSpec.script_name.
  repeat (case_match; simpl; try done); congruence.
Qed.

(** In a dry run the submission step logs its line and does nothing else. *)
Lemma htcondor_submit_dry a i d w :
  HTCondor.dry_run a = true →
  HTCondor.submit env a i d w
  = (Ok tt, with_event (LogInfo (TextDict "Dry run: condor_submit " d)) w).
Proof. intros Hdry. unfold HTCondor.submit. by rewrite Hdry. Qed.

Lemma htcondor_job_logs a directory i :
  HTCondor.dry_run a = true →
  emits (job_logs (HTCondorSpec.dry_run_line a i))
    (HTCondor.job FLUKA_PATH env a (stripped_name_of (HTCondor.input_file a)) directory i).
Proof.
  intros Hdry. unfold HTCondor.job.
  apply emits_after_quiet_any; [apply quiet_makedirs|apply absorbs_job_logs|intros _].
  apply emits_after_quiet_any; [apply quiet_system_cp|apply absorbs_job_logs|intros _].
  apply emits_after_quiet_any; [apply quiet_chdir|apply absorbs_job_logs|intros _].
  eapply emits_after_quiet;
    [apply quiet_generate_input|apply returns_generate_input|apply absorbs_job_logs|].
  eapply emits_after_quiet;
    [apply quiet_htcondor_generate_sh|apply returns_htcondor_generate_sh
    |apply absorbs_job_logs|].
  intros w. unfold mbind, M_bind. rewrite htcondor_submit_dry by done.
  match goal with
  | |- context [Os.chdir "../.." ?W] =>
      destruct (quiet_chdir "../.." W) as (evs & Ht & Hl & Hs)
  end.
  exists (LogInfo (HTCondorSpec.dry_run_line a i) :: evs). split.
  - rewrite Ht. simpl. by rewrite <-app_assoc.
  - split; [by constructor|]. left. by rewrite log_lines_cons, Hl.
Qed.

Lemma htcondor_launch_logs a :
  HTCondor.dry_run a = true →
  emits (loop_logs (HTCondorSpec.dry_run_line a) (range 1 (HTCondor.job_number a + 1)))
    (HTCondor.launch_jobs FLUKA_PATH env a).
Proof.
  intros Hdry. unfold HTCondor.launch_jobs. rewrite Hdry.
  apply emits_after_quiet_any;
    [apply quiet_allocate_root|apply absorbs_loop_logs|intros directory].
  apply emits_after_quiet_any; [apply quiet_ret|apply absorbs_loop_logs|intros _].
  apply emits_for_each. intros i. by apply htcondor_job_logs.
Qed.

(** Descriptions name the universe [vanilla], dry run or not. *)
Lemma quiet_universe {A} (m : M A) :
  quiet m → emits (λ _ evs, Forall universe_vanilla evs) m.
Proof.
  apply emits_weaken. intros _ evs [Hl Hs].
  induction evs as [|ev evs IH]; [done|].
  apply Forall_cons in Hs as [Hev Hs]. unfold log_lines in Hl. simpl in Hl.
  destruct ev; simplify_eq/=; constructor; auto; exact I.
Qed.

Lemma universe_bind {A B} (m : M A) (f : A → M B) :
  emits (λ _ evs, Forall universe_vanilla evs) m →
  (∀ x, emits (λ _ evs, Forall universe_vanilla evs) (f x)) →
  emits (λ _ evs, Forall universe_vanilla evs) (m ≫= f).
Proof.
  intros Hm Hf. eapply emits_bind; [exact Hm|exact Hf|..]; simpl; [done|].
  intros. by apply Forall_app.
Qed.

Lemma universe_emit ev :
  universe_vanilla ev → emits (λ _ evs, Forall universe_vanilla evs) (emit ev).
Proof. intros Hev w. exists [ev]. split; [done|]. by repeat constructor. Qed.

Lemma htcondor_submit_universe a i input script_name :
  emits (λ _ evs, Forall universe_vanilla evs)
    (HTCondor.submit env a i
       (HTCondor.generate_submit_description i input script_name (HTCondor.mem a)
          (HTCondor.ncpu a) (HTCondor.disk a) (HTCondor.time a)
          (HTCondor.transfer_files a) (HTCondor.output a) (HTCondor.error a)
          (HTCondor.log a))).
Proof.
  unfold HTCondor.submit. destruct (HTCondor.dry_run a).
  - by apply universe_emit.
  - apply universe_bind; [by apply universe_emit|intros _].
    apply universe_bind; [apply quiet_universe, quiet_lift|intros cluster].
    by apply universe_emit.
Qed.

Lemma htcondor_job_universe a stripped_name directory i :
  emits (λ _ evs, Forall universe_vanilla evs)
    (HTCondor.job FLUKA_PATH env a stripped_name directory i).
Proof.
  unfold HTCondor.job.
  apply universe_bind; [apply quiet_universe, quiet_makedirs|intros _].
  apply universe_bind; [apply quiet_universe, quiet_system_cp|intros _].
  apply universe_bind; [apply quiet_universe, quiet_chdir|intros _].
  apply universe_bind; [apply quiet_universe, quiet_generate_input|intros new_input].
  apply universe_bind;
    [apply quiet_universe, quiet_htcondor_generate_sh|intros script_name].
  apply universe_bind; [apply htcondor_submit_universe|intros _].
  apply quiet_universe, quiet_chdir.
Qed.

Lemma universe_for_each {X} (l : list X) (body : X → M unit) :
  (∀ x, emits (λ _ evs, Forall universe_vanilla evs) (body x)) →
  emits (λ _ evs, Forall universe_vanilla evs) (for_each l body).
Proof.
  intros Hbody. induction l as [|x l IH]; simpl.
  - apply quiet_universe, quiet_ret.
  - by apply universe_bind.
Qed.

Lemma htcondor_launch_universe a :
  emits (λ _ evs, Forall universe_vanilla evs) (HTCondor.launch_jobs FLUKA_PATH env a).
Proof.
  unfold HTCondor.launch_jobs.
  apply universe_bind; [apply quiet_universe, quiet_allocate_root|intros directory].
  apply universe_bind.
  - destruct (HTCondor.dry_run a); [apply quiet_universe, quiet_ret|].
    apply universe_bind; [by apply universe_emit|intros _].
    apply quiet_universe, quiet_lift.
  - intros _. apply universe_for_each. intros i. apply htcondor_job_universe.
Qed.
End htcondor_trace.

Section ts_trace.
Variable env : environment.
Implicit Types (a : TS.args) (i : Z).

Lemma ts_submit_dry cmd i w :
  TS.submit env true cmd i w = (Ok tt, with_event (LogInfo (Text ("Dry run: ts " +:+ cmd))) w).
Proof. reflexivity. Qed.

Lemma ts_job_logs a directory i :
  TS.dry_run a = true →
  emits (job_logs (TSSpec.dry_run_line a i))
    (TS.job env a (stripped_name_of (TS.input_file a)) directory i).
Proof.
  intros Hdry. unfold TS.job. rewrite Hdry.
  apply emits_after_quiet_any; [apply quiet_makedirs|apply absorbs_job_logs|intros _].
  apply emits_after_quiet_any; [apply quiet_system_cp|apply absorbs_job_logs|intros _].
  apply emits_after_quiet_any; [apply quiet_chdir|apply absorbs_job_logs|intros _].
  eapply emits_after_quiet;
    [apply quiet_generate_input|apply returns_generate_input|apply absorbs_job_logs|].
  intros w. unfold mbind, M_bind. rewrite ts_submit_dry.
  match goal with
  | |- context [Os.chdir "../.." ?W] =>
      destruct (quiet_chdir "../.." W) as (evs & Ht & Hl & Hs)
  end.
  exists (LogInfo (TSSpec.dry_run_line a i) :: evs). split.
  - rewrite Ht. simpl. by rewrite <-app_assoc.
  - split; [by constructor|]. left. by rewrite log_lines_cons, Hl.
Qed.

Lemma ts_launch_logs a :
  TS.dry_run a = true →
  emits (loop_logs (TSSpec.dry_run_line a) (range 1 (TS.job_number a + 1)))
    (TS.launch_jobs env a).
Proof.
  intros Hdry. unfold TS.launch_jobs.
  apply emits_after_quiet_any;
    [apply quiet_allocate_root|apply absorbs_loop_logs|intros directory].
  apply emits_for_each. intros i. by apply ts_job_logs.
Qed.
End ts_trace.

(** *** The search for a free root name *)

Section probe.
Variable w : world.
Variable base : string.

Lemma candidate_next k :
  0 ≤ k → base +:+ "_" +:+ pretty (k + 1) = candidate base (k + 1).
Proof. intros Hk. unfold candidate. by rewrite bool_decide_eq_false_2 by lia. Qed.

(** What the loop returns is the first free name from where it stands. *)
Lemma probe_first_free fuel k r :
  0 ≤ k →
  probe fuel base (candidate base k) (k + 1) w = Some r →
  ∃ k', k ≤ k' ∧ r = candidate base k' ∧ Os.path_exists r w = false ∧
        ∀ j, k ≤ j < k' → Os.path_exists (candidate base j) w = true.
Proof.
  revert k. induction fuel as [|fuel IH]; intros k Hk; [done|]. simpl.
  destruct (Os.path_exists (candidate base k) w) eqn:Hex.
  - rewrite candidate_next by done. intros Hprobe.
    destruct (IH (k + 1) ltac:(lia) Hprobe) as (k' & Hle & -> & Hfree & Hbefore).
    exists k'. split_and!; [lia|done..|].
    intros j Hj. destruct (decide (j = k)) as [->|]; [done|]. apply Hbefore. lia.
  - intros [= <-]. exists k. split_and!; [lia|done..|]. intros j Hj. lia.
Qed.

(** The loop ends when a free name is within reach of its fuel. *)
Lemma probe_enough fuel k k' :
  0 ≤ k ≤ k' → k' < k + Z.of_nat fuel →
  Os.path_exists (candidate base k') w = false →
  is_Some (probe fuel base (candidate base k) (k + 1) w).
Proof.
  revert k. induction fuel as [|fuel IH]; intros k Hk Hfuel Hfree; [lia|]. simpl.
  destruct (Os.path_exists (candidate base k) w) eqn:Hex; [|done].
  rewrite candidate_next by lia. apply IH; [|lia|done].
  destruct (decide (k = k')) as [->|]; [congruence|lia].
Qed.

Lemma numbered_suffix_free k : 0 ≤ k → free_of "/" ("_" +:+ pretty k) = true.
Proof.
  intros Hk. rewrite app_cons, app_empty_l, free_of_cons. simpl.
  apply digits_free_of; [done|]. by apply pretty_Z_digits.
Qed.

Lemma path_exists_dom p :
  Os.path_exists p w = true → OsPath.resolve (cwd w) p ∈ dom (fs w).
Proof.
  unfold Os.path_exists, Os.lookup_path. intros Hex%bool_decide_eq_true.
  destruct (bool_decide (p = "")); [by destruct Hex|]. by apply elem_of_dom.
Qed.

(** Among the names [base_1 .. base_(n+1)] one is free when the file
    system has [n] entries: they lead to distinct paths. *)
Lemma free_candidate :
  ∃ k, 1 ≤ k ≤ Z.of_nat (size (fs w)) + 1 ∧ Os.path_exists (candidate base k) w = false.
Proof.
  set (n := size (fs w)).
  destruct (decide (Forall (λ k, Os.path_exists (candidate base k) w = true)
                      (seqZ 1 (Z.of_nat n + 1)))) as [Hall|Hex].
  - exfalso.
    destruct (resolve_suffix (cwd w) base) as (d & l & Hres).
    set (path_of := λ k : Z, d ++ [l +:+ "_" +:+ pretty k]).
    assert (Inj (=) (=) path_of) as Hinj.
    { intros k1 k2 Heq. unfold path_of in Heq.
      apply (inj (app d)) in Heq. injection Heq as Heq.
      apply (inj (String.app l)) in Heq. injection Heq as Heq.
      by apply (inj pretty). }
    assert (list_to_set (path_of <$> seqZ 1 (Z.of_nat n + 1)) ⊆ dom (fs w)) as Hsub.
    { intros p [k [-> Hk]]%elem_of_list_to_set%list_elem_of_fmap.
      rewrite Forall_forall in Hall. specialize (Hall k Hk).
      apply elem_of_seqZ in Hk. apply path_exists_dom in Hall.
      unfold candidate in Hall. rewrite bool_decide_eq_false_2 in Hall by lia.
      rewrite Hres in Hall; [done|by apply numbered_suffix_free; lia|done]. }
    apply subseteq_size in Hsub.
    rewrite size_list_to_set, length_fmap, length_seqZ, size_dom in Hsub.
    + fold n in Hsub. lia.
    + apply NoDup_fmap_2; [done|]. apply NoDup_seqZ.
  - apply not_Forall_Exists in Hex; [|apply _].
    apply Exists_exists in Hex as (k & Hk%elem_of_seqZ & Hfree). simpl in Hfree.
    exists k. split; [lia|]. by destruct (Os.path_exists (candidate base k) w).
Qed.

(** The loop of the allocation terminates, with the first free name. *)
Lemma probe_total :
  ∃ k, 0 ≤ k ∧
    probe (S (S (size (fs w)))) base base 1 w = Some (candidate base k) ∧
    Os.path_exists (candidate base k) w = false ∧
    ∀ j, 0 ≤ j < k → Os.path_exists (candidate base j) w = true.
Proof.
  destruct free_candidate as (k' & Hk' & Hfree).
  destruct (probe_enough (S (S (size (fs w)))) 0 k') as [r Hr]; [lia|lia|done|].
  change base with (candidate base 0) in Hr at 2.
  destruct (probe_first_free _ 0 r ltac:(lia) Hr) as (k & Hk & -> & Hfree' & Hbefore).
  exists k. split_and!; [lia|exact Hr|done|done].
Qed.
End probe.

(** *** The file system during a run *)

Section closed.
Implicit Types (m : gmap (list string) node) (p q : list string).

Lemma closed_ancestors m p q :
  fs_closed m → q ≠ [] → is_Some (m !! (p ++ q)) → m !! p = Some Dir.
Proof.
  intros Hclosed. induction q as [|c q IH] using rev_ind; [done|]. intros _ Hsome.
  rewrite app_assoc in Hsome. apply Hclosed in Hsome.
  destruct q as [|c' q']; [by rewrite app_nil_r in Hsome|].
  apply IH; [done|]. by rewrite Hsome.
Qed.

Lemma closed_prefixes m p (n : nat) :
  fs_closed m → m !! p = Some Dir → m !! take n p = Some Dir.
Proof.
  intros Hclosed Hp. destruct (drop n p) as [|c q] eqn:Hdrop.
  - rewrite <-(take_drop n p), Hdrop, app_nil_r in Hp. done.
  - apply (closed_ancestors m _ (c :: q)); [done..|].
    by rewrite <-Hdrop, take_drop, Hp.
Qed.

(** [os.makedirs] of a path whose parent is there creates one directory. *)
Lemma mkdirs_chain m reached todo c :
  (∀ n, (0 < n ≤ List.length todo)%nat → m !! (reached ++ take n todo) = Some Dir) →
  m !! (reached ++ todo ++ [c]) = None →
  Os.mkdirs reached (todo ++ [c]) m = Ok (<[reached ++ todo ++ [c] := Dir]> m).
Proof.
  revert reached. induction todo as [|x todo IH]; intros reached Hpre Hnew; simpl in *.
  - by rewrite Hnew.
  - specialize (Hpre 1%nat ltac:(lia)) as Hx. simpl in Hx. rewrite take_0 in Hx.
    rewrite Hx. rewrite IH.
    + by rewrite <-app_assoc.
    + intros n Hn. specialize (Hpre (S n) ltac:(lia)). simpl in Hpre.
      by rewrite <-app_assoc.
    + by rewrite <-app_assoc.
Qed.

Lemma makedirs_child name w p c :
  name ≠ "" →
  OsPath.resolve (cwd w) name = p ++ [c] →
  fs_closed_up_to w p →
  fs w !! (p ++ [c]) = None →
  Os.makedirs name w = (Ok tt, with_fs (<[p ++ [c] := Dir]> (fs w)) w).
Proof.
  intros Hname Hres Hup Hnew. unfold Os.makedirs.
  rewrite bool_decide_eq_false_2 by done. rewrite Hres.
  rewrite bool_decide_eq_false_2 by (rewrite Hnew; by intros [??]).
  by rewrite (mkdirs_chain _ [] p c).
Qed.
End closed.

Ltac path_neq :=
  let H := fresh in
  intros H; apply (f_equal List.length) in H;
  rewrite ?length_app in H; simpl in H; lia.

Section job_names.
Implicit Types (i j : Z).

Lemma job_name_is_name i : is_name (job_name i) = true.
Proof.
  apply dotless_is_name; [|done].
  unfold job_name. rewrite !app_cons, app_empty_l, !free_of_cons. simpl.
  apply format_04d_free.
Qed.

Lemma job_name_inj i j : 0 < i → 0 < j → job_name i = job_name j → i = j.
Proof.
  intros Hi Hj Heq. apply (inj (String.app "job_")) in Heq. by apply format_04d_inj.
Qed.

Lemma join_names s t :
  is_name s = true → is_name t = true → OsPath.join s t = s +:+ "/" +:+ t.
Proof.
  intros Hs Ht. unfold OsPath.join.
  rewrite (starts_with_free _ t), (ends_with_free _ s) by by apply is_name_free.
  rewrite bool_decide_eq_false_2; [done|]. by intros ->.
Qed.

Lemma join_names_nonempty s t :
  is_name s = true → is_name t = true → OsPath.join s t ≠ "".
Proof. intros Hs Ht. rewrite join_names by done. destruct s; [done|by rewrite app_cons]. Qed.
End job_names.

Section run_invariant.
Variables (cwd0 : list string) (m0 : gmap (list string) node) (R : string).
Variables (env : environment) (input_file content : string).
Local Abbreviation root := (cwd0 ++ [R]).
Local Abbreviation stripped := (stripped_name_of input_file).
Hypothesis HR : is_name R = true.
Hypothesis Hclosed : fs_closed m0.
Hypothesis Hcwd : m0 !! cwd0 = Some Dir.
Hypothesis Hfresh : m0 !! root = None.
Hypothesis Htemplate : m0 !! OsPath.resolve cwd0 input_file = Some (File content).
Hypothesis Hbase : OsPath.basename input_file = stripped +:+ ".inp".
Implicit Types (m : gmap (list string) node) (k i : Z) (w : world).

Lemma nothing_under_root c rest : m0 !! (root ++ c :: rest) = None.
Proof.
  destruct (m0 !! (root ++ c :: rest)) as [x|] eqn:Hx; [|done].
  assert (m0 !! root = Some Dir) as Hroot.
  { apply (closed_ancestors m0 root (c :: rest)); [done..|]. by rewrite Hx. }
  congruence.
Qed.

Lemma outside_root p : is_Some (m0 !! p) → ¬ root `prefix_of` p.
Proof.
  intros Hp [[|c rest] ->].
  - rewrite app_nil_r, Hfresh in Hp. by destruct Hp.
  - rewrite nothing_under_root in Hp. by destruct Hp.
Qed.

Lemma input_file_nonempty : input_file ≠ "".
Proof. intros Heq. rewrite Heq in Hbase. by destruct stripped. Qed.

Lemma template_name_is_name : is_name (stripped +:+ ".inp") = true.
Proof.
  apply dotless_is_name.
  - rewrite <-Hbase. apply basename_free.
  - by rewrite all_chars_app, andb_false_r.
Qed.

Lemma stripped_free : free_of "/" stripped = true.
Proof.
  pose proof template_name_is_name as H%is_name_free.
  rewrite free_of_app in H. by apply andb_true_iff in H as [? _].
Qed.

Lemma new_input_is_name i :
  is_name (stripped +:+ "_" +:+ Py.format_04d i +:+ ".inp") = true.
Proof.
  apply dotless_is_name.
  - by rewrite free_of_app, stripped_free, renamed_suffix_free.
  - by rewrite all_chars_app, andb_false_r.
Qed.

Lemma fs_inv_init : fs_inv root m0 0 (<[root := Dir]> m0).
Proof.
  split.
  - intros p Hp. apply lookup_insert_ne. intros <-. by apply Hp.
  - apply lookup_insert_eq.
  - intros c rest. rewrite lookup_insert_ne by path_neq.
    rewrite nothing_under_root. by intros [??].
  - intros i Hi. lia.
Qed.

Lemma inv_fresh_job k m rest :
  fs_inv root m0 k m → 0 ≤ k → m !! (root ++ job_name (k + 1) :: rest) = None.
Proof.
  intros Hinv Hk. destruct (m !! _) as [x|] eqn:Hx; [|done].
  destruct (inv_under _ _ _ _ Hinv (job_name (k + 1)) rest) as (i & Hi & Heq).
  { by rewrite Hx. }
  apply job_name_inj in Heq; lia.
Qed.

Lemma fs_inv_new_job k m :
  fs_inv root m0 k m → 0 ≤ k →
  fs_inv root m0 (k + 1) (<[root ++ [job_name (k + 1)] := Dir]> m).
Proof.
  intros Hinv Hk. split.
  - intros p Hp. rewrite lookup_insert_ne; [by apply Hinv|].
    intros <-. apply Hp. by eexists.
  - rewrite lookup_insert_ne by path_neq. apply Hinv.
  - intros c rest. rewrite lookup_insert. case_decide as Heq.
    + apply app_inv_head in Heq. injection Heq as <- _. intros _.
      exists (k + 1). split; [lia|done].
    + intros Hsome. destruct (inv_under _ _ _ _ Hinv c rest Hsome) as (i & Hi & ->).
      exists i. split; [lia|done].
  - intros i Hi. rewrite lookup_insert. case_decide; [done|].
    apply Hinv. destruct (decide (i = k + 1)) as [->|]; [done|lia].
Qed.

Lemma fs_inv_insert k m i c rest x :
  fs_inv root m0 k m → 1 ≤ i ≤ k →
  fs_inv root m0 k (<[root ++ job_name i :: c :: rest := x]> m).
Proof.
  intros Hinv Hi. split.
  - intros p Hp. rewrite lookup_insert_ne; [by apply Hinv|].
    intros <-. apply Hp. by eexists.
  - rewrite lookup_insert_ne by path_neq. apply Hinv.
  - intros c' rest'. rewrite lookup_insert. case_decide as Heq.
    + apply app_inv_head in Heq. injection Heq as <- _. intros _. by exists i.
    + apply Hinv.
  - intros j Hj. rewrite lookup_insert_ne by path_neq. by apply Hinv.
Qed.

Lemma fs_inv_delete k m p :
  fs_inv root m0 k m → root `prefix_of` p → p ≠ root →
  (∀ j, p ≠ root ++ [job_name j]) →
  fs_inv root m0 k (delete p m).
Proof.
  intros Hinv Hpre Hroot Hjob. split.
  - intros q Hq. rewrite lookup_delete_ne; [by apply Hinv|]. by intros <-.
  - rewrite lookup_delete_ne by done. apply Hinv.
  - intros c' rest'. rewrite lookup_delete. case_decide; [by intros [??]|]. apply Hinv.
  - intros j Hj. rewrite lookup_delete_ne by done. by apply Hinv.
Qed.

(** The directories down to the root are there all along. *)
Lemma root_up_to k w :
  fs_inv root m0 k (fs w) → fs_closed_up_to w root.
Proof.
  intros Hinv n Hn. rewrite length_app in Hn. simpl in Hn.
  destruct (decide (n ≤ List.length cwd0)%nat) as [Hle|Hgt].
  - rewrite take_app_le by done.
    rewrite (inv_frame _ _ _ _ Hinv); [by apply closed_prefixes|].
    intros [l Hl]. apply (f_equal List.length) in Hl.
    rewrite !length_app, length_take in Hl. simpl in Hl. lia.
  - rewrite take_ge by (rewrite length_app; simpl; lia). apply Hinv.
Qed.

(** The first steps of a turn: the job directory, the copy of the
    template, the change into the directory and the seed mutation. *)
Lemma job_prologue {B} k w (f : string → M B) :
  between_jobs cwd0 R m0 k w → 0 ≤ k →
  let i := k + 1 in
  let job_dir := OsPath.join R (job_name i) in
  let new_input := stripped +:+ "_" +:+ Py.format_04d i +:+ ".inp" in
  ∃ w3,
    (Os.makedirs job_dir ≫= λ _,
     Os.system_cp input_file job_dir ≫= λ _,
     Os.chdir job_dir ≫= λ _,
     generate_input env stripped i ≫= f) w
    = f new_input w3 ∧
    cwd w3 = root ++ [job_name i] ∧
    fs_inv root m0 i (fs w3) ∧
    (∀ c, fs w3 !! (root ++ [job_name i; c]) ≠ Some Dir) ∧
    (∃ seed_text, fs w3 !! (root ++ [job_name i; new_input]) = Some (File seed_text)) ∧
    trace w3 = trace w ++ [System ("cp " +:+ input_file +:+ " " +:+ job_dir)].
Proof.
  intros [Hcwdw Hinv] Hk i job_dir new_input.
  pose proof (job_name_is_name i) as Hjn.
  assert (OsPath.resolve (cwd w) job_dir = root ++ [job_name i]) as Hjd.
  { unfold job_dir. rewrite Hcwdw, resolve_join by done. by rewrite <-app_assoc. }
  assert (job_dir ≠ "") as Hjdne by by apply join_names_nonempty.
  (* os.makedirs *)
  erewrite bind_ok; last first.
  { eapply makedirs_child; [done|exact Hjd|by eapply root_up_to|].
    by apply inv_fresh_job. }
  set (w1 := with_fs _ w).
  assert (fs_inv root m0 i (fs w1)) as Hinv1 by by apply fs_inv_new_job.
  (* cp *)
  set (target := root ++ [job_name i; stripped +:+ ".inp"]).
  erewrite (bind_ok (Os.system_cp _ _) _ w1 tt
    (with_fs (<[target := File content]> (fs w1))
       (with_event (System ("cp " +:+ input_file +:+ " " +:+ job_dir)) w1)));
    last first.
  { unfold Os.system_cp.
    rewrite !lookup_path_resolve by (done || apply input_file_nonempty).
    change (cwd w1) with (cwd w). rewrite Hjd, Hcwdw.
    rewrite (inv_frame _ _ _ _ Hinv1), Htemplate;
      [|apply outside_root; by rewrite Htemplate].
    rewrite (inv_jobs _ _ _ _ Hinv1) by lia.
    rewrite Hbase, <-app_assoc. simpl. fold target.
    assert (<[root ++ [job_name i] := Dir]> (fs w) !! target = None) as ->; [|done].
    unfold target. rewrite lookup_insert_ne by path_neq.
    by apply inv_fresh_job. }
  set (w2 := with_fs _ _).
  assert (fs_inv root m0 i (fs w2)) as Hinv2.
  { unfold w2, target. simpl. apply fs_inv_insert; [done|lia]. }
  (* os.chdir *)
  erewrite (bind_ok (Os.chdir _) _ w2 tt (with_cwd (root ++ [job_name i]) w2));
    last first.
  { unfold Os.chdir. rewrite lookup_path_resolve by done.
    change (cwd w2) with (cwd w). rewrite Hjd.
    by rewrite (inv_jobs _ _ _ _ Hinv2) by lia. }
  set (w2' := with_cwd _ w2).
  (* generate_input *)
  assert (OsPath.resolve (cwd w2') (stripped +:+ ".inp") = target) as Hsrc.
  { unfold w2'. simpl. rewrite resolve_name by apply template_name_is_name.
    by rewrite <-app_assoc. }
  assert (OsPath.resolve (cwd w2') (stripped +:+ "_" +:+ Py.format_04d i +:+ ".inp")
          = root ++ [job_name i; new_input]) as Hdst.
  { unfold w2'. simpl. rewrite resolve_name by apply new_input_is_name.
    by rewrite <-app_assoc. }
  erewrite bind_ok; last first.
  { apply (generate_input_spec env stripped i w2' content).
    - rewrite Hsrc. unfold w2', w2. simpl. apply lookup_insert_eq.
    - rewrite Hdst. unfold w2', w2. simpl. rewrite lookup_insert.
      case_decide; [done|]. unfold w1. simpl.
      rewrite lookup_insert_ne by path_neq.
      by rewrite (inv_fresh_job k) by done. }
  rewrite Hsrc, Hdst. eexists. split; [reflexivity|]. simpl.
  split_and!.
  - done.
  - apply fs_inv_insert; [|lia]. apply fs_inv_delete; [done| | |].
    + exists [job_name i; stripped +:+ ".inp"]. unfold target. by rewrite <-app_assoc.
    + unfold target. path_neq.
    + intros j. unfold target. path_neq.
  - intros c. rewrite lookup_insert. case_decide; [done|].
    rewrite lookup_delete. case_decide; [done|].
    rewrite lookup_insert. case_decide; [done|].
    rewrite lookup_insert_ne by path_neq.
    by rewrite (inv_fresh_job k) by done.
  - eexists. apply lookup_insert_eq.
  - done.
Qed.

(** The last step of a turn. *)
Lemma job_epilogue k w :
  cwd w = root ++ [job_name k] → fs_inv root m0 k (fs w) →
  Os.chdir "../.." w = (Ok tt, with_cwd cwd0 w).
Proof.
  intros Hcwdw Hinv. unfold Os.chdir. rewrite lookup_path_resolve by done.
  rewrite Hcwdw, <-app_assoc. simpl. rewrite resolve_up_up.
  rewrite (inv_frame _ _ _ _ Hinv), Hcwd; [done|].
  intros [l Hl]. apply (f_equal List.length) in Hl. rewrite !length_app in Hl.
  simpl in Hl. lia.
Qed.
End run_invariant.

(** *** The loop of the launchers *)

Lemma htcondor_script_content input fluka_path custom_exe :
  HTCondor.script_content input fluka_path custom_exe
  = Ok ("#!/bin/env bash

. /cvmfs/sft.cern.ch/lcg/views/setupViews.sh LCG_97python3 x86_64-centos7-gcc9-opt

" +:+ HTCondor.fluka_command fluka_path custom_exe +:+ " " +:+ input +:+ String "010" "").
Proof.
  unfold HTCondor.script_content.
  generalize (HTCondor.fluka_command fluka_path custom_exe). intros cmd.
  vm_compute. reflexivity.
Qed.

Lemma script_name_is_name i : is_name (HTCondorSpec.script_name i) = true.
Proof.
  apply dotless_is_name; [|done].
  unfold HTCondorSpec.script_name. rewrite !app_cons, app_empty_l, !free_of_cons. simpl.
  by rewrite free_of_app, format_04d_free.
Qed.

Lemma f_write_spec f text w :
  ∃ content',
    Os.f_write f text w
    = (Ok (Os.FileObj (Os.f_path f) (Os.f_pos f + String.length text)),
       with_fs (<[Os.f_path f := File content']> (fs w)) w).
Proof. by eexists. Qed.

Lemma chmod_spec name mode w p :
  name ≠ "" → OsPath.resolve (cwd w) name = p → is_Some (fs w !! p) →
  Os.chmod name mode w = (Ok tt, with_event (Chmod p mode) w).
Proof.
  intros Hname Hres [x Hx]. unfold Os.chmod.
  by rewrite lookup_path_resolve, Hres, Hx by done.
Qed.

Section loops.
Variables (cwd0 : list string) (m0 : gmap (list string) node) (R : string).
Variables (env : environment) (input_file content : string).
Local Abbreviation root := (cwd0 ++ [R]).
Local Abbreviation stripped := (stripped_name_of input_file).
Hypothesis HR : is_name R = true.
Hypothesis Hclosed : fs_closed m0.
Hypothesis Hcwd : m0 !! cwd0 = Some Dir.
Hypothesis Hfresh : m0 !! root = None.
Hypothesis Htemplate : m0 !! OsPath.resolve cwd0 input_file = Some (File content).
Hypothesis Hbase : OsPath.basename input_file = stripped +:+ ".inp".
Implicit Types (k i N : Z) (w : world).

(** A loop whose turns keep the state between jobs goes through. *)
Lemma for_each_jobs (body : Z → M unit) (events : Z → list event) N (n : nat) k w :
  (∀ k w, 0 ≤ k < N → between_jobs cwd0 R m0 k w →
     ∃ w', body (k + 1) w = (Ok tt, w') ∧ between_jobs cwd0 R m0 (k + 1) w' ∧
           trace w' = trace w ++ events (k + 1)) →
  0 ≤ k → k + Z.of_nat n ≤ N → between_jobs cwd0 R m0 k w →
  ∃ w', for_each (seqZ (k + 1) (Z.of_nat n)) body w = (Ok tt, w') ∧
        between_jobs cwd0 R m0 (k + Z.of_nat n) w' ∧
        trace w' = trace w ++ List.concat (events <$> seqZ (k + 1) (Z.of_nat n)).
Proof.
  intros Hbody. revert k w. induction n as [|n IH]; intros k w Hk HN Hw.
  - exists w. rewrite seqZ_nil by lia. simpl. rewrite app_nil_r, Z.add_0_r. done.
  - rewrite seqZ_cons by lia. simpl.
    destruct (Hbody k w ltac:(lia) Hw) as (w1 & Hrun & Hw1 & Ht1).
    destruct (IH (k + 1) w1 ltac:(lia) ltac:(lia) Hw1) as (w' & Hloop & Hw' & Ht').
    replace (Z.pred (Z.of_nat (S n))) with (Z.of_nat n) by lia.
    replace (Z.succ (k + 1)) with (k + 1 + 1) by lia.
    exists w'. split_and!.
    + erewrite bind_ok by exact Hrun. exact Hloop.
    + by replace (k + Z.of_nat (S n)) with (k + 1 + Z.of_nat n) by lia.
    + by rewrite Ht', Ht1, <-app_assoc.
Qed.

Lemma range_jobs (body : Z → M unit) (events : Z → list event) N w :
  (∀ k w, 0 ≤ k < N → between_jobs cwd0 R m0 k w →
     ∃ w', body (k + 1) w = (Ok tt, w') ∧ between_jobs cwd0 R m0 (k + 1) w' ∧
           trace w' = trace w ++ events (k + 1)) →
  0 ≤ N → between_jobs cwd0 R m0 0 w →
  ∃ w', for_each (range 1 (N + 1)) body w = (Ok tt, w') ∧
        between_jobs cwd0 R m0 N w' ∧
        trace w' = trace w ++ List.concat (events <$> seqZ 1 N).
Proof.
  intros Hbody HN Hw.
  destruct (for_each_jobs body events N (Z.to_nat N) 0 w Hbody) as (w' & Hrun & Hw' & Ht);
    [lia|lia|done|].
  rewrite Z2Nat.id, Z.add_0_l in * by done.
  exists w'. unfold range. by replace (N + 1 - 1) with N by lia.
Qed.

(** [generate_sh] of the HTCondor launcher in the directory of job [i]. *)
Lemma htcondor_generate_sh_ok input i fluka_path custom_exe w :
  1 ≤ i →
  cwd w = root ++ [job_name i] →
  fs_inv root m0 i (fs w) →
  (∀ c, fs w !! (root ++ [job_name i; c]) ≠ Some Dir) →
  ∃ w', HTCondor.generate_sh input i fluka_path custom_exe w
        = (Ok (HTCondorSpec.script_name i), w') ∧
        cwd w' = cwd w ∧ fs_inv root m0 i (fs w') ∧
        trace w' = trace w ++ [Chmod (root ++ [job_name i; HTCondorSpec.script_name i]) 493].
Proof.
  intros Hi Hcwdw Hinv Hfiles. unfold HTCondor.generate_sh.
  rewrite htcondor_script_content. unfold lift. erewrite bind_ok by reflexivity.
  fold (HTCondorSpec.script_name i).
  pose proof (script_name_is_name i) as Hname.
  assert (HTCondorSpec.script_name i ≠ "") as Hne by by intros Heq; rewrite Heq in Hname.
  assert (OsPath.resolve (cwd w) (HTCondorSpec.script_name i)
          = root ++ [job_name i; HTCondorSpec.script_name i]) as Hres.
  { rewrite resolve_name, Hcwdw by done. by rewrite <-app_assoc. }
  set (p := root ++ [job_name i; HTCondorSpec.script_name i]) in *.
  erewrite (bind_ok (Os.open_w _) _ w (Os.FileObj p 0)
              (with_fs (<[p := File ""]> (fs w)) w)); last first.
  { unfold Os.open_w. rewrite bool_decide_eq_false_2 by done. rewrite Hres.
    assert (fs w !! removelast p = Some Dir) as ->.
    { unfold p. replace (root ++ [job_name i; HTCondorSpec.script_name i])
        with ((root ++ [job_name i]) ++ [HTCondorSpec.script_name i])
        by by rewrite <-app_assoc.
      rewrite removelast_snoc. apply Hinv. lia. }
    specialize (Hfiles (HTCondorSpec.script_name i)). fold p in Hfiles.
    by destruct (fs w !! p) as [[|?|?]|]. }
  destruct (f_write_spec (Os.FileObj p 0) ("#!/bin/env bash

. /cvmfs/sft.cern.ch/lcg/views/setupViews.sh LCG_97python3 x86_64-centos7-gcc9-opt

" +:+ HTCondor.fluka_command fluka_path custom_exe +:+ " " +:+ input +:+ String "010" "")
    (with_fs (<[p := File ""]> (fs w)) w)) as (content' & Hwrite).
  erewrite bind_ok by exact Hwrite.
  erewrite bind_ok; last first.
  { apply (chmod_spec _ _ _ p); [done|exact Hres|].
    cbn [fs with_fs Os.f_path]. rewrite lookup_insert_eq. by eexists. }
  eexists. split; [reflexivity|].
  cbn [cwd fs trace with_fs with_event Os.f_path].
  split_and!; [done| |done].
  unfold p. do 2 (apply fs_inv_insert; [|lia]). done.
Qed.

Section htcondor.
Variable FLUKA_PATH : string.
Variable a : HTCondor.args.
Hypothesis Hinput : HTCondor.input_file a = input_file.

Lemma htcondor_submit_ok i w :
  HTCondor.dry_run a = true ∨ is_ok (schedd_submit env i) = true →
  HTCondor.submit env a i (HTCondorSpec.description a i) w
  = (Ok tt, World (cwd w) (fs w) (trace w ++ HTCondorSpec.submit_events env a i)
              (draws w)).
Proof.
  intros Hacc. unfold HTCondor.submit, HTCondorSpec.submit_events.
  destruct (HTCondor.dry_run a) eqn:Hdry; [done|].
  destruct Hacc as [?|Hacc]; [done|].
  destruct (schedd_submit env i) as [cluster|] eqn:Hsub; [|done].
  unfold mbind, M_bind, emit, lift, with_event. simpl.
  rewrite ?Hsub. simpl. by rewrite <-app_assoc.
Qed.

Lemma htcondor_job_ok k w :
  0 ≤ k → between_jobs cwd0 R m0 k w →
  HTCondor.dry_run a = true ∨ is_ok (schedd_submit env (k + 1)) = true →
  ∃ w', HTCondor.job FLUKA_PATH env a stripped R (k + 1) w = (Ok tt, w') ∧
        between_jobs cwd0 R m0 (k + 1) w' ∧
        trace w' = trace w ++ HTCondorSpec.job_events env a cwd0 R (k + 1).
Proof.
  intros Hk Hw Hacc. unfold HTCondor.job. rewrite Hinput.
  edestruct (job_prologue cwd0 m0 R env input_file content)
    as (w3 & Hpro & Hcwd3 & Hinv3 & Hfiles3 & _ & Ht3); [done..|].
  rewrite Hpro. clear Hpro.
  destruct (htcondor_generate_sh_ok
              (stripped +:+ "_" +:+ Py.format_04d (k + 1) +:+ ".inp") (k + 1)
              FLUKA_PATH (HTCondor.custom_exe a) w3)
    as (w4 & Hsh & Hcwd4 & Hinv4 & Ht4); [lia|done..|].
  erewrite bind_ok by exact Hsh.
  pose proof (htcondor_submit_ok (k + 1) w4 Hacc) as Hsub.
  unfold HTCondorSpec.description, HTCondorSpec.new_input in Hsub.
  rewrite Hinput in Hsub.
  erewrite bind_ok by exact Hsub.
  erewrite (job_epilogue cwd0 m0 R) with (k := k + 1);
    [|done| |done]; [|cbn [cwd]; by rewrite Hcwd4].
  eexists. split; [reflexivity|]. cbn [cwd fs trace with_cwd].
  split; [by split|].
  unfold HTCondorSpec.job_events.
  rewrite Ht4, Ht3, Hinput, <-!app_assoc. reflexivity.
Qed.
End htcondor.

Section ts.
Variable a : TS.args.
Hypothesis Hinput : TS.input_file a = input_file.
Hypothesis Hwet : TS.dry_run a = false.

Lemma ts_job_ok k w :
  0 ≤ k → between_jobs cwd0 R m0 k w →
  ∃ w', TS.job env a stripped R (k + 1) w = (Ok tt, w') ∧
        between_jobs cwd0 R m0 (k + 1) w' ∧
        trace w' = trace w ++ TSSpec.job_events env a R (k + 1).
Proof.
  intros Hk Hw. unfold TS.job. rewrite Hinput.
  edestruct (job_prologue cwd0 m0 R env input_file content)
    as (w3 & Hpro & Hcwd3 & Hinv3 & Hfiles3 & _ & Ht3); [done..|].
  rewrite Hpro. clear Hpro.
  rewrite Hwet.
  erewrite (bind_ok (TS.submit _ _ _ _) _ w3 tt
    (World (cwd w3) (fs w3)
       (trace w3 ++ [SubprocessRun ("ts " +:+ TS.fluka_command (TS.custom_exe a)
                                      (TSSpec.new_input a (k + 1)));
                     Print (TSSpec.report env (k + 1))])
       (draws w3))); last first.
  { unfold TS.submit, TSSpec.report, TSSpec.new_input, mbind, M_bind, emit, with_event.
    rewrite Hinput. simpl. by case_bool_decide; simpl; rewrite <-app_assoc. }
  erewrite (job_epilogue cwd0 m0 R) with (k := k + 1); [|done..].
  eexists. split; [reflexivity|]. cbn [cwd fs trace with_cwd].
  split; [by split|].
  unfold TSSpec.job_events. rewrite Ht3, Hinput, <-app_assoc. reflexivity.
Qed.
End ts.
End loops.

(** *** The allocation of the root and the whole run *)

Lemma candidate_is_name P k : is_name P = true → 0 ≤ k → is_name (candidate P k) = true.
Proof.
  intros HP Hk. unfold candidate. case_bool_decide; [done|].
  apply dotless_is_name.
  - rewrite free_of_app, is_name_free by done. by apply numbered_suffix_free.
  - by rewrite all_chars_app, andb_false_r.
Qed.

Lemma path_exists_name name w :
  is_name name = true →
  Os.path_exists name w = bool_decide (is_Some (fs w !! (cwd w ++ [name]))).
Proof.
  intros Hname. unfold Os.path_exists.
  rewrite lookup_path_resolve by by intros ->.
  by rewrite resolve_name.
Qed.

Lemma allocate_root_ok input_file output_dir w :
  let P := base_directory_name input_file output_dir in
  is_name P = true → fs_closed (fs w) → fs w !! cwd w = Some Dir →
  ∃ k, 0 ≤ k ∧
    allocate_root input_file output_dir w
    = (Ok (candidate P k), with_fs (<[cwd w ++ [candidate P k] := Dir]> (fs w)) w) ∧
    fs w !! (cwd w ++ [candidate P k]) = None ∧
    Os.path_exists (candidate P k) w = false ∧
    ∀ j, 0 ≤ j < k → Os.path_exists (candidate P j) w = true.
Proof.
  intros P HP Hclosed Hcwd.
  destruct (probe_total w P) as (k & Hk & Hprobe & Hfree & Hbefore).
  pose proof (candidate_is_name P k HP Hk) as Hname.
  assert (fs w !! (cwd w ++ [candidate P k]) = None) as Hnone.
  { pose proof Hfree as Hfree'. rewrite path_exists_name in Hfree' by done.
    apply bool_decide_eq_false in Hfree'. by apply eq_None_not_Some. }
  exists k. split_and!; [done| |done..].
  unfold allocate_root. fold P. rewrite Hprobe.
  erewrite bind_ok; [reflexivity|].
  apply makedirs_child; [by intros Heq; rewrite Heq in Hname|by apply resolve_name| |done].
  intros n Hn. by apply closed_prefixes.
Qed.

Section whole_run.
Variable env : environment.
Implicit Types (w : world) (content : string).

Lemma htcondor_launch_ok FLUKA_PATH (a : HTCondor.args) w content :
  let P := base_directory_name (HTCondor.input_file a) (HTCondor.output_dir a) in
  is_name P = true → fs_closed (fs w) → fs w !! cwd w = Some Dir →
  fs w !! OsPath.resolve (cwd w) (HTCondor.input_file a) = Some (File content) →
  OsPath.basename (HTCondor.input_file a)
    = stripped_name_of (HTCondor.input_file a) +:+ ".inp" →
  0 ≤ HTCondor.job_number a →
  HTCondor.dry_run a = true ∨ scheduler_accepts env (HTCondor.job_number a) →
  ∃ k w', 0 ≤ k ∧
    HTCondor.launch_jobs FLUKA_PATH env a w = (Ok tt, w') ∧
    Os.path_exists (candidate P k) w = false ∧
    (∀ j, 0 ≤ j < k → Os.path_exists (candidate P j) w = true) ∧
    between_jobs (cwd w) (candidate P k) (fs w) (HTCondor.job_number a) w'.
Proof.
  intros P HP Hclosed Hcwd Htemplate Hbase HN Hacc.
  destruct (allocate_root_ok (HTCondor.input_file a) (HTCondor.output_dir a) w)
    as (k & Hk & Halloc & Hnone & Hfree & Hbefore); [done..|].
  fold P in Halloc, Hnone, Hfree, Hbefore.
  pose proof (candidate_is_name P k HP Hk) as Hname.
  exists k. unfold HTCondor.launch_jobs.
  erewrite bind_ok by exact Halloc.
  set (w1 := with_fs _ w).
  assert (between_jobs (cwd w) (candidate P k) (fs w) 0 w1) as Hw1.
  { split; [done|]. by apply fs_inv_init. }
  assert (∃ w2, (if HTCondor.dry_run a then mret tt
                 else emit ScheddConnect;; lift (schedd_connect env)) w1 = (Ok tt, w2) ∧
                between_jobs (cwd w) (candidate P k) (fs w) 0 w2) as (w2 & Hconn & Hw2).
  { destruct (HTCondor.dry_run a) eqn:Hdry; [by exists w1|].
    destruct Hacc as [?|[Hc _]]; [done|].
    eexists. unfold mbind, M_bind, emit, lift. simpl. rewrite Hc. split; done. }
  erewrite bind_ok by exact Hconn.
  destruct (range_jobs (cwd w) (fs w) (candidate P k)
              (HTCondor.job FLUKA_PATH env a (stripped_name_of (HTCondor.input_file a))
                 (candidate P k))
              (HTCondorSpec.job_events env a (cwd w) (candidate P k))
              (HTCondor.job_number a) w2) as (w' & Hloop & Hw' & _); [|done..|].
  { intros j wj Hj Hwj.
    eapply (htcondor_job_ok (cwd w) (fs w) (candidate P k) env (HTCondor.input_file a)
              content); try done; [lia|].
    destruct Hacc as [?|[_ Hs]]; [by left|]. right. apply Hs. lia. }
  exists w'. split_and!; done.
Qed.

Lemma ts_launch_ok (a : TS.args) w content :
  let P := base_directory_name (TS.input_file a) (TS.output_dir a) in
  is_name P = true → fs_closed (fs w) → fs w !! cwd w = Some Dir →
  fs w !! OsPath.resolve (cwd w) (TS.input_file a) = Some (File content) →
  OsPath.basename (TS.input_file a) = stripped_name_of (TS.input_file a) +:+ ".inp" →
  0 ≤ TS.job_number a →
  TS.dry_run a = false →
  ∃ k w', 0 ≤ k ∧
    TS.launch_jobs env a w = (Ok tt, w') ∧
    between_jobs (cwd w) (candidate P k) (fs w) (TS.job_number a) w' ∧
    trace w' = trace w ++ List.concat (TSSpec.job_events env a (candidate P k)
                                         <$> seqZ 1 (TS.job_number a)).
Proof.
  intros P HP Hclosed Hcwd Htemplate Hbase HN Hwet.
  destruct (allocate_root_ok (TS.input_file a) (TS.output_dir a) w)
    as (k & Hk & Halloc & Hnone & Hfree & Hbefore); [done..|].
  fold P in Halloc, Hnone, Hfree, Hbefore.
  pose proof (candidate_is_name P k HP Hk) as Hname.
  exists k. unfold TS.launch_jobs.
  erewrite bind_ok by exact Halloc.
  set (w1 := with_fs _ w).
  assert (between_jobs (cwd w) (candidate P k) (fs w) 0 w1) as Hw1.
  { split; [done|]. by apply fs_inv_init. }
  destruct (range_jobs (cwd w) (fs w) (candidate P k)
              (TS.job env a (stripped_name_of (TS.input_file a)) (candidate P k))
              (TSSpec.job_events env a (candidate P k))
              (TS.job_number a) w1) as (w' & Hloop & Hw' & Ht); [|done..|].
  { intros j wj Hj Hwj.
    eapply (ts_job_ok (cwd w) (fs w) (candidate P k) env (TS.input_file a) content);
      try done. lia. }
  exists w'. split_and!; done.
Qed.
End whole_run.

(** *** The working directory *)

Lemma bind_inv {A B} (m : M A) (f : A → M B) w b w' :
  (m ≫= f) w = (Ok b, w') → ∃ a w1, m w = (Ok a, w1) ∧ f a w1 = (Ok b, w').
Proof.
  unfold mbind, M_bind. destruct (m w) as [[a|e] w1]; [|done]. eauto.
Qed.

Lemma keeps_cwd_bind {A B} (m : M A) (f : A → M B) :
  keeps_cwd m → (∀ a, keeps_cwd (f a)) → keeps_cwd (m ≫= f).
Proof.
  intros Hm Hf w. unfold mbind, M_bind. specialize (Hm w).
  destruct (m w) as [[a|e] w1]; simpl in *; [|done]. by rewrite Hf.
Qed.

Lemma keeps_cwd_ret {A} (a : A) : keeps_cwd (mret a).
Proof. done. Qed.

Lemma keeps_cwd_lift {A} (r : result A) : keeps_cwd (lift r).
Proof. done. Qed.

Lemma keeps_cwd_emit ev : keeps_cwd (emit ev).
Proof. done. Qed.

Ltac still := intros w; repeat (simpl; case_match); simpl; try done.

Section os_cwd.
Implicit Types (p name src dst : string) (f : Os.file_obj).

Lemma keeps_cwd_random_randint env a b : keeps_cwd (random_randint env a b).
Proof. unfold random_randint. still. Qed.

Lemma keeps_cwd_makedirs name : keeps_cwd (Os.makedirs name).
Proof. unfold Os.makedirs. still. Qed.

Lemma keeps_cwd_system_cp src dst : keeps_cwd (Os.system_cp src dst).
Proof. unfold Os.system_cp. still. Qed.

Lemma keeps_cwd_rename src dst : keeps_cwd (Os.rename src dst).
Proof. unfold Os.rename. still. Qed.

Lemma keeps_cwd_chmod p mode : keeps_cwd (Os.chmod p mode).
Proof. unfold Os.chmod. still. Qed.

Lemma keeps_cwd_open_rplus name : keeps_cwd (Os.open_rplus name).
Proof. unfold Os.open_rplus. still. Qed.

Lemma keeps_cwd_open_w name : keeps_cwd (Os.open_w name).
Proof. unfold Os.open_w. still. Qed.

Lemma keeps_cwd_f_readlines f : keeps_cwd (Os.f_readlines f).
Proof. unfold Os.f_readlines. still. Qed.

Lemma keeps_cwd_f_write f text : keeps_cwd (Os.f_write f text).
Proof. done. Qed.

Lemma keeps_cwd_f_truncate f : keeps_cwd (Os.f_truncate f).
Proof. done. Qed.

Lemma keeps_cwd_generate_input env input iteration :
  keeps_cwd (generate_input env input iteration).
Proof.
  unfold generate_input.
  apply keeps_cwd_bind; [apply keeps_cwd_random_randint|intros seed].
  apply keeps_cwd_bind; [apply keeps_cwd_open_rplus|intros f].
  apply keeps_cwd_bind; [apply keeps_cwd_f_readlines|intros [data f']].
  apply keeps_cwd_bind; [apply keeps_cwd_f_write|intros f''].
  apply keeps_cwd_bind; [apply keeps_cwd_f_truncate|intros _].
  apply keeps_cwd_bind; [apply keeps_cwd_rename|intros _].
  apply keeps_cwd_ret.
Qed.

Lemma keeps_cwd_htcondor_generate_sh input i fluka_path custom_exe :
  keeps_cwd (HTCondor.generate_sh input i fluka_path custom_exe).
Proof.
  unfold HTCondor.generate_sh.
  apply keeps_cwd_bind; [apply keeps_cwd_lift|intros content].
  apply keeps_cwd_bind; [apply keeps_cwd_open_w|intros sh].
  apply keeps_cwd_bind; [apply keeps_cwd_f_write|intros _].
  apply keeps_cwd_bind; [apply keeps_cwd_chmod|intros _].
  apply keeps_cwd_ret.
Qed.

Lemma keeps_cwd_htcondor_submit env a i d : keeps_cwd (HTCondor.submit env a i d).
Proof.
  unfold HTCondor.submit. destruct (HTCondor.dry_run a); [apply keeps_cwd_emit|].
  apply keeps_cwd_bind; [apply keeps_cwd_emit|intros _].
  apply keeps_cwd_bind; [apply keeps_cwd_lift|intros cluster].
  apply keeps_cwd_emit.
Qed.

Lemma keeps_cwd_ts_submit env dry cmd i : keeps_cwd (TS.submit env dry cmd i).
Proof.
  unfold TS.submit. destruct dry; [apply keeps_cwd_emit|].
  apply keeps_cwd_bind; [apply keeps_cwd_emit|intros _].
  case_bool_decide; apply keeps_cwd_emit.
Qed.

(** Where a successful [os.chdir] leads. *)
Lemma chdir_ok p w w' :
  Os.chdir p w = (Ok tt, w') → cwd w' = OsPath.resolve (cwd w) p.
Proof.
  unfold Os.chdir. destruct (Os.lookup_path p w) as [[|?|?]|]; [|done..].
  by intros [= <-].
Qed.

Lemma keeps_cwd_eq {A} (m : M A) w r w' : keeps_cwd m → m w = (r, w') → cwd w' = cwd w.
Proof. intros Hm Hrun. specialize (Hm w). by rewrite Hrun in Hm. Qed.
End os_cwd.

(** A turn that goes through, under a root of one component, ends where it
    began. *)
Section restore.
Variable env : environment.
Implicit Types (w : world) (i : Z).

Lemma htcondor_job_restores FLUKA_PATH a stripped_name directory i w w' :
  is_name directory = true →
  HTCondor.job FLUKA_PATH env a stripped_name directory i w = (Ok tt, w') →
  cwd w' = cwd w.
Proof.
  intros Hdir. unfold HTCondor.job.
  intros ([] & w1 & H1 & Hrun)%bind_inv. apply keeps_cwd_eq in H1; [|apply keeps_cwd_makedirs].
  apply bind_inv in Hrun as ([] & w2 & H2 & Hrun).
  apply keeps_cwd_eq in H2; [|apply keeps_cwd_system_cp].
  apply bind_inv in Hrun as ([] & w3 & H3 & Hrun). apply chdir_ok in H3.
  apply bind_inv in Hrun as (new_input & w4 & H4 & Hrun).
  apply keeps_cwd_eq in H4; [|apply keeps_cwd_generate_input].
  apply bind_inv in Hrun as (script_name & w5 & H5 & Hrun).
  apply keeps_cwd_eq in H5; [|apply keeps_cwd_htcondor_generate_sh].
  apply bind_inv in Hrun as ([] & w6 & H6 & Hrun).
  apply keeps_cwd_eq in H6; [|apply keeps_cwd_htcondor_submit].
  apply chdir_ok in Hrun.
  rewrite Hrun, H6, H5, H4, H3, H2, H1.
  rewrite resolve_join by (done || apply job_name_is_name).
  apply resolve_up_up.
Qed.

Lemma ts_job_restores a stripped_name directory i w w' :
  is_name directory = true →
  TS.job env a stripped_name directory i w = (Ok tt, w') →
  cwd w' = cwd w.
Proof.
  intros Hdir. unfold TS.job.
  intros ([] & w1 & H1 & Hrun)%bind_inv. apply keeps_cwd_eq in H1; [|apply keeps_cwd_makedirs].
  apply bind_inv in Hrun as ([] & w2 & H2 & Hrun).
  apply keeps_cwd_eq in H2; [|apply keeps_cwd_system_cp].
  apply bind_inv in Hrun as ([] & w3 & H3 & Hrun). apply chdir_ok in H3.
  apply bind_inv in Hrun as (new_input & w4 & H4 & Hrun).
  apply keeps_cwd_eq in H4; [|apply keeps_cwd_generate_input].
  apply bind_inv in Hrun as ([] & w6 & H6 & Hrun).
  apply keeps_cwd_eq in H6; [|apply keeps_cwd_ts_submit].
  apply chdir_ok in Hrun.
  rewrite Hrun, H6, H4, H3, H2, H1.
  rewrite resolve_join by (done || apply job_name_is_name).
  apply resolve_up_up.
Qed.
End restore.

(** *** The LSF launcher never reaches its submission step *)

Section lsf.
Variable FLUKA_PATH : string.
Variable env : environment.

(** The template names [$queue], which [generate_sh] does not pass. *)
Lemma lsf_substitute_raises input fluka_path custom_exe pog_dir mem ntasks time :
  Py.substitute LSF.SCRIPT_TEMPLATE
    (LSF.script_mapping input fluka_path custom_exe pog_dir mem ntasks time)
  = Raise (KeyError "queue").
Proof.
  unfold LSF.script_mapping.
  generalize (LSF.fluka_command fluka_path custom_exe) (pretty ntasks).
  intros cmd n. vm_compute. reflexivity.
Qed.

Lemma lsf_generate_sh_raises input i fluka_path custom_exe mem ntasks time w :
  LSF.generate_sh input i fluka_path custom_exe mem ntasks time w
  = (Raise (KeyError "queue"), w).
Proof.
  unfold LSF.generate_sh. rewrite lsf_substitute_raises. reflexivity.
Qed.

Lemma lsf_job_never_returns a stripped_name directory i w w' :
  LSF.job FLUKA_PATH env a stripped_name directory i w ≠ (Ok tt, w').
Proof.
  unfold LSF.job.
  intros ([] & w1 & _ & Hrun)%bind_inv.
  apply bind_inv in Hrun as ([] & w2 & _ & Hrun).
  apply bind_inv in Hrun as ([] & w3 & _ & Hrun).
  apply bind_inv in Hrun as (new_input & w4 & _ & Hrun).
  apply bind_inv in Hrun as ([] & w5 & Hsh & _).
  by rewrite lsf_generate_sh_raises in Hsh.
Qed.
End lsf.

(** *** The seed record *)

Lemma free_of_fill c n a : a ≠ c → free_of c (Py.fill n a) = true.
Proof.
  intros Hne. apply all_chars_fill. by rewrite bool_decide_eq_false_2.
Qed.

Lemma seed_in_range env w :
  1 ≤ 1 + raw_random env (draws w) `mod` int_9E7 ≤ 90000000.
Proof.
  unfold int_9E7. pose proof (Z.mod_pos_bound (raw_random env (draws w)) 90000000). lia.
Qed.

Lemma seed_record_ok seed : 1 ≤ seed ≤ 90000000 → record_ok seed.
Proof.
  intros Hseed.
  assert (String.length (pretty seed) ≤ 8)%nat as Hlen.
  { apply pretty_Z_length_le; [|lia]. change (10 ^ Z.of_nat 8) with 100000000. lia. }
  assert (Py.all_chars is_digit (pretty seed) = true) as Hdigits
    by (apply pretty_Z_digits; lia).
  set (body := "RANDOMIZ          1." +:+ Py.format_r10n seed).
  assert (seed_record seed = body +:+ String "010" "") as Hrec.
  { unfold seed_record, body. by rewrite app_assoc_str. }
  assert (free_of "010" body = true) as Hbody.
  { unfold body, Py.format_r10n, Py.rjust.
    rewrite !free_of_app, free_of_fill by done.
    by rewrite (digits_free_of "010" _ eq_refl Hdigits). }
  split_and!.
  - exists (10 - String.length (pretty seed))%nat. split; [|lia].
    unfold seed_record, Py.format_r10n, Py.rjust. by rewrite !app_assoc_str.
  - done.
  - rewrite Hrec. unfold body, Py.format_r10n.
    rewrite !length_app_str, length_rjust. simpl. lia.
  - by exists body.
  - rewrite Hrec, readlines_terminated by done. done.
Qed.

(** *** Computations that leave the trace as it is *)

Section traces.
Lemma keeps_trace_bind {A B} (m : M A) (f : A → M B) :
  keeps_trace m → (∀ a, keeps_trace (f a)) → keeps_trace (m ≫= f).
Proof.
  intros Hm Hf w. unfold mbind, M_bind. specialize (Hm w).
  destruct (m w) as [[x|e] w1]; simpl in *; [|done]. by rewrite Hf.
Qed.

Lemma keeps_trace_ret {A} (x : A) : keeps_trace (mret x).
Proof. done. Qed.

Lemma keeps_trace_random_randint env a b : keeps_trace (random_randint env a b).
Proof. unfold random_randint. still. Qed.

Lemma keeps_trace_makedirs name : keeps_trace (Os.makedirs name).
Proof. unfold Os.makedirs. still. Qed.

Lemma keeps_trace_chdir p : keeps_trace (Os.chdir p).
Proof. unfold Os.chdir. still. Qed.

Lemma keeps_trace_rename src dst : keeps_trace (Os.rename src dst).
Proof. unfold Os.rename. still. Qed.

Lemma keeps_trace_open_rplus name : keeps_trace (Os.open_rplus name).
Proof. unfold Os.open_rplus. still. Qed.

Lemma keeps_trace_generate_input env input iteration :
  keeps_trace (generate_input env input iteration).
Proof.
  unfold generate_input.
  apply keeps_trace_bind; [apply keeps_trace_random_randint|intros seed].
  apply keeps_trace_bind; [apply keeps_trace_open_rplus|intros f].
  apply keeps_trace_bind; [unfold Os.f_readlines; still|intros [data f']].
  apply keeps_trace_bind; [done|intros f''].
  apply keeps_trace_bind; [done|intros _].
  apply keeps_trace_bind; [apply keeps_trace_rename|intros _].
  apply keeps_trace_ret.
Qed.

Lemma keeps_trace_allocate_root input_file output_dir :
  keeps_trace (allocate_root input_file output_dir).
Proof.
  intros w. unfold allocate_root. destruct (probe _ _ _ _ _); [|done].
  apply (keeps_trace_bind (Os.makedirs _) (λ _, mret _));
    [apply keeps_trace_makedirs|intros _; apply keeps_trace_ret].
Qed.

Lemma keeps_trace_eq {A} (m : M A) w r w' :
  keeps_trace m → m w = (r, w') → trace w' = trace w.
Proof. intros Hm Hrun. specialize (Hm w). by rewrite Hrun in Hm. Qed.

Lemma system_cp_trace src dst w :
  ∃ w', Os.system_cp src dst w = (Ok tt, w') ∧
        trace w' = trace w ++ [System ("cp " +:+ src +:+ " " +:+ dst)].
Proof.
  unfold Os.system_cp. repeat case_match; eexists; split; try reflexivity.
Qed.
End traces.

Section lsf_runs.
Variable FLUKA_PATH : string.
Variable env : environment.

(** A turn of the LSF launcher raises, having run at most the copy. *)
Lemma lsf_job_raises a stripped_name directory i w :
  ∃ e w' evs, LSF.job FLUKA_PATH env a stripped_name directory i w = (Raise e, w') ∧
              trace w' = trace w ++ evs ∧
              Forall (λ ev, ∃ cmd, ev = System cmd) evs.
Proof.
  unfold LSF.job.
  destruct (Os.makedirs (OsPath.join directory ("job_" +:+ Py.format_04d i)) w)
    as [[[]|e] w1] eqn:H1.
  2:{ exists e, w1, []. erewrite bind_raise by exact H1.
      rewrite app_nil_r. split_and!; [done| |constructor].
      by eapply keeps_trace_eq; [apply keeps_trace_makedirs|]. }
  erewrite bind_ok by exact H1.
  apply (keeps_trace_eq _ _ _ _ (keeps_trace_makedirs _)) in H1.
  destruct (system_cp_trace (LSF.input_file a)
              (OsPath.join directory ("job_" +:+ Py.format_04d i)) w1)
    as (w2 & H2 & Ht2).
  erewrite bind_ok by exact H2. rewrite H1 in Ht2.
  assert (∀ w', trace w' = trace w2 →
            ∃ evs, trace w' = trace w ++ evs ∧
                   Forall (λ ev, ∃ cmd, ev = System cmd) evs) as Hcp.
  { intros w' ->. eexists. split; [exact Ht2|]. repeat constructor. by eexists. }
  destruct (Os.chdir (OsPath.join directory ("job_" +:+ Py.format_04d i)) w2)
    as [[[]|e] w3] eqn:H3.
  2:{ exists e, w3. erewrite bind_raise by exact H3.
      apply (keeps_trace_eq _ _ _ _ (keeps_trace_chdir _)) in H3.
      destruct (Hcp w3 H3) as (evs & ? & ?). by exists evs. }
  erewrite bind_ok by exact H3.
  apply (keeps_trace_eq _ _ _ _ (keeps_trace_chdir _)) in H3.
  destruct (generate_input env stripped_name i w3) as [[new_input|e] w4] eqn:H4.
  2:{ exists e, w4. erewrite bind_raise by exact H4.
      apply (keeps_trace_eq _ _ _ _ (keeps_trace_generate_input _ _ _)) in H4.
      destruct (Hcp w4) as (evs & ? & ?); [congruence|]. by exists evs. }
  erewrite bind_ok by exact H4.
  apply (keeps_trace_eq _ _ _ _ (keeps_trace_generate_input _ _ _)) in H4.
  exists (KeyError "queue"), w4.
  erewrite bind_raise by apply lsf_generate_sh_raises.
  destruct (Hcp w4) as (evs & ? & ?); [congruence|]. by exists evs.
Qed.
End lsf_runs.

(** ** Part III. The claims *)

(** *** C4: the seed record *)

(** C4 (as stated, refuted). The seed is not always below 90 000 000:
    [random.randint(1, int(9E7))] includes its upper bound, and when the
    generator yields the largest remainder the record written holds
    90000000. *)
Lemma C4_seed_reaches_90000000 :
  (random_randint Demo.env_top 1 int_9E7 Demo.home).1 = Ok 90000000 ∧
  ¬ (90000000 < 90000000) ∧
  fs (generate_input Demo.env_top "run" 1 Demo.home).2 !! ["home"; "u"; "run_0001.inp"]
  = Some (File
"TITLE
RANDOMIZ          1.  90000000
RANDOMIZ again
STOP
").
Proof. split_and!; [reflexivity|lia|vm_compute; reflexivity]. Qed.

(** What [generate_input] leaves of a template that is there: the lines it
    has read with the record of the seed drawn, under the new name or, when
    a directory is in the way of the rename, under the old one. *)
Lemma generate_input_leaves env input iteration w content :
  fs w !! OsPath.resolve (cwd w) (input +:+ ".inp") = Some (File content) →
  left_with input iteration w (generate_input env input iteration w)
    (mutated content (seed_of env (draws w))).
Proof.
  intros Hsrc. unfold left_with.
  destruct (generate_input_paths (cwd w) input iteration) as (d & l & _ & _ & Hne).
  destruct (decide (fs w !! OsPath.resolve (cwd w)
                      (input +:+ "_" +:+ Py.format_04d iteration +:+ ".inp") = Some Dir))
    as [Hdst|Hdst].
  - right. rewrite (generate_input_blocked env input iteration w content Hsrc Hdst).
    simpl. split_and!; [done..|]. apply lookup_insert_eq.
  - left. rewrite (generate_input_spec env input iteration w content Hsrc Hdst).
    simpl. split_and!; [done| |apply lookup_insert_eq].
    rewrite lookup_insert_ne by done. apply lookup_delete_eq.
Qed.

(** C4 (amended). Every seed record the mutator writes is a single line
    made of the marker token, ten blanks and the literal [1.], the seed
    right-aligned in a field of width 10 and a newline, where the seed is an
    integer of the closed range [1, 90 000 000]: the file [generate_input]
    leaves holds that record as the line that stood first with the marker. *)
Theorem C4_seed_record env input iteration w content :
  fs w !! OsPath.resolve (cwd w) (input +:+ ".inp") = Some (File content) →
  Exists (λ l, Py.contains MARKER l = true) (Py.readlines (Py.universal_newlines content)) →
  seed_record_written env input iteration w content.
Proof.
  intros Hsrc Hmarker.
  pose proof (seed_in_range env w) as Hseed.
  set (seed := 1 + raw_random env (draws w) `mod` int_9E7) in *.
  destruct (replace_first_marker_split _ (seed_record seed) Hmarker)
    as (pre & line & post & Hdata & Hpre & Hline & Hrep).
  exists seed, pre, line, post.
  split; [exact Hseed|]. split; [by apply seed_record_ok|].
  do 3 (split; [done|]). split.
  - rewrite <-Hrep. apply (generate_input_leaves env input iteration w content Hsrc).
  - rewrite <-Hrep. apply readlines_joinlines, lines_ok_replace_first_marker.
    + by apply seed_record_ok.
    + apply readlines_ok.
Qed.

(** The record in the template of [Demo.home], whose first line with the
    marker is the second line. *)
Lemma C4_seed_record_witness :
  fs (generate_input Demo.env "run" 1 Demo.home).2 !! ["home"; "u"; "run_0001.inp"]
  = Some (File
"TITLE
RANDOMIZ          1.     12345
RANDOMIZ again
STOP
") ∧
  seed_record_written Demo.env "run" 1 Demo.home Demo.template.
Proof.
  split; [vm_compute; reflexivity|].
  apply C4_seed_record.
  - vm_compute. reflexivity.
  - vm_compute. apply Exists_cons_tl, Exists_cons_hd. reflexivity.
Defined.

(** *** C5: the first marker line, and no other *)

(** C5 (as stated, refuted). Not for every template with a marker line:
    the file is read and written as text. A template with the line ends
    CR LF comes back with the line end LF on every line, so that the other
    lines are not left byte for byte; and on a template that does not decode
    the call raises [UnicodeDecodeError] and replaces no line. *)
Lemma C5_not_for_every_template :
  (let out := generate_input Demo.env "run" 1 Demo.home_crlf in
   out.1 = Ok "run_0001.inp" ∧
   fs out.2 !! ["home"; "u"; "run_0001.inp"]
   = Some (File
"TITLE
RANDOMIZ          1.     12345
RANDOMIZ again
STOP
") ∧
   Py.readlines Demo.template_crlf !! 0%nat = Some ("TITLE" +:+ Demo.CRLF) ∧
   "TITLE" +:+ Demo.CRLF ≠ "TITLE
" ∧
   ¬ first_marker_replaced Demo.env "run" 1 Demo.home_crlf Demo.template_crlf) ∧
  (let out := generate_input Demo.env "run" 1 Demo.home_raw in
   Py.contains MARKER Demo.undecodable = true ∧
   out.1 = Raise UnicodeDecodeError ∧
   fs out.2 !! ["home"; "u"; "run.inp"] = Some (Raw Demo.undecodable)).
Proof.
  cbv zeta. split_and!.
  1-3, 6-8: (vm_compute; reflexivity).
  { discriminate. }
  intros (pre & line & post & content' & Hdata & Hpre & Hline & Hleft & _ & Hback & _).
  destruct Hleft as [(_ & _ & Hdst)|(Herr & _)]; [|vm_compute in Herr; discriminate].
  vm_compute in Hdst. injection Hdst as <-.
  destruct pre as [|l pre].
  - injection Hdata as <- _. vm_compute in Hline. discriminate.
  - injection Hdata as <- _. injection Hback as Hfirst _. vm_compute in Hfirst.
    discriminate.
Qed.

(** C5 (amended). For every template that is a text file with the line
    end LF throughout and whose body holds a line with the seed marker, the
    mutator replaces the first such line, in file order, with the new seed
    record and leaves every other line, also a later one with the marker,
    byte for byte as it was; the output has as many lines as the input. *)
Theorem C5_first_marker_line_only env input iteration w content :
  fs w !! OsPath.resolve (cwd w) (input +:+ ".inp") = Some (File content) →
  free_of "013" content = true →
  Exists (λ l, Py.contains MARKER l = true) (Py.readlines content) →
  first_marker_replaced env input iteration w content.
Proof.
  intros Hsrc Hlf Hmarker. unfold first_marker_replaced.
  set (seed := 1 + raw_random env (draws w) `mod` int_9E7).
  destruct (replace_first_marker_split (Py.readlines content) (seed_record seed) Hmarker)
    as (pre & line & post & Hdata & Hpre & Hline & Hrep).
  pose proof (generate_input_leaves env input iteration w content Hsrc) as Hleft.
  unfold mutated, seed_of in Hleft. fold seed in Hleft.
  rewrite (universal_newlines_free content Hlf), Hrep in Hleft.
  assert (Py.readlines (Py.joinlines (pre ++ seed_record seed :: post))
          = pre ++ seed_record seed :: post) as Hback.
  { rewrite <-Hrep. apply readlines_joinlines, lines_ok_replace_first_marker.
    - apply seed_record_ok, seed_in_range.
    - apply readlines_ok. }
  exists pre, line, post, (Py.joinlines (pre ++ seed_record seed :: post)).
  split_and!; [done..|].
  rewrite Hback, Hdata, !length_app. done.
Qed.

(** The template of [Demo.home] has two lines with the marker; only the
    first is replaced. *)
Lemma C5_first_marker_line_only_witness :
  fs (generate_input Demo.env "run" 1 Demo.home).2 !! ["home"; "u"; "run_0001.inp"]
  = Some (File
"TITLE
RANDOMIZ          1.     12345
RANDOMIZ again
STOP
") ∧
  first_marker_replaced Demo.env "run" 1 Demo.home Demo.template.
Proof.
  split; [vm_compute; reflexivity|].
  apply C5_first_marker_line_only.
  - vm_compute. reflexivity.
  - vm_compute. reflexivity.
  - vm_compute. apply Exists_cons_tl, Exists_cons_hd. reflexivity.
Defined.

(** *** C6: the rename *)

(** C6 (as stated, refuted). The rename does not hold for every template
    file and every index, and the content is not always the original one. A
    template without marker and with the line ends CR LF is renamed with the
    line end LF in their place; a template that does not decode makes the
    call raise [UnicodeDecodeError] before the rename, so that [<base>.inp]
    stays; and when the new name is that of a directory, [os.rename] raises
    and [<base>.inp] stays. *)
Lemma C6_rename_fails :
  (let out := generate_input Demo.env "run" 7 Demo.home_plain_crlf in
   out.1 = Ok "run_0007.inp" ∧
   fs out.2 !! ["home"; "u"; "run_0007.inp"] = Some (File Demo.plain) ∧
   Demo.plain ≠ Demo.plain_crlf) ∧
  (let out := generate_input Demo.env "run" 7 Demo.home_raw in
   out.1 = Raise UnicodeDecodeError ∧
   fs out.2 !! ["home"; "u"; "run.inp"] = fs Demo.home_raw !! ["home"; "u"; "run.inp"] ∧
   is_Some (fs out.2 !! ["home"; "u"; "run.inp"]) ∧
   fs out.2 !! ["home"; "u"; "run_0007.inp"] = None) ∧
  (let out := generate_input Demo.env "run" 1 Demo.home_plain_blocked in
   out.1 = Raise IsADirectoryError ∧
   fs out.2 !! ["home"; "u"; "run.inp"] = Some (File Demo.plain) ∧
   fs out.2 !! ["home"; "u"; "run_0001.inp"] = Some Dir).
Proof.
  cbv zeta. split_and!; try (vm_compute; reflexivity); try (vm_compute; discriminate).
  vm_compute. by eexists.
Qed.

(** C6 (amended). For every template that is a text file and every
    iteration index whose new name is not that of a directory, the mutator
    renames [<base>.inp] to [<base>_<iteration:04d>.inp] and returns that
    name, so [<base>.inp] is gone after the call; without a marker line the
    rename still happens, no error is raised, and the content of the renamed
    file is the original one when the template has the line end LF
    throughout (with CR LF and CR, that content with LF in their place). *)
Theorem C6_rename env input iteration w content :
  fs w !! OsPath.resolve (cwd w) (input +:+ ".inp") = Some (File content) →
  fs w !! OsPath.resolve (cwd w) (input +:+ "_" +:+ Py.format_04d iteration +:+ ".inp")
    ≠ Some Dir →
  renamed env input iteration w content.
Proof.
  intros Hsrc Hdst. unfold renamed.
  pose proof (generate_input_spec env input iteration w content Hsrc Hdst) as Hrun.
  destruct (generate_input_paths (cwd w) input iteration) as (d & l & _ & _ & Hne).
  simpl in Hrun. eexists. split; [exact Hrun|]. simpl. split_and!.
  - rewrite lookup_insert_ne by done. apply lookup_delete_eq.
  - eexists. apply lookup_insert_eq.
  - intros p Hp1 Hp2. by rewrite lookup_insert_ne, lookup_delete_ne.
  - done.
  - intros Hplain. rewrite lookup_insert_eq.
    rewrite replace_first_marker_absent, joinlines_readlines by done.
    split; [done|]. intros Hlf. by rewrite universal_newlines_free.
Qed.

(** The template of [Demo.home_plain] holds no marker and no CR. *)
Lemma C6_rename_witness :
  fs (generate_input Demo.env "run" 7 Demo.home_plain).2 !! ["home"; "u"; "run.inp"] = None ∧
  fs (generate_input Demo.env "run" 7 Demo.home_plain).2 !! ["home"; "u"; "run_0007.inp"]
  = Some (File Demo.plain) ∧
  free_of "013" Demo.plain = true ∧
  renamed Demo.env "run" 7 Demo.home_plain Demo.plain.
Proof.
  split_and!; [vm_compute; reflexivity..|].
  apply C6_rename.
  - vm_compute. reflexivity.
  - vm_compute. discriminate.
Defined.

(** *** C7: the custom executable *)

(** C7 (as stated, refuted). The sentinel is not the literal [none]: for
    that value the command holds the override flag, and for the value
    [None], which differs from [none], it holds none. *)
Lemma C7_none_is_not_the_sentinel :
  HTCondor.fluka_command "/opt/fluka/bin" "none" = "/opt/fluka/bin/rfluka -M 1 -e none" ∧
  TS.fluka_command "none" "run_0001.inp" = "rfluka -M 1 -e none run_0001.inp" ∧
  "-e" ∈ argv (TS.fluka_command "none" "run_0001.inp") ∧
  "None" ≠ "none" ∧
  "-e" ∉ argv (HTCondor.fluka_command "/opt/fluka/bin" "None").
Proof.
  split_and!; [reflexivity|reflexivity| |discriminate|];
    (apply (bool_decide_unpack _); vm_compute; exact I).
Qed.

Lemma argv_cons s t : free_of " " s = true → argv (s +:+ String " " t) = s :: argv t.
Proof. intros Hs. unfold argv. by rewrite split_app_sep, split_free. Qed.

Lemma argv_last s : free_of " " s = true → argv s = [s].
Proof. apply split_free. Qed.

(** C7 (amended). If the configured custom-executable value equals the
    sentinel [None] (case-sensitive, the default of the option), the
    generated command invokes the binary with the restart flag [-M 1] alone
    and holds no override flag; for every other value [v] the command
    holds the override flag [-e] followed by exactly [v]. *)
Theorem C7_sentinel_is_None fluka_path v new_input :
  v ≠ "None" → command_ok fluka_path v new_input.
Proof.
  intros Hv.
  unfold command_ok, HTCondor.fluka_command, TS.fluka_command.
  rewrite !bool_decide_eq_true_2, !bool_decide_eq_false_2 by done.
  split_and!; try reflexivity.
  intros Hpath Hblank Hinput.
  assert (free_of " " (fluka_path +:+ "/rfluka") = true) as Hbin
    by by rewrite free_of_app, Hpath.
  split_and!.
  - change (fluka_path +:+ "/rfluka -M 1")
      with (fluka_path +:+ "/rfluka" +:+ String " " ("-M" +:+ String " " "1")).
    rewrite <-app_assoc_str. by rewrite !argv_cons, argv_last.
  - change ("rfluka -M 1 " +:+ new_input)
      with ("rfluka" +:+ String " " ("-M" +:+ String " " ("1" +:+ String " " new_input))).
    by rewrite !argv_cons, argv_last.
  - change (fluka_path +:+ "/rfluka -M 1 -e " +:+ v)
      with (fluka_path +:+ "/rfluka" +:+ String " " ("-M" +:+ String " "
              ("1" +:+ String " " ("-e" +:+ String " " v)))).
    rewrite <-app_assoc_str. by rewrite !argv_cons, argv_last.
  - change ("rfluka -M 1 -e " +:+ v +:+ " " +:+ new_input)
      with ("rfluka" +:+ String " " ("-M" +:+ String " " ("1" +:+ String " "
              ("-e" +:+ String " " (v +:+ String " " new_input))))).
    by rewrite !argv_cons, argv_last.
Qed.

(** The value [none] is not the sentinel. *)
Lemma C7_sentinel_is_None_witness : command_ok "/opt/fluka/bin" "none" "run_0001.inp".
Proof. apply C7_sentinel_is_None. discriminate. Defined.

(** *** C9: the report of a failed submission *)

Section reports.
Context {A B : Type}.
Implicit Types (m : M A) (f : A → M B) (evs : list event).




End reports.


Section turn_reports.
Context {X : Type}.
Implicit Types (l : list X) (body : X → M unit) (said : X → list event).





End turn_reports.

Section ts_reports.
Variable env : environment.
Implicit Types (a : TS.args) (i : Z) (w : world).



End ts_reports.






(** *** C10: the queue and the universe *)

(** C10. In the HTCondor launcher the submit description does not depend
    on the configured queue: two runs that differ in the queue argument
    alone have the same outcome and the same trace, hence the same submit
    description for every job; and the universe of every description that
    is submitted or logged is the constant [vanilla]. *)
Theorem C10_queue_is_ignored FLUKA_PATH env a q1 q2 w :
  HTCondor.launch_jobs FLUKA_PATH env (HTCondorSpec.with_queue q1 a) w
  = HTCondor.launch_jobs FLUKA_PATH env (HTCondorSpec.with_queue q2 a) w ∧
  (∀ i, HTCondorSpec.description (HTCondorSpec.with_queue q1 a) i
        = HTCondorSpec.description (HTCondorSpec.with_queue q2 a) i) ∧
  (∀ i, dict_get (HTCondorSpec.description a i) "universe" = Some (PStr "vanilla")) ∧
  ∃ evs, trace (HTCondor.launch_jobs FLUKA_PATH env a w).2 = trace w ++ evs ∧
         Forall universe_vanilla evs.
Proof.
  split_and!; [reflexivity|reflexivity|reflexivity|].
  apply htcondor_launch_universe.
Qed.

(** *** C1: a dry run submits nothing *)

Lemma logs_only_of_loop_logs line N w (out : result unit * world) :
  (∃ evs, trace out.2 = trace w ++ evs ∧ loop_logs line (range 1 (N + 1)) out.1 evs) →
  logs_only line N w out.
Proof.
  intros (evs & Htrace & Hsub & k & Hk & Hlog & Hok).
  rewrite length_range in Hk, Hok. rewrite take_range in Hlog by by rewrite length_range.
  exists evs, (Z.of_nat k). split_and!; [done|done|lia|lia|done|].
  intros Hr. rewrite Hok by done. lia.
Qed.

(** C1. For every configuration with dry-run enabled and every job index,
    the submission step starts no external submission process and makes no
    call of the scheduler's client; the equivalent action is only logged,
    once per job: the step adds its line to the log and changes nothing
    else, and a whole run leaves no submission in the trace and one line
    per job it went through, all [N] of them when it returns. *)
Theorem C1_dry_run_logs_only FLUKA_PATH env (ah : HTCondor.args) (ats : TS.args) w :
  HTCondor.dry_run ah = true → TS.dry_run ats = true →
  dry_run_ok FLUKA_PATH env ah ats w.
Proof.
  intros Hh Ht. split_and!.
  - intros i d. by apply htcondor_submit_dry.
  - intros i cmd. rewrite Ht. apply ts_submit_dry.
  - apply logs_only_of_loop_logs. by apply htcondor_launch_logs.
  - apply logs_only_of_loop_logs. by apply ts_launch_logs.
Qed.

Lemma C1_dry_run_logs_only_witness :
  dry_run_ok "/opt/fluka/bin" Demo.env (Demo.htcondor_args "run.inp" 3 "None" true None)
    (Demo.ts_args 3 "None" true) Demo.home.
Proof. apply C1_dry_run_logs_only; reflexivity. Defined.

(** *** C3: the directory layout *)

Lemma fs_closed_check (m : gmap (list string) node) :
  map_Forall (λ p _, p = [] ∨ m !! removelast p = Some Dir) m → fs_closed m.
Proof.
  intros Hall p c [x Hx]. destruct (Hall _ _ Hx) as [Hnil|Hp].
  - by destruct p.
  - by rewrite removelast_snoc in Hp.
Qed.

Lemma job_names_format : job_names_ok.
Proof.
  split_and!.
  - intros i j Hi Hj. apply job_name_inj; lia.
  - intros i Hi. unfold job_name. split.
    + by rewrite format_04d_nonneg by lia.
    + rewrite length_app_str, format_04d_width by lia. done.
  - intros i Hi. unfold job_name. by rewrite format_04d_grows.
Qed.

Lemma layout_of_between_jobs P N w w' k :
  0 ≤ k →
  (∀ j, 0 ≤ j < k → Os.path_exists (candidate P j) w = true) →
  Os.path_exists (candidate P k) w = false →
  between_jobs (cwd w) (candidate P k) (fs w) N w' →
  layout P N w w'.
Proof.
  intros Hk Hbefore Hfree [_ Hinv]. exists k. split_and!; [done..| | |].
  - apply Hinv.
  - intros c. replace (cwd w ++ [candidate P k; c]) with ((cwd w ++ [candidate P k]) ++ [c])
      by by rewrite <-app_assoc.
    split.
    + apply Hinv.
    + intros (i & Hi & ->). rewrite (inv_jobs _ _ _ _ Hinv) by done. by eexists.
  - intros i Hi. replace (cwd w ++ [candidate P k; job_name i])
      with ((cwd w ++ [candidate P k]) ++ [job_name i]) by by rewrite <-app_assoc.
    by apply Hinv.
Qed.

(** C3 (as stated, refuted). The layout does not hold for every root name
    and every run. With the override [out/run] the turn of job 1 ends one
    level below the starting directory, and job 2 gets its directory under
    [out/out/run], not inside the root, although the run returns; and when
    the template is missing the run stops in job 1, so that job 2 has no
    directory. *)
Lemma C3_layout_fails :
  (let out := HTCondor.launch_jobs "/opt/fluka/bin" Demo.env
                (Demo.htcondor_args "/home/u/run.inp" 2 "None" true (Some "out/run"))
                Demo.home in
   out.1 = Ok tt ∧
   fs out.2 !! ["home"; "u"; "out"; "run"; "job_0001"] = Some Dir ∧
   fs out.2 !! ["home"; "u"; "out"; "run"; "job_0002"] = None ∧
   fs out.2 !! ["home"; "u"; "out"; "out"; "run"; "job_0002"] = Some Dir) ∧
  (let out := HTCondor.launch_jobs "/opt/fluka/bin" Demo.env
                (Demo.htcondor_args "run.inp" 2 "None" true None) Demo.home_empty in
   out.1 = Raise FileNotFoundError ∧
   fs out.2 !! ["home"; "u"; "run"; "job_0001"] = Some Dir ∧
   fs out.2 !! ["home"; "u"; "run"; "job_0002"] = None).
Proof. split; vm_compute; done. Qed.

(** C3 (amended). For every preferred root name that is a single path
    component, every [N >= 1] and every run that goes through (the template
    is a text file named [<stripped>.inp], and the run is a dry run or the
    scheduler accepts the jobs), the run creates the output root under the
    first name of the sequence [P], [P_1], [P_2], ... that does not exist,
    and then inside it exactly the [N] job subdirectories [job_0001] ..
    [job_NNNN], 1-based, padded with zeros to 4 digits, the numeral growing
    beyond 9999. *)
Theorem C3_directory_layout FLUKA_PATH env (a : HTCondor.args) w content :
  1 ≤ HTCondor.job_number a →
  is_name (base_directory_name (HTCondor.input_file a) (HTCondor.output_dir a)) = true →
  fs_closed (fs w) → fs w !! cwd w = Some Dir →
  fs w !! OsPath.resolve (cwd w) (HTCondor.input_file a) = Some (File content) →
  OsPath.basename (HTCondor.input_file a)
    = stripped_name_of (HTCondor.input_file a) +:+ ".inp" →
  HTCondor.dry_run a = true ∨ scheduler_accepts env (HTCondor.job_number a) →
  ∃ w', HTCondor.launch_jobs FLUKA_PATH env a w = (Ok tt, w') ∧
        layout (base_directory_name (HTCondor.input_file a) (HTCondor.output_dir a))
          (HTCondor.job_number a) w w' ∧
        cwd w' = cwd w ∧
        job_names_ok.
Proof.
  intros HN HP Hclosed Hcwd Htemplate Hbase Hacc.
  destruct (htcondor_launch_ok env FLUKA_PATH a w content)
    as (k & w' & Hk & Hrun & Hfree & Hbefore & Hw'); [done..|lia|done|].
  exists w'. split_and!; [done| |apply Hw'|apply job_names_format].
  by eapply layout_of_between_jobs.
Qed.

(** In [Demo.home_taken] the names [run] and [run_1] are taken. *)
Lemma C3_directory_layout_witness :
  ∃ w', HTCondor.launch_jobs "/opt/fluka/bin" Demo.env
          (Demo.htcondor_args "run.inp" 3 "None" false None) Demo.home_taken = (Ok tt, w') ∧
        layout "run" 3 Demo.home_taken w' ∧
        cwd w' = cwd Demo.home_taken ∧
        job_names_ok.
Proof.
  apply (C3_directory_layout "/opt/fluka/bin" Demo.env
           (Demo.htcondor_args "run.inp" 3 "None" false None) Demo.home_taken Demo.template).
  - simpl. lia.
  - reflexivity.
  - apply fs_closed_check, (bool_decide_unpack _). vm_compute. exact I.
  - vm_compute. reflexivity.
  - vm_compute. reflexivity.
  - reflexivity.
  - right. split; [reflexivity|]. intros i Hi. reflexivity.
Defined.

(** *** C8: the working directory *)

(** C8 (as stated, refuted). The working directory is not restored on
    every path and for every override. Under the override [out/run] the
    turn of job 1 returns one level below where it began; and when the seed
    mutation fails the turn ends inside the job directory. *)
Lemma C8_cwd_not_restored :
  (let out := HTCondor.job "/opt/fluka/bin" Demo.env
                (Demo.htcondor_args "run.inp" 1 "None" true (Some "out/run"))
                "run" "out/run" 1 Demo.home_nested in
   out.1 = Ok tt ∧ cwd Demo.home_nested = ["home"; "u"] ∧
   cwd out.2 = ["home"; "u"; "out"]) ∧
  (let out := HTCondor.job "/opt/fluka/bin" Demo.env
                (Demo.htcondor_args "run.inp" 1 "None" true None)
                "run" "run" 1 Demo.home_empty_run in
   out.1 = Raise FileNotFoundError ∧ cwd Demo.home_empty_run = ["home"; "u"] ∧
   cwd out.2 = ["home"; "u"; "run"; "job_0001"]).
Proof. split; vm_compute; done. Qed.

(** C8 (amended). For every job iteration whose per-job steps all
    succeed, under an output root that is a single path component, the
    working directory after the iteration equals the working directory
    before it. *)
Theorem C8_cwd_restored FLUKA_PATH env (ah : HTCondor.args) (ats : TS.args)
    stripped_name directory i w :
  is_name directory = true →
  turn_restores_cwd FLUKA_PATH env ah ats stripped_name directory i w.
Proof.
  intros Hdir. split; intros w' Hrun.
  - by eapply htcondor_job_restores.
  - by eapply ts_job_restores.
Qed.

(** Both turns return in [Demo.home_taken], where the root [run] is there. *)
Lemma C8_cwd_restored_witness :
  (HTCondor.job "/opt/fluka/bin" Demo.env (Demo.htcondor_args "run.inp" 1 "None" false None)
     "run" "run" 1 Demo.home_taken).1 = Ok tt ∧
  (TS.job Demo.env (Demo.ts_args 1 "None" false) "run" "run" 1 Demo.home_taken).1 = Ok tt ∧
  turn_restores_cwd "/opt/fluka/bin" Demo.env
    (Demo.htcondor_args "run.inp" 1 "None" false None) (Demo.ts_args 1 "None" false)
    "run" "run" 1 Demo.home_taken.
Proof.
  split_and!; [vm_compute; reflexivity..|].
  apply C8_cwd_restored. reflexivity.
Defined.

(** *** C2: failures and the rest of the batch *)

(** C2 (as stated, refuted). A failure of the seed mutation, or of the
    submission through the HTCondor client, is neither logged nor survived:
    the exception leaves [launch_jobs], and job 2 is never processed. *)
Lemma C2_failure_aborts_the_batch :
  (let out := HTCondor.launch_jobs "/opt/fluka/bin" Demo.env
                (Demo.htcondor_args "run.inp" 2 "None" false None) Demo.home_empty in
   out.1 = Raise FileNotFoundError ∧
   trace out.2 = [ScheddConnect; System "cp run.inp run/job_0001"] ∧
   fs out.2 !! ["home"; "u"; "run"; "job_0002"] = None) ∧
  (let out := HTCondor.launch_jobs "/opt/fluka/bin" Demo.env_refuse
                (Demo.htcondor_args "run.inp" 2 "None" false None) Demo.home in
   out.1 = Raise (SchedulerError "refused") ∧
   log_lines (trace out.2) = [] ∧
   fs out.2 !! ["home"; "u"; "run"; "job_0002"] = None).
Proof. split; vm_compute; done. Qed.

Lemma elem_of_concat_jobs {X} (events : Z → list X) N j x :
  1 ≤ j ≤ N → x ∈ events j → x ∈ List.concat (events <$> seqZ 1 N).
Proof.
  intros Hj Hx. apply list_elem_of_In, in_concat. exists (events j).
  split; apply list_elem_of_In; [|done].
  apply list_elem_of_fmap. exists j. split; [done|]. apply elem_of_seqZ. lia.
Qed.

(** C2 (amended). In the Task Spooler launcher, for every [N] and every job
    index [j] in [1, N], if the submission command of job [j] exits with a
    status other than 0, that failure is printed with the index of the job,
    and the orchestrator still processes every remaining job: the run goes
    through all [N] jobs. A failure that is an exception (of the seed
    mutation, of the HTCondor client) is not caught: it ends the loop. *)
Theorem C2_exit_status_does_not_stop_the_batch env (a : TS.args) w content :
  0 ≤ TS.job_number a →
  TS.dry_run a = false →
  is_name (base_directory_name (TS.input_file a) (TS.output_dir a)) = true →
  fs_closed (fs w) → fs w !! cwd w = Some Dir →
  fs w !! OsPath.resolve (cwd w) (TS.input_file a) = Some (File content) →
  OsPath.basename (TS.input_file a) = stripped_name_of (TS.input_file a) +:+ ".inp" →
  batch_completes env a w (TS.launch_jobs env a w) ∧ raise_ends_loop.
Proof.
  intros HN Hwet HP Hclosed Hcwd Htemplate Hbase.
  split; [|intros body i l w0 e w0' Hbody; simpl; by erewrite bind_raise].
  destruct (ts_launch_ok env a w content) as (k & w' & Hk & Hrun & Hw' & Htrace);
    [done..|].
  eexists _, w'. split_and!; [done|exact Htrace| |].
  - intros j Hj. rewrite Htrace.
    split; apply elem_of_app; right;
      apply (elem_of_concat_jobs _ _ j); [done| |done|];
      unfold TSSpec.job_events; repeat constructor.
  - intros j Hj. unfold TSSpec.report. by rewrite bool_decide_eq_false_2.
Qed.

(** In [Demo.env] the submission of job 2 exits with status 1. *)
Lemma C2_exit_status_does_not_stop_the_batch_witness :
  returncode (shell_run Demo.env 2) ≠ 0 ∧
  batch_completes Demo.env (Demo.ts_args 3 "None" false) Demo.home
    (TS.launch_jobs Demo.env (Demo.ts_args 3 "None" false) Demo.home) ∧
  raise_ends_loop.
Proof.
  split; [vm_compute; discriminate|].
  apply (C2_exit_status_does_not_stop_the_batch Demo.env (Demo.ts_args 3 "None" false)
           Demo.home Demo.template).
  - simpl. lia.
  - reflexivity.
  - reflexivity.
  - apply fs_closed_check, (bool_decide_unpack _). vm_compute. exact I.
  - vm_compute. reflexivity.
  - vm_compute. reflexivity.
  - reflexivity.
Defined.

(** ** Part IV. Further properties *)

(** *** The seed mutation when it fails *)

Lemma generate_input_unreadable env input iteration w :
  (∀ content, fs w !! OsPath.resolve (cwd w) (input +:+ ".inp") ≠ Some (File content)) →
  generate_input env input iteration w
  = (Raise (match fs w !! OsPath.resolve (cwd w) (input +:+ ".inp") with
            | Some Dir => IsADirectoryError
            | Some _ => UnicodeDecodeError
            | None => FileNotFoundError
            end), drawn w).
Proof.
  intros Hsrc. destruct (generate_input_names input iteration) as [Hne1 _].
  unfold generate_input.
  erewrite bind_ok by apply random_randint_seed.
  destruct (fs w !! OsPath.resolve (cwd w) (input +:+ ".inp")) as [[|content|bytes]|] eqn:Hx.
  - apply bind_raise. unfold Os.open_rplus.
    rewrite lookup_path_resolve by done. simpl. by rewrite Hx.
  - by destruct (Hsrc content).
  - erewrite bind_ok; last first.
    { unfold Os.open_rplus. rewrite lookup_path_resolve by done. simpl. by rewrite Hx. }
    apply bind_raise. unfold Os.f_readlines. simpl. by rewrite Hx.
  - apply bind_raise. unfold Os.open_rplus.
    rewrite lookup_path_resolve by done. simpl. by rewrite Hx.
Qed.

(** X1. When [<input>.inp] is not a text file, [generate_input] raises
    ([FileNotFoundError] when there is no such entry, [IsADirectoryError]
    when it is a directory, [UnicodeDecodeError] when it is a file that does
    not decode) and leaves the file system, the working directory and the
    trace as they were; the seed has been drawn by then. *)
Theorem generate_input_without_template env input iteration w :
  (∀ content, fs w !! OsPath.resolve (cwd w) (input +:+ ".inp") ≠ Some (File content)) →
  generate_input env input iteration w
  = (Raise (match fs w !! OsPath.resolve (cwd w) (input +:+ ".inp") with
            | Some Dir => IsADirectoryError
            | Some _ => UnicodeDecodeError
            | None => FileNotFoundError
            end), drawn w).
Proof. apply generate_input_unreadable. Qed.

Lemma generate_input_without_template_witness :
  generate_input Demo.env "run" 1 Demo.home_empty
  = (Raise FileNotFoundError, drawn Demo.home_empty).
Proof.
  apply (generate_input_without_template Demo.env "run" 1 Demo.home_empty).
  intros content. vm_compute. discriminate.
Defined.

(** X2. When the new name is taken by a directory, [generate_input] raises
    [IsADirectoryError] at the rename, after the rewrite: the file keeps
    its old name and holds the new seed record. *)
Theorem generate_input_rename_refused env input iteration w content :
  let src := OsPath.resolve (cwd w) (input +:+ ".inp") in
  let dst := OsPath.resolve (cwd w) (input +:+ "_" +:+ Py.format_04d iteration +:+ ".inp") in
  fs w !! src = Some (File content) →
  fs w !! dst = Some Dir →
  generate_input env input iteration w
  = (Raise IsADirectoryError,
     with_fs (<[src := File (mutated content (seed_of env (draws w)))]> (fs w)) (drawn w)).
Proof.
  intros src dst Hsrc Hdst.
  destruct (generate_input_names input iteration) as [Hne1 Hne2].
  rewrite (generate_input_rewrites env input iteration w content Hsrc).
  apply bind_raise. unfold Os.rename.
  rewrite lookup_path_resolve by done. cbn [cwd fs with_fs drawn]. fold src.
  rewrite lookup_insert_eq, bool_decide_eq_false_2 by done. fold dst.
  rewrite lookup_insert_ne by (intros Heq; rewrite Heq in Hsrc; congruence).
  by rewrite Hdst.
Qed.

Lemma generate_input_rename_refused_witness :
  generate_input Demo.env "run" 1 Sample.home_blocked
  = (Raise IsADirectoryError,
     with_fs (<[["home"; "u"; "run.inp"]
                 := File (mutated Demo.template (seed_of Demo.env 0))]>
                (fs Sample.home_blocked)) (drawn Sample.home_blocked)).
Proof.
  apply (generate_input_rename_refused Demo.env "run" 1 Sample.home_blocked Demo.template).
  - vm_compute. reflexivity.
  - vm_compute. reflexivity.
Defined.

(** X3. [generate_input] works once on a file: after a call that went
    through, [<input>.inp] is gone, and another call for the same input, with
    whatever iteration, raises [FileNotFoundError] and changes no file. (Each
    job needs a copy of the template of its own.) *)
Theorem generate_input_twice env input i j w content :
  fs w !! OsPath.resolve (cwd w) (input +:+ ".inp") = Some (File content) →
  fs w !! OsPath.resolve (cwd w) (input +:+ "_" +:+ Py.format_04d i +:+ ".inp") ≠ Some Dir →
  ∃ w1,
    generate_input env input i w = (Ok (input +:+ "_" +:+ Py.format_04d i +:+ ".inp"), w1) ∧
    generate_input env input j w1 = (Raise FileNotFoundError, drawn w1).
Proof.
  intros Hsrc Hdst. eexists. split.
  { by apply (generate_input_spec env input i w content). }
  set (w1 := World _ _ _ _).
  assert (fs w1 !! OsPath.resolve (cwd w1) (input +:+ ".inp") = None) as Hgone.
  { unfold w1. simpl.
    destruct (generate_input_paths (cwd w) input i) as (_ & _ & _ & _ & Hne).
    rewrite lookup_insert_ne by done. apply lookup_delete_eq. }
  rewrite generate_input_unreadable.
  - by rewrite Hgone.
  - intros content'. by rewrite Hgone.
Qed.

Lemma generate_input_twice_witness :
  ∃ w1,
    generate_input Demo.env "run" 1 Demo.home = (Ok "run_0001.inp", w1) ∧
    generate_input Demo.env "run" 2 w1 = (Raise FileNotFoundError, drawn w1).
Proof.
  apply (generate_input_twice Demo.env "run" 1 2 Demo.home Demo.template).
  - vm_compute. reflexivity.
  - vm_compute. discriminate.
Defined.

(** *** One turn of the loop, to the letter *)

Section turn.
Variables (cwd0 : list string) (R : string).
Variables (env : environment) (input_file content : string).
Local Abbreviation root := (cwd0 ++ [R]).
Local Abbreviation stripped := (stripped_name_of input_file).
Hypothesis HR : is_name R = true.
Hypothesis Hbase : OsPath.basename input_file = stripped +:+ ".inp".
Implicit Types (i : Z) (w : world).

Lemma prologue_exact {B} i w (f : string → M B) :
  ready cwd0 R input_file content i w →
  let job_dir := OsPath.join R (job_name i) in
  (Os.makedirs job_dir ≫= λ _,
   Os.system_cp input_file job_dir ≫= λ _,
   Os.chdir job_dir ≫= λ _,
   generate_input env stripped i ≫= f) w
  = f (new_input_of input_file i)
      (World (root ++ [job_name i])
         (with_job root input_file content env (draws w) i (fs w))
         (trace w ++ [System ("cp " +:+ input_file +:+ " " +:+ job_dir)])
         (S (draws w))).
Proof.
  intros (Hcwdw & _ & Hup & Hfresh & Htemplate) job_dir.
  pose proof (job_name_is_name i) as Hjn.
  pose proof (template_name_is_name input_file Hbase) as Htn.
  pose proof (new_input_is_name input_file Hbase i) as Hnn.
  assert (OsPath.resolve (cwd w) job_dir = root ++ [job_name i]) as Hjd.
  { unfold job_dir. rewrite Hcwdw, resolve_join by done. by rewrite <-app_assoc. }
  assert (job_dir ≠ "") as Hjdne by by apply join_names_nonempty.
  (* os.makedirs *)
  erewrite bind_ok; last first.
  { eapply makedirs_child; [done|exact Hjd|done|]. apply (Hfresh []). }
  set (w1 := with_fs _ w).
  (* cp *)
  set (target := root ++ [job_name i; stripped +:+ ".inp"]).
  assert (fs w !! target = None) as Htarget by apply (Hfresh [_]).
  erewrite (bind_ok (Os.system_cp _ _) _ w1 tt
    (with_fs (<[target := File content]> (fs w1))
       (with_event (System ("cp " +:+ input_file +:+ " " +:+ job_dir)) w1)));
    last first.
  { unfold Os.system_cp.
    rewrite !lookup_path_resolve by (done || by apply input_file_nonempty).
    change (cwd w1) with (cwd w). rewrite Hjd, Hcwdw.
    unfold w1. cbn [fs with_fs].
    rewrite lookup_insert_ne, Htemplate; last first.
    { intros Heq. rewrite <-Heq in Htemplate. by rewrite (Hfresh []) in Htemplate. }
    rewrite lookup_insert_eq, Hbase, <-app_assoc. simpl.
    rewrite lookup_insert_ne by path_neq. fold target. by rewrite Htarget. }
  set (w2 := with_fs _ _).
  (* os.chdir *)
  erewrite (bind_ok (Os.chdir _) _ w2 tt (with_cwd (root ++ [job_name i]) w2));
    last first.
  { unfold Os.chdir. rewrite lookup_path_resolve by done.
    change (cwd w2) with (cwd w). rewrite Hjd.
    unfold w2, w1, target. cbn [fs with_fs with_event].
    rewrite lookup_insert_ne by path_neq. by rewrite lookup_insert_eq. }
  set (w2' := with_cwd _ w2).
  (* generate_input *)
  assert (OsPath.resolve (cwd w2') (stripped +:+ ".inp") = target) as Hsrc.
  { unfold w2'. simpl. rewrite resolve_name by done. by rewrite <-app_assoc. }
  assert (OsPath.resolve (cwd w2') (stripped +:+ "_" +:+ Py.format_04d i +:+ ".inp")
          = root ++ [job_name i; new_input_of input_file i]) as Hdst.
  { unfold w2'. simpl. rewrite resolve_name by done. by rewrite <-app_assoc. }
  assert (target ≠ root ++ [job_name i; new_input_of input_file i]) as Hne.
  { rewrite <-Hsrc, <-Hdst.
    by destruct (generate_input_paths (cwd w2') stripped i) as (? & ? & _ & _ & ?). }
  erewrite bind_ok; last first.
  { apply (generate_input_spec env stripped i w2' content).
    - rewrite Hsrc. unfold w2', w2. simpl. apply lookup_insert_eq.
    - rewrite Hdst. unfold w2', w2, w1. simpl.
      rewrite lookup_insert_ne by done.
      rewrite lookup_insert_ne by path_neq.
      by rewrite (Hfresh [_]). }
  rewrite Hsrc, Hdst. f_equal. unfold w2', w2, w1, with_job, mutated, seed_of. simpl.
  f_equal. f_equal. rewrite delete_insert_id; [done|].
  unfold target. rewrite lookup_insert_ne by path_neq. done.
Qed.

Lemma epilogue_exact i w :
  cwd w = root ++ [job_name i] → fs w !! cwd0 = Some Dir →
  Os.chdir "../.." w = (Ok tt, with_cwd cwd0 w).
Proof.
  intros Hcwdw Hdir. unfold Os.chdir. rewrite lookup_path_resolve by done.
  rewrite Hcwdw, <-app_assoc. simpl. rewrite resolve_up_up. by rewrite Hdir.
Qed.

(** [generate_sh] of the HTCondor launcher, in any directory. *)
Lemma htcondor_generate_sh_exact input i fluka_path custom_exe w :
  let p := cwd w ++ [HTCondorSpec.script_name i] in
  fs w !! cwd w = Some Dir → fs w !! p ≠ Some Dir →
  HTCondor.generate_sh input i fluka_path custom_exe w
  = (Ok (HTCondorSpec.script_name i),
     with_event (Chmod p 493)
       (with_fs (<[p := File (script_text fluka_path custom_exe input)]> (fs w)) w)).
Proof.
  intros p Hdir Hp. unfold HTCondor.generate_sh.
  rewrite htcondor_script_content. unfold lift. erewrite bind_ok by reflexivity.
  fold (HTCondorSpec.script_name i). fold (script_text fluka_path custom_exe input).
  pose proof (script_name_is_name i) as Hname.
  assert (HTCondorSpec.script_name i ≠ "") as Hne by by intros Heq; rewrite Heq in Hname.
  assert (OsPath.resolve (cwd w) (HTCondorSpec.script_name i) = p) as Hres
    by by apply resolve_name.
  erewrite (bind_ok (Os.open_w _) _ w (Os.FileObj p 0)
              (with_fs (<[p := File ""]> (fs w)) w)); last first.
  { unfold Os.open_w. rewrite bool_decide_eq_false_2 by done. rewrite Hres.
    assert (fs w !! removelast p = Some Dir) as ->
      by (unfold p; by rewrite removelast_snoc).
    by destruct (fs w !! p) as [[|?|?]|]. }
  erewrite bind_ok; last first.
  { unfold Os.f_write, Os.content_of. cbn [Os.f_path Os.f_pos fs with_fs].
    rewrite lookup_insert_eq. reflexivity. }
  erewrite bind_ok; last first.
  { apply (chmod_spec _ _ _ p); [done|exact Hres|].
    cbn [fs with_fs Os.f_path]. rewrite lookup_insert_eq. by eexists. }
  unfold mret, M_ret. f_equal. unfold with_event, with_fs. cbn.
  rewrite insert_insert_eq. f_equal. f_equal. f_equal.
  generalize (script_text fluka_path custom_exe input). intros t.
  rewrite app_empty_l. destruct t; [done|]. simpl. by rewrite app_empty_r.
Qed.

Section htcondor.
Variable FLUKA_PATH : string.
Variable a : HTCondor.args.
Hypothesis Hinput : HTCondor.input_file a = input_file.

(** The turn of job [i] up to the end of the submission step. *)
Lemma htcondor_job_exact i w :
  ready cwd0 R input_file content i w →
  let w' := World (root ++ [job_name i])
              (with_script root input_file FLUKA_PATH (HTCondor.custom_exe a) i
                 (with_job root input_file content env (draws w) i (fs w)))
              (trace w ++ HTCondorSpec.job_events env a cwd0 R i)
              (S (draws w)) in
  HTCondor.job FLUKA_PATH env a stripped R i w
  = if HTCondor.dry_run a then (Ok tt, with_cwd cwd0 w')
    else match schedd_submit env i with
         | Ok _ => (Ok tt, with_cwd cwd0 w')
         | Raise e => (Raise e, w')
         end.
Proof.
  intros Hready w'. unfold HTCondor.job. rewrite Hinput.
  rewrite (prologue_exact i w _ Hready).
  destruct Hready as (Hcwdw & Hdir & Hup & Hfresh & Htemplate).
  set (w3 := World _ _ _ _).
  set (p := root ++ [job_name i; HTCondorSpec.script_name i]).
  assert (cwd w3 ++ [HTCondorSpec.script_name i] = p) as Hp
    by (unfold p; simpl; by rewrite <-app_assoc).
  erewrite bind_ok; last first.
  { apply htcondor_generate_sh_exact.
    - simpl. unfold with_job. rewrite lookup_insert_ne by path_neq.
      apply lookup_insert_eq.
    - rewrite Hp. unfold p. simpl. unfold with_job.
      destruct (decide (root ++ [job_name i; new_input_of input_file i]
                        = root ++ [job_name i; HTCondorSpec.script_name i])) as [->|Hne].
      + by rewrite lookup_insert_eq.
      + rewrite lookup_insert_ne by done. rewrite lookup_insert_ne by path_neq.
        by rewrite (Hfresh [_]). }
  rewrite Hp. fold (new_input_of input_file i).
  replace (HTCondor.generate_submit_description _ _ _ _ _ _ _ _ _ _ _)
    with (HTCondorSpec.description a i)
    by (unfold HTCondorSpec.description, HTCondorSpec.new_input, new_input_of;
        by rewrite Hinput).
  set (w4 := with_event _ _).
  assert (w' = World (cwd w4) (fs w4) (trace w4 ++ HTCondorSpec.submit_events env a i)
                 (draws w4)) as Hw'.
  { unfold w', w4, w3, p, with_script, HTCondorSpec.job_events. simpl.
    rewrite Hinput. f_equal. rewrite <-!app_assoc. reflexivity. }
  assert (Os.chdir "../.." w' = (Ok tt, with_cwd cwd0 w')) as Hback.
  { apply (epilogue_exact i); [done|]. unfold w', with_script, with_job. simpl.
    rewrite !lookup_insert_ne by path_neq. done. }
  destruct (HTCondor.dry_run a) eqn:Hdry.
  - erewrite bind_ok by (apply htcondor_submit_ok; by left).
    rewrite <-Hw'. exact Hback.
  - destruct (schedd_submit env i) as [cluster|e] eqn:Hsub.
    + erewrite bind_ok by (apply htcondor_submit_ok; right; by rewrite Hsub).
      rewrite <-Hw'. exact Hback.
    + erewrite bind_raise; [reflexivity|]. rewrite Hw'.
      unfold HTCondor.submit, HTCondorSpec.submit_events. rewrite Hdry, Hsub.
      reflexivity.
Qed.
End htcondor.

Section ts.
Variable a : TS.args.
Hypothesis Hinput : TS.input_file a = input_file.

Lemma ts_job_exact i w :
  ready cwd0 R input_file content i w →
  TS.job env a stripped R i w
  = (Ok tt, World cwd0 (with_job root input_file content env (draws w) i (fs w))
              (trace w ++ ts_turn_events env a R i) (S (draws w))).
Proof.
  intros Hready. unfold TS.job. rewrite Hinput.
  rewrite (prologue_exact i w _ Hready).
  destruct Hready as (Hcwdw & Hdir & Hup & Hfresh & Htemplate).
  set (w3 := World _ _ _ _).
  erewrite (bind_ok (TS.submit _ _ _ _) _ w3 tt
    (World (cwd w3) (fs w3) (trace w ++ ts_turn_events env a R i) (draws w3)));
    last first.
  { unfold TS.submit, ts_turn_events, TSSpec.dry_run_line, TSSpec.report,
      TSSpec.new_input, new_input_of.
    rewrite Hinput. unfold w3.
    destruct (TS.dry_run a).
    - unfold emit, with_event. cbn. by rewrite <-!(app_assoc (trace w)).
    - unfold mbind, M_bind, emit, with_event. cbn.
      case_bool_decide; cbn; by rewrite <-!(app_assoc (trace w)). }
  apply (epilogue_exact i); [done|]. simpl. unfold with_job.
  rewrite !lookup_insert_ne by path_neq. done.
Qed.
End ts.

Section lsf.
Variable FLUKA_PATH : string.
Variable a : LSF.args.
Hypothesis Hinput : LSF.input_file a = input_file.

(** The turn of the LSF launcher stops in [generate_sh]. *)
Lemma lsf_job_exact i w :
  ready cwd0 R input_file content i w →
  LSF.job FLUKA_PATH env a stripped R i w
  = (Raise (KeyError "queue"),
     World (root ++ [job_name i])
       (with_job root input_file content env (draws w) i (fs w))
       (trace w ++ [System ("cp " +:+ input_file +:+ " "
                            +:+ OsPath.join R (job_name i))])
       (S (draws w))).
Proof.
  intros Hready. unfold LSF.job. rewrite Hinput.
  rewrite (prologue_exact i w _ Hready).
  apply bind_raise, lsf_generate_sh_raises.
Qed.
End lsf.
End turn.

(** X4. In a directory that holds no directory of the name of the script,
    [generate_sh] of the HTCondor launcher never fails, whatever characters
    the command and the input name hold: it writes [job_<i:04d>.sh] anew (an
    older script of that name is replaced, not patched) with the template in
    which the two placeholders have given way to the command and the input
    name, makes it executable for everybody (mode [0o755]) and returns its
    name. *)
Theorem htcondor_generate_sh_writes input i fluka_path custom_exe w :
  let p := cwd w ++ [HTCondorSpec.script_name i] in
  fs w !! cwd w = Some Dir →
  fs w !! p ≠ Some Dir →
  HTCondor.generate_sh input i fluka_path custom_exe w
  = (Ok (HTCondorSpec.script_name i),
     with_event (Chmod p 493)
       (with_fs (<[p := File (script_text fluka_path custom_exe input)]> (fs w)) w)).
Proof. apply htcondor_generate_sh_exact. Qed.

Lemma htcondor_generate_sh_writes_witness :
  HTCondor.generate_sh "run_0001.inp" 1 "/opt/fluka/bin" "$HOME/my exe" Demo.home
  = (Ok "job_0001.sh",
     with_event (Chmod ["home"; "u"; "job_0001.sh"] 493)
       (with_fs (<[["home"; "u"; "job_0001.sh"]
                   := File (script_text "/opt/fluka/bin" "$HOME/my exe" "run_0001.inp")]>
                   (fs Demo.home)) Demo.home)).
Proof.
  apply (htcondor_generate_sh_writes "run_0001.inp" 1 "/opt/fluka/bin" "$HOME/my exe"
           Demo.home).
  - vm_compute. reflexivity.
  - vm_compute. discriminate.
Defined.

(** *** The whole run, to the letter *)

Lemma for_each_app {A} (l1 l2 : list A) (body : A → M unit) w :
  for_each (l1 ++ l2) body w = (for_each l1 body ;; for_each l2 body) w.
Proof.
  revert w. induction l1 as [|x l1 IH]; intros w; simpl.
  - reflexivity.
  - unfold mbind, M_bind. destruct (body x w) as [[[]|e] w1]; [|done].
    apply IH.
Qed.

Lemma under_job_inv {A} (root : list A) c rest j l :
  root ++ c :: rest = (root ++ [j]) ++ l → c = j.
Proof. rewrite <-app_assoc. intros H%app_inv_head. by injection H. Qed.

Lemma snoc_snoc {A} (l : list A) a b : l ++ [a; b] = (l ++ [a]) ++ [b].
Proof. by rewrite <-app_assoc. Qed.

Section exact_run.
Variables (cwd0 : list string) (m0 : gmap (list string) node) (R : string).
Variables (input_file content : string).
Variable files : Z → string → option string.
Local Abbreviation root := (cwd0 ++ [R]).
Hypothesis HR : is_name R = true.
Hypothesis Hclosed : fs_closed m0.
Hypothesis Hcwd : m0 !! cwd0 = Some Dir.
Hypothesis Hfresh : m0 !! root = None.
Hypothesis Htemplate : m0 !! OsPath.resolve cwd0 input_file = Some (File content).
Implicit Types (m : gmap (list string) node) (k i : Z) (w : world).

Lemma jobs_done_fs_inv k m : jobs_done root m0 files k m → fs_inv root m0 k m.
Proof.
  intros Hdone. split; [apply Hdone|apply Hdone| |apply Hdone].
  intros c rest Hsome. by destruct (done_only _ _ _ _ _ Hdone c rest Hsome).
Qed.

Lemma jobs_done_init : jobs_done root m0 files 0 (<[root := Dir]> m0).
Proof.
  split.
  - intros p Hp. apply lookup_insert_ne. intros <-. by apply Hp.
  - apply lookup_insert_eq.
  - intros i Hi. lia.
  - intros i c Hi. lia.
  - intros c rest. rewrite lookup_insert_ne by path_neq.
    rewrite (nothing_under_root cwd0 m0 R) by done. by intros [??].
Qed.

Lemma jobs_done_ready k w :
  cwd w = cwd0 → jobs_done root m0 files k (fs w) → 0 ≤ k →
  ready cwd0 R input_file content (k + 1) w.
Proof.
  intros Hcwdw Hdone Hk. split_and!.
  - done.
  - rewrite (done_frame _ _ _ _ _ Hdone); [done|].
    intros [l Hl]. apply (f_equal List.length) in Hl. rewrite !length_app in Hl.
    simpl in Hl. lia.
  - eapply root_up_to; [done..|]. by apply jobs_done_fs_inv.
  - intros rest. eapply inv_fresh_job; [|done]. by apply jobs_done_fs_inv.
  - rewrite (done_frame _ _ _ _ _ Hdone); [done|].
    apply (outside_root cwd0 m0 R); [done..|]. by rewrite Htemplate.
Qed.

(** The turn of job [k + 1] added its directory with its files. *)
Lemma jobs_done_step k m m' :
  jobs_done root m0 files k m → 0 ≤ k →
  (∀ p, ¬ (root ++ [job_name (k + 1)]) `prefix_of` p → m' !! p = m !! p) →
  m' !! (root ++ [job_name (k + 1)]) = Some Dir →
  (∀ c, m' !! (root ++ [job_name (k + 1); c]) = File <$> files (k + 1) c) →
  (∀ c c' rest, m' !! (root ++ job_name (k + 1) :: c :: c' :: rest) = None) →
  jobs_done root m0 files (k + 1) m'.
Proof.
  intros Hdone Hk Hframe Hdir Hfiles Hdeep.
  assert (∀ i rest, 1 ≤ i ≤ k →
            ¬ (root ++ [job_name (k + 1)]) `prefix_of` (root ++ job_name i :: rest))
    as Hother.
  { intros i rest Hi [l Hl%under_job_inv]. apply job_name_inj in Hl; lia. }
  split.
  - intros p Hp. rewrite Hframe; [by apply Hdone|].
    intros [l Hl]. apply Hp. exists (job_name (k + 1) :: l).
    by rewrite Hl, <-app_assoc.
  - rewrite Hframe; [apply Hdone|].
    intros [l Hl]. apply (f_equal List.length) in Hl. rewrite !length_app in Hl.
    simpl in Hl. lia.
  - intros i Hi. destruct (decide (i = k + 1)) as [->|Hne]; [done|].
    rewrite Hframe by (apply Hother; lia). apply Hdone. lia.
  - intros i c Hi. destruct (decide (i = k + 1)) as [->|Hne]; [done|].
    rewrite Hframe by (apply Hother; lia). apply Hdone. lia.
  - intros c rest Hsome.
    destruct (decide (c = job_name (k + 1))) as [->|Hne].
    + split; [exists (k + 1); split; [lia|done]|].
      destruct rest as [|c1 [|c2 rest]]; simpl; [lia..|].
      rewrite Hdeep in Hsome. by destruct Hsome.
    + rewrite Hframe in Hsome.
      * destruct (done_only _ _ _ _ _ Hdone c rest Hsome) as [(i & Hi & ->) Hlen].
        split; [exists i; split; [lia|done]|done].
      * by intros [l Hl%under_job_inv].
Qed.

(** The file system stays closed. *)
Lemma jobs_done_closed k m : jobs_done root m0 files k m → fs_closed m.
Proof.
  intros Hdone p c Hsome.
  destruct (decide (root `prefix_of` (p ++ [c]))) as [[l Hl]|Hout].
  - destruct (decide (l = [])) as [->|Hne].
    + rewrite app_nil_r in Hl. apply app_inj_tail in Hl as [-> _].
      rewrite (done_frame _ _ _ _ _ Hdone); [done|].
      intros [l' Hl']. apply (f_equal List.length) in Hl'. rewrite !length_app in Hl'.
      simpl in Hl'. lia.
    + destruct (exists_last Hne) as (l' & c' & ->).
      rewrite app_assoc in Hl. apply app_inj_tail in Hl as [-> ->].
      destruct l' as [|c1 l'].
      * rewrite app_nil_r. apply Hdone.
      * destruct (done_only _ _ _ _ _ Hdone c1 (l' ++ [c'])) as [(i & Hi & ->) Hlen].
        { by rewrite <-app_assoc in Hsome. }
        rewrite length_app in Hlen. simpl in Hlen.
        destruct l'; [|simpl in Hlen; lia]. by apply Hdone.
  - rewrite (done_frame _ _ _ _ _ Hdone) in Hsome by done.
    rewrite (done_frame _ _ _ _ _ Hdone); [by apply (Hclosed p c)|].
    intros [l Hl]. apply Hout. exists (l ++ [c]). by rewrite Hl, <-app_assoc.
Qed.
End exact_run.

Lemma after_jobs_next cwd0 R m0 (ev : Z → list event) fl w0 k w w1 :
  0 ≤ k → after_jobs cwd0 R m0 fl ev w0 k w →
  cwd w1 = cwd0 → draws w1 = S (draws w) → trace w1 = trace w ++ ev (k + 1) →
  jobs_done (cwd0 ++ [R]) m0 fl (k + 1) (fs w1) →
  after_jobs cwd0 R m0 fl ev w0 (k + 1) w1.
Proof.
  intros Hk (Hc & Hd & Ht & Hf) Hc1 Hd1 Ht1 Hf1. split_and!; [done| | |done].
  - rewrite Hd1, Hd. rewrite Z2Nat.inj_add by lia. simpl. lia.
  - rewrite Ht1, Ht, seqZ_app by lia.
    rewrite fmap_app, concat_app, <-app_assoc. do 2 f_equal.
    change (seqZ (1 + k) 1) with [0 + (1 + k)]. simpl. rewrite app_nil_r.
    f_equal. lia.
Qed.


Section htcondor_exact.
Variables (cwd0 : list string) (m0 : gmap (list string) node) (R : string).
Variables (env : environment) (input_file content : string).
Variable FLUKA_PATH : string.
Variable a : HTCondor.args.
Variable w0 : world.
Local Abbreviation root := (cwd0 ++ [R]).
Local Abbreviation stripped := (stripped_name_of input_file).
Local Abbreviation files :=
  (htcondor_files env input_file content FLUKA_PATH (HTCondor.custom_exe a) (draws w0)).
Local Abbreviation events := (HTCondorSpec.job_events env a cwd0 R).
Hypothesis HR : is_name R = true.
Hypothesis Hclosed : fs_closed m0.
Hypothesis Hcwd : m0 !! cwd0 = Some Dir.
Hypothesis Hfresh : m0 !! root = None.
Hypothesis Htemplate : m0 !! OsPath.resolve cwd0 input_file = Some (File content).
Hypothesis Hbase : OsPath.basename input_file = stripped +:+ ".inp".
Hypothesis Hinput : HTCondor.input_file a = input_file.
Implicit Types (k i N : Z) (w : world).

Lemma htcondor_turn k w :
  0 ≤ k → after_jobs cwd0 R m0 files events w0 k w →
  ∃ w1, cwd w1 = root ++ [job_name (k + 1)] ∧
    after_jobs cwd0 R m0 files events w0 (k + 1) (with_cwd cwd0 w1) ∧
    HTCondor.job FLUKA_PATH env a stripped R (k + 1) w
    = if HTCondor.dry_run a then (Ok tt, with_cwd cwd0 w1)
      else match schedd_submit env (k + 1) with
           | Ok _ => (Ok tt, with_cwd cwd0 w1)
           | Raise e => (Raise e, w1)
           end.
Proof.
  intros Hk Hw. pose proof Hw as (Hcwdw & Hdraws & Htrace & Hdone).
  assert (ready cwd0 R input_file content (k + 1) w) as Hready
    by by eapply jobs_done_ready.
  eexists. split; [|split; [|apply (htcondor_job_exact cwd0 R env input_file content);
                             done]]; [done|].
  destruct Hready as (_ & _ & _ & Hnone & _).
  eapply after_jobs_next; [done..|]. cbn [fs with_cwd].
  apply (jobs_done_step cwd0 m0 R _ k (fs w)); [done..| | | |].
  - intros p Hp. unfold with_script, with_job.
    rewrite !lookup_insert_ne; [done|..].
    + intros <-. apply Hp. by exists [].
    + intros <-. apply Hp. eexists. apply snoc_snoc.
    + intros <-. apply Hp. eexists. apply snoc_snoc.
  - unfold with_script, with_job. rewrite !lookup_insert_ne by path_neq.
    apply lookup_insert_eq.
  - intros c. unfold with_script, with_job, htcondor_files.
    rewrite Hdraws, Z.add_simpl_r.
    case_bool_decide as Hs.
    + subst c. by rewrite lookup_insert_eq.
    + rewrite lookup_insert_ne by (intros Heq%app_inv_head; congruence).
      case_bool_decide as Hn.
      * subst c. by rewrite lookup_insert_eq.
      * rewrite lookup_insert_ne by (intros Heq%app_inv_head; congruence).
        rewrite lookup_insert_ne by path_neq. by rewrite (Hnone [_]).
  - intros c c' rest. unfold with_script, with_job.
    rewrite !lookup_insert_ne by path_neq. apply Hnone.
Qed.

Lemma htcondor_loop (n : nat) k w :
  0 ≤ k → after_jobs cwd0 R m0 files events w0 k w →
  HTCondor.dry_run a = true
  ∨ (∀ i, k < i ≤ k + Z.of_nat n → is_ok (schedd_submit env i) = true) →
  ∃ w', for_each (seqZ (k + 1) (Z.of_nat n))
          (HTCondor.job FLUKA_PATH env a stripped R) w = (Ok tt, w') ∧
        after_jobs cwd0 R m0 files events w0 (k + Z.of_nat n) w'.
Proof.
  revert k w. induction n as [|n IH]; intros k w Hk Hw Hacc.
  - exists w. rewrite seqZ_nil by lia. by rewrite Z.add_0_r.
  - rewrite seqZ_cons by lia. simpl.
    destruct (htcondor_turn k w Hk Hw) as (w1 & _ & Hw1 & Hrun).
    assert (HTCondor.job FLUKA_PATH env a stripped R (k + 1) w
            = (Ok tt, with_cwd cwd0 w1)) as Hok.
    { rewrite Hrun. destruct (HTCondor.dry_run a); [done|].
      destruct Hacc as [?|Hacc]; [done|].
      specialize (Hacc (k + 1) ltac:(lia)).
      by destruct (schedd_submit env (k + 1)). }
    destruct (IH (k + 1) (with_cwd cwd0 w1) ltac:(lia) Hw1) as (w' & Hloop & Hw').
    { destruct Hacc as [?|Hacc]; [by left|]. right. intros i Hi. apply Hacc. lia. }
    replace (Z.pred (Z.of_nat (S n))) with (Z.of_nat n) by lia.
    replace (Z.succ (k + 1)) with (k + 1 + 1) by lia.
    exists w'. split.
    + erewrite bind_ok by exact Hok. exact Hloop.
    + by replace (k + Z.of_nat (S n)) with (k + 1 + Z.of_nat n) by lia.
Qed.

(** The loop when the scheduler refuses job [j], having taken the jobs
    before it. *)
Lemma htcondor_loop_refused N j e w :
  after_jobs cwd0 R m0 files events w0 0 w →
  HTCondor.dry_run a = false → 1 ≤ j ≤ N →
  (∀ i, 1 ≤ i < j → is_ok (schedd_submit env i) = true) →
  schedd_submit env j = Raise e →
  ∃ w1, for_each (range 1 (N + 1)) (HTCondor.job FLUKA_PATH env a stripped R) w
        = (Raise e, w1) ∧
        cwd w1 = root ++ [job_name j] ∧
        after_jobs cwd0 R m0 files events w0 j (with_cwd cwd0 w1).
Proof.
  intros Hw Hwet Hj Hbefore Hrefuse.
  unfold range. replace (N + 1 - 1) with ((j - 1) + (1 + (N - j))) by lia.
  rewrite seqZ_app, for_each_app by lia.
  destruct (htcondor_loop (Z.to_nat (j - 1)) 0 w) as (w' & Hloop & Hw'); [lia|done| |].
  { right. intros i Hi. apply Hbefore. lia. }
  rewrite Z2Nat.id, Z.add_0_l in * by lia.
  erewrite bind_ok by exact Hloop.
  rewrite seqZ_cons by lia. simpl.
  destruct (htcondor_turn (j - 1) w' ltac:(lia) Hw') as (w1 & Hcwd1 & Hw1 & Hrun).
  replace (j - 1 + 1) with j in * by lia.
  rewrite Hwet, Hrefuse in Hrun.
  exists w1. replace (1 + (j - 1)) with j by lia.
  split; [|done]. by erewrite bind_raise by exact Hrun.
Qed.
End htcondor_exact.

Section ts_exact.
Variables (cwd0 : list string) (m0 : gmap (list string) node) (R : string).
Variables (env : environment) (input_file content : string).
Variable a : TS.args.
Variable w0 : world.
Local Abbreviation root := (cwd0 ++ [R]).
Local Abbreviation stripped := (stripped_name_of input_file).
Local Abbreviation files := (ts_files env input_file content (draws w0)).
Local Abbreviation events := (ts_turn_events env a R).
Hypothesis HR : is_name R = true.
Hypothesis Hclosed : fs_closed m0.
Hypothesis Hcwd : m0 !! cwd0 = Some Dir.
Hypothesis Hfresh : m0 !! root = None.
Hypothesis Htemplate : m0 !! OsPath.resolve cwd0 input_file = Some (File content).
Hypothesis Hbase : OsPath.basename input_file = stripped +:+ ".inp".
Hypothesis Hinput : TS.input_file a = input_file.
Implicit Types (k i N : Z) (w : world).

Lemma ts_turn k w :
  0 ≤ k → after_jobs cwd0 R m0 files events w0 k w →
  ∃ w1, TS.job env a stripped R (k + 1) w = (Ok tt, w1) ∧
        after_jobs cwd0 R m0 files events w0 (k + 1) w1.
Proof.
  intros Hk Hw. pose proof Hw as (Hcwdw & Hdraws & Htrace & Hdone).
  assert (ready cwd0 R input_file content (k + 1) w) as Hready
    by by eapply jobs_done_ready.
  eexists. split; [by apply (ts_job_exact cwd0 R env input_file content)|].
  destruct Hready as (_ & _ & _ & Hnone & _).
  eapply after_jobs_next; [done..|]. cbn [fs].
  apply (jobs_done_step cwd0 m0 R _ k (fs w)); [done..| | | |].
  - intros p Hp. unfold with_job.
    rewrite !lookup_insert_ne; [done|..].
    + intros <-. apply Hp. by exists [].
    + intros <-. apply Hp. eexists. apply snoc_snoc.
  - unfold with_job. rewrite !lookup_insert_ne by path_neq.
    apply lookup_insert_eq.
  - intros c. unfold with_job, ts_files.
    rewrite Hdraws, Z.add_simpl_r.
    case_bool_decide as Hn.
    + subst c. by rewrite lookup_insert_eq.
    + rewrite lookup_insert_ne by (intros Heq%app_inv_head; congruence).
      rewrite lookup_insert_ne by path_neq. by rewrite (Hnone [_]).
  - intros c c' rest. unfold with_job.
    rewrite !lookup_insert_ne by path_neq. apply Hnone.
Qed.

Lemma ts_loop (n : nat) k w :
  0 ≤ k → after_jobs cwd0 R m0 files events w0 k w →
  ∃ w', for_each (seqZ (k + 1) (Z.of_nat n)) (TS.job env a stripped R) w = (Ok tt, w') ∧
        after_jobs cwd0 R m0 files events w0 (k + Z.of_nat n) w'.
Proof.
  revert k w. induction n as [|n IH]; intros k w Hk Hw.
  - exists w. rewrite seqZ_nil by lia. by rewrite Z.add_0_r.
  - rewrite seqZ_cons by lia. simpl.
    destruct (ts_turn k w Hk Hw) as (w1 & Hok & Hw1).
    destruct (IH (k + 1) w1 ltac:(lia) Hw1) as (w' & Hloop & Hw').
    replace (Z.pred (Z.of_nat (S n))) with (Z.of_nat n) by lia.
    replace (Z.succ (k + 1)) with (k + 1 + 1) by lia.
    exists w'. split.
    + erewrite bind_ok by exact Hok. exact Hloop.
    + by replace (k + Z.of_nat (S n)) with (k + 1 + Z.of_nat n) by lia.
Qed.
End ts_exact.

(** *** The runs of the three launchers *)

Lemma ends_with_char_app c s t :
  t ≠ "" → Py.ends_with_char c (s +:+ t) = Py.ends_with_char c t.
Proof.
  intros Ht. induction s as [|a s IH]; [done|].
  rewrite app_cons. simpl. rewrite IH.
  destruct (s +:+ t) eqn:Heq; [|done].
  destruct s; [|by rewrite app_cons in Heq]. by rewrite app_empty_l in Heq.
Qed.

Lemma new_input_not_script input_file i :
  new_input_of input_file i ≠ HTCondorSpec.script_name i.
Proof.
  intros Heq. apply (f_equal (Py.ends_with_char "p")) in Heq.
  unfold new_input_of, HTCondorSpec.script_name in Heq.
  rewrite <-!app_assoc_str in Heq. by rewrite !ends_with_char_app in Heq.
Qed.

Section runs.
Variable env : environment.
Implicit Types (w : world) (content : string).

(** The allocation of the root in a runnable world. *)
Lemma allocate_root_runnable input_file output_dir content w :
  runnable input_file output_dir content w →
  ∃ R, is_name R = true ∧ fs w !! (cwd w ++ [R]) = None ∧
       allocate_root input_file output_dir w = (Ok R, with_root R w).
Proof.
  intros (HP & Hclosed & Hcwd & _ & _).
  destruct (allocate_root_ok input_file output_dir w)
    as (k & Hk & Halloc & Hnone & _); [done..|].
  exists (candidate (base_directory_name input_file output_dir) k).
  split_and!; [by apply candidate_is_name|done..].
Qed.

Lemma after_jobs_start cwd0 R m0 files events w0 wl :
  m0 !! (cwd0 ++ [R]) = None → fs_closed m0 →
  cwd wl = cwd0 → draws wl = draws w0 → trace wl = trace w0 →
  fs wl = <[cwd0 ++ [R] := Dir]> m0 →
  after_jobs cwd0 R m0 files events w0 0 wl.
Proof.
  intros Hnone Hclosed Hc Hd Ht Hf. split_and!; [done|by rewrite Hd; simpl; lia| |].
  - by rewrite seqZ_nil, Ht, app_nil_r by lia.
  - rewrite Hf. by apply jobs_done_init.
Qed.

Lemma htcondor_run_exact FLUKA_PATH (a : HTCondor.args) w content :
  runnable (HTCondor.input_file a) (HTCondor.output_dir a) content w →
  0 ≤ HTCondor.job_number a →
  HTCondor.dry_run a = true ∨ scheduler_accepts env (HTCondor.job_number a) →
  ∃ R w',
    allocate_root (HTCondor.input_file a) (HTCondor.output_dir a) w
    = (Ok R, with_root R w) ∧
    is_name R = true ∧ fs w !! (cwd w ++ [R]) = None ∧
    HTCondor.launch_jobs FLUKA_PATH env a w = (Ok tt, w') ∧
    after_jobs (cwd w) R (fs w)
      (htcondor_files env (HTCondor.input_file a) content FLUKA_PATH
         (HTCondor.custom_exe a) (draws w))
      (HTCondorSpec.job_events env a (cwd w) R)
      (World (cwd w) (fs w)
         (trace w ++ if HTCondor.dry_run a then [] else [ScheddConnect]) (draws w))
      (HTCondor.job_number a) w'.
Proof.
  intros Hrun HN Hacc.
  destruct (allocate_root_runnable _ _ _ _ Hrun) as (R & HR & Hnone & Halloc).
  destruct Hrun as (HP & Hclosed & Hcwd & Htemplate & Hbase).
  exists R. unfold HTCondor.launch_jobs.
  erewrite bind_ok by exact Halloc.
  set (w0 := World (cwd w) (fs w) _ (draws w)).
  set (wl := World (cwd w) (<[cwd w ++ [R] := Dir]> (fs w)) (trace w0) (draws w)).
  assert ((if HTCondor.dry_run a then mret tt
           else emit ScheddConnect;; lift (schedd_connect env)) (with_root R w)
          = (Ok tt, wl)) as Hconn.
  { unfold wl, w0. simpl. destruct (HTCondor.dry_run a) eqn:Hdry.
    - unfold mret, M_ret, with_root, with_fs. simpl. by rewrite app_nil_r.
    - destruct Hacc as [?|[Hc _]]; [done|].
      unfold mbind, M_bind, emit, lift. simpl. by rewrite Hc. }
  erewrite bind_ok by exact Hconn.
  destruct (htcondor_loop (cwd w) (fs w) R env (HTCondor.input_file a) content
              FLUKA_PATH a w0 HR Hclosed Hcwd Hnone Htemplate Hbase eq_refl
              (Z.to_nat (HTCondor.job_number a)) 0 wl) as (w' & Hloop & Hw'); [lia| | |].
  { by apply after_jobs_start. }
  { destruct Hacc as [?|[_ Hs]]; [by left|]. right. intros i Hi. apply Hs. lia. }
  rewrite Z2Nat.id, Z.add_0_l in * by done.
  exists w'. split_and!; [done..| |done].
  unfold range. by replace (HTCondor.job_number a + 1 - 1) with (HTCondor.job_number a)
    by lia.
Qed.

Lemma ts_run_exact (a : TS.args) w content :
  runnable (TS.input_file a) (TS.output_dir a) content w →
  0 ≤ TS.job_number a →
  ∃ R w',
    allocate_root (TS.input_file a) (TS.output_dir a) w = (Ok R, with_root R w) ∧
    is_name R = true ∧ fs w !! (cwd w ++ [R]) = None ∧
    TS.launch_jobs env a w = (Ok tt, w') ∧
    after_jobs (cwd w) R (fs w)
      (ts_files env (TS.input_file a) content (draws w))
      (ts_turn_events env a R) w (TS.job_number a) w'.
Proof.
  intros Hrun HN.
  destruct (allocate_root_runnable _ _ _ _ Hrun) as (R & HR & Hnone & Halloc).
  destruct Hrun as (HP & Hclosed & Hcwd & Htemplate & Hbase).
  exists R. unfold TS.launch_jobs.
  erewrite bind_ok by exact Halloc.
  destruct (ts_loop (cwd w) (fs w) R env (TS.input_file a) content a w
              HR Hclosed Hcwd Hnone Htemplate Hbase eq_refl
              (Z.to_nat (TS.job_number a)) 0 (with_root R w)) as (w' & Hloop & Hw'); [lia| |].
  { by apply after_jobs_start. }
  rewrite Z2Nat.id, Z.add_0_l in * by done.
  exists w'. split_and!; [done..| |done].
  unfold range. by replace (TS.job_number a + 1 - 1) with (TS.job_number a) by lia.
Qed.
End runs.

Ltac demo_runnable :=
  split_and!;
  [ reflexivity
  | apply fs_closed_check, (bool_decide_unpack _); vm_compute; exact I
  | vm_compute; reflexivity
  | vm_compute; reflexivity
  | reflexivity ].

Lemma job_path {A} (l : list A) R j rest : (l ++ [R; j]) ++ rest = (l ++ [R]) ++ j :: rest.
Proof. by rewrite <-!app_assoc. Qed.

Lemma root_path {A} (l : list A) R rest : l ++ R :: rest = (l ++ [R]) ++ rest.
Proof. by rewrite <-app_assoc. Qed.

Lemma jobs_done_deep root m0 files k m i c c' rest :
  jobs_done root m0 files k m → m !! (root ++ job_name i :: c :: c' :: rest) = None.
Proof.
  intros Hdone. destruct (m !! _) as [x|] eqn:Hx; [|done].
  destruct (done_only _ _ _ _ _ Hdone (job_name i) (c :: c' :: rest)) as [_ Hlen].
  { by rewrite Hx. }
  simpl in Hlen. lia.
Qed.

(** X5. In a run of the HTCondor launcher that goes through, the
    directory of every job [i] holds two files and nothing else: the input
    [<stripped>_<i:04d>.inp], which is the template with the record of the
    seed of the [i]-th draw of the run, and the script [job_<i:04d>.sh],
    whose last line runs FLUKA on that input; these are the two files the
    submit description of the job names. The copy of the template under its
    own name is gone, and the run has drawn one number per job. *)
Theorem htcondor_job_directories FLUKA_PATH env (a : HTCondor.args) w content :
  runnable (HTCondor.input_file a) (HTCondor.output_dir a) content w →
  0 ≤ HTCondor.job_number a →
  HTCondor.dry_run a = true ∨ scheduler_accepts env (HTCondor.job_number a) →
  ∃ R w',
    allocate_root (HTCondor.input_file a) (HTCondor.output_dir a) w
    = (Ok R, with_root R w) ∧
    HTCondor.launch_jobs FLUKA_PATH env a w = (Ok tt, w') ∧
    draws w' = (draws w + Z.to_nat (HTCondor.job_number a))%nat ∧
    ∀ i, 1 ≤ i ≤ HTCondor.job_number a →
      let job_dir := cwd w ++ [R; job_name i] in
      let new_input := new_input_of (HTCondor.input_file a) i in
      fs w' !! (job_dir ++ [new_input])
      = Some (File (mutated content (seed_of env (draws w + Z.to_nat (i - 1))))) ∧
      fs w' !! (job_dir ++ [HTCondorSpec.script_name i])
      = Some (File (script_text FLUKA_PATH (HTCondor.custom_exe a) new_input)) ∧
      dict_get (HTCondorSpec.description a i) "transfer_input_files"
      = Some (PStr new_input) ∧
      dict_get (HTCondorSpec.description a i) "executable"
      = Some (PStr (HTCondorSpec.script_name i)) ∧
      (∀ c, c ≠ new_input → c ≠ HTCondorSpec.script_name i →
            fs w' !! (job_dir ++ [c]) = None) ∧
      (∀ c c' rest, fs w' !! (job_dir ++ c :: c' :: rest) = None).
Proof.
  intros Hrun HN Hacc.
  destruct (htcondor_run_exact env FLUKA_PATH a w content Hrun HN Hacc)
    as (R & w' & Halloc & _ & _ & Hlaunch & _ & Hdraws & _ & Hdone).
  exists R, w'. split_and!; [done..|].
  intros i Hi job_dir new_input. unfold job_dir. rewrite !job_path.
  split_and!.
  - rewrite (done_files _ _ _ _ _ Hdone) by done. unfold htcondor_files. simpl.
    rewrite bool_decide_eq_false_2 by apply new_input_not_script.
    by rewrite bool_decide_eq_true_2.
  - rewrite (done_files _ _ _ _ _ Hdone) by done. unfold htcondor_files.
    by rewrite bool_decide_eq_true_2.
  - reflexivity.
  - reflexivity.
  - intros c Hc1 Hc2. rewrite job_path, (done_files _ _ _ _ _ Hdone) by done.
    unfold htcondor_files. by rewrite !bool_decide_eq_false_2.
  - intros c c' rest. rewrite job_path. by eapply jobs_done_deep.
Qed.

Lemma htcondor_job_directories_witness :
  ∃ R w',
    allocate_root "run.inp" None Demo.home = (Ok R, with_root R Demo.home) ∧
    HTCondor.launch_jobs "/opt/fluka/bin" Demo.env
      (Demo.htcondor_args "run.inp" 3 "None" false None) Demo.home = (Ok tt, w') ∧
    draws w' = 3%nat ∧
    ∀ i, 1 ≤ i ≤ 3 →
      let job_dir := ["home"; "u"] ++ [R; job_name i] in
      let new_input := new_input_of "run.inp" i in
      fs w' !! (job_dir ++ [new_input])
      = Some (File (mutated Demo.template (seed_of Demo.env (0 + Z.to_nat (i - 1))))) ∧
      fs w' !! (job_dir ++ [HTCondorSpec.script_name i])
      = Some (File (script_text "/opt/fluka/bin" "None" new_input)) ∧
      dict_get (HTCondorSpec.description
                  (Demo.htcondor_args "run.inp" 3 "None" false None) i)
        "transfer_input_files" = Some (PStr new_input) ∧
      dict_get (HTCondorSpec.description
                  (Demo.htcondor_args "run.inp" 3 "None" false None) i)
        "executable" = Some (PStr (HTCondorSpec.script_name i)) ∧
      (∀ c, c ≠ new_input → c ≠ HTCondorSpec.script_name i →
            fs w' !! (job_dir ++ [c]) = None) ∧
      (∀ c c' rest, fs w' !! (job_dir ++ c :: c' :: rest) = None).
Proof.
  apply (htcondor_job_directories "/opt/fluka/bin" Demo.env
           (Demo.htcondor_args "run.inp" 3 "None" false None) Demo.home Demo.template).
  - demo_runnable.
  - simpl. lia.
  - right. split; [reflexivity|]. intros i Hi. reflexivity.
Defined.

Section submissions.
Variables (env : environment) (a : HTCondor.args) (cwd0 : list string) (R : string).
Hypothesis Hwet : HTCondor.dry_run a = false.

Lemma submitted_jobs (l : list Z) :
  submitted (List.concat (HTCondorSpec.job_events env a cwd0 R <$> l))
  = HTCondorSpec.description a <$> l.
Proof.
  induction l as [|i l IH]; [done|]. rewrite fmap_cons. simpl.
  unfold submitted in *. rewrite omap_app, IH.
  unfold HTCondorSpec.submit_events. rewrite Hwet.
  by destruct (schedd_submit env i).
Qed.

Lemma connects_jobs (l : list Z) :
  Forall (λ ev, ev ≠ ScheddConnect)
    (List.concat (HTCondorSpec.job_events env a cwd0 R <$> l)).
Proof.
  induction l as [|i l IH]; [constructor|]. rewrite fmap_cons. simpl.
  do 2 (constructor; [done|]). apply Forall_app. split; [|done].
  unfold HTCondorSpec.submit_events. rewrite Hwet.
  destruct (schedd_submit env i); repeat constructor; done.
Qed.

Lemma logged_jobs (l : list Z) :
  Forall (λ i, is_ok (schedd_submit env i) = true) l →
  Forall2 (λ i m, ∃ cluster, schedd_submit env i = Ok cluster ∧
                             m = Text ("Submitted job " +:+ pretty cluster))
    l (log_lines (List.concat (HTCondorSpec.job_events env a cwd0 R <$> l))).
Proof.
  induction 1 as [|i l Hi Hl IH]; [constructor|]. rewrite fmap_cons. simpl.
  unfold log_lines in *. rewrite omap_app.
  unfold HTCondorSpec.submit_events. rewrite Hwet.
  destruct (schedd_submit env i) as [cluster|] eqn:Hsub; [|done]. simpl.
  constructor; [by exists cluster|done].
Qed.
End submissions.

(** X6. A run of the HTCondor launcher that is not a dry run and whose
    scheduler accepts everything connects to the scheduler once, before the
    first job, and then submits exactly one description per job, in the
    order of the jobs, logging after each submission the cluster id the
    scheduler returned for it. *)
Theorem htcondor_submissions_in_order FLUKA_PATH env (a : HTCondor.args) w content :
  runnable (HTCondor.input_file a) (HTCondor.output_dir a) content w →
  0 ≤ HTCondor.job_number a →
  HTCondor.dry_run a = false →
  scheduler_accepts env (HTCondor.job_number a) →
  ∃ w' evs,
    HTCondor.launch_jobs FLUKA_PATH env a w = (Ok tt, w') ∧
    trace w' = trace w ++ ScheddConnect :: evs ∧
    Forall (λ ev, ev ≠ ScheddConnect) evs ∧
    submitted evs = HTCondorSpec.description a <$> seqZ 1 (HTCondor.job_number a) ∧
    Forall2 (λ i m, ∃ cluster, schedd_submit env i = Ok cluster ∧
                               m = Text ("Submitted job " +:+ pretty cluster))
      (seqZ 1 (HTCondor.job_number a)) (log_lines evs).
Proof.
  intros Hrun HN Hwet Hacc.
  destruct (htcondor_run_exact env FLUKA_PATH a w content Hrun HN (or_intror Hacc))
    as (R & w' & _ & _ & _ & Hlaunch & _ & _ & Htrace & _).
  simpl in Htrace. rewrite Hwet, <-app_assoc in Htrace.
  exists w'. eexists. split_and!; [done|exact Htrace|..].
  - by apply connects_jobs.
  - by apply submitted_jobs.
  - apply logged_jobs; [done|]. apply Forall_forall. intros i Hi%elem_of_seqZ.
    apply Hacc. lia.
Qed.

Lemma htcondor_submissions_in_order_witness :
  ∃ w' evs,
    HTCondor.launch_jobs "/opt/fluka/bin" Demo.env
      (Demo.htcondor_args "run.inp" 3 "None" false None) Demo.home = (Ok tt, w') ∧
    trace w' = trace Demo.home ++ ScheddConnect :: evs ∧
    Forall (λ ev, ev ≠ ScheddConnect) evs ∧
    submitted evs
    = HTCondorSpec.description (Demo.htcondor_args "run.inp" 3 "None" false None)
        <$> seqZ 1 3 ∧
    Forall2 (λ i m, ∃ cluster, schedd_submit Demo.env i = Ok cluster ∧
                               m = Text ("Submitted job " +:+ pretty cluster))
      (seqZ 1 3) (log_lines evs).
Proof.
  apply (htcondor_submissions_in_order "/opt/fluka/bin" Demo.env
           (Demo.htcondor_args "run.inp" 3 "None" false None) Demo.home Demo.template).
  - demo_runnable.
  - simpl. lia.
  - reflexivity.
  - split; [reflexivity|]. intros i Hi. reflexivity.
Defined.

(** X7. When the scheduler refuses the submission of job [j], having taken
    the jobs before it, the run of the HTCondor launcher ends with the
    exception of the scheduler: the descriptions of the jobs [1..j] have
    been handed over, in order; the directory of job [j] stays behind with
    its input and its script; no directory is made for a later job; and the
    process is left in the directory of job [j]. *)
Theorem htcondor_stops_at_refusal FLUKA_PATH env (a : HTCondor.args) w content j e :
  runnable (HTCondor.input_file a) (HTCondor.output_dir a) content w →
  HTCondor.dry_run a = false →
  schedd_connect env = Ok tt →
  1 ≤ j ≤ HTCondor.job_number a →
  (∀ i, 1 ≤ i < j → is_ok (schedd_submit env i) = true) →
  schedd_submit env j = Raise e →
  ∃ R w' evs,
    allocate_root (HTCondor.input_file a) (HTCondor.output_dir a) w
    = (Ok R, with_root R w) ∧
    HTCondor.launch_jobs FLUKA_PATH env a w = (Raise e, w') ∧
    cwd w' = cwd w ++ [R; job_name j] ∧
    trace w' = trace w ++ ScheddConnect :: evs ∧
    submitted evs = HTCondorSpec.description a <$> seqZ 1 j ∧
    List.length (log_lines evs) = Z.to_nat (j - 1) ∧
    is_Some (fs w' !! (cwd w ++ [R; job_name j; new_input_of (HTCondor.input_file a) j])) ∧
    is_Some (fs w' !! (cwd w ++ [R; job_name j; HTCondorSpec.script_name j])) ∧
    ∀ i rest, j < i → fs w' !! ((cwd w ++ [R; job_name i]) ++ rest) = None.
Proof.
  intros Hrun Hwet Hconn Hj Hbefore Hrefuse.
  destruct (allocate_root_runnable _ _ _ _ Hrun) as (R & HR & Hnone & Halloc).
  destruct Hrun as (HP & Hclosed & Hcwd & Htemplate & Hbase).
  unfold HTCondor.launch_jobs.
  erewrite bind_ok by exact Halloc. rewrite Hwet.
  set (w0 := with_event ScheddConnect (with_root R w)).
  erewrite (bind_ok _ _ _ tt w0); last first.
  { unfold mbind, M_bind, emit, lift. simpl. by rewrite Hconn. }
  destruct (htcondor_loop_refused (cwd w) (fs w) R env (HTCondor.input_file a) content
              FLUKA_PATH a w0 HR Hclosed Hcwd Hnone Htemplate Hbase eq_refl
              (HTCondor.job_number a) j e w0)
    as (w1 & Hloop & Hcwd1 & _ & _ & Htrace & Hdone); [|done..|].
  { by apply after_jobs_start. }
  simpl in Htrace. rewrite <-app_assoc in Htrace.
  exists R, w1. eexists. split_and!; [done|done| |exact Htrace|..].
  - by rewrite Hcwd1, <-app_assoc.
  - by apply submitted_jobs.
  - assert (seqZ 1 j = seqZ 1 (j - 1) ++ [j]) as ->.
    { replace j with (j - 1 + 1) at 1 by lia. rewrite seqZ_app by lia.
      f_equal. by replace (1 + (j - 1)) with j by lia. }
    rewrite fmap_app, concat_app. unfold log_lines. rewrite omap_app.
    fold (log_lines (List.concat (HTCondorSpec.job_events env a (cwd w) R
                                    <$> seqZ 1 (j - 1)))).
    rewrite length_app.
    erewrite <-(Forall2_length _ (seqZ 1 (j - 1)) (log_lines _)); last first.
    { apply logged_jobs; [done|]. apply Forall_forall. intros i Hi%elem_of_seqZ.
      apply Hbefore. lia. }
    rewrite length_seqZ. simpl. unfold HTCondorSpec.submit_events.
    rewrite Hwet, Hrefuse. simpl. lia.
  - cbn [fs with_cwd] in Hdone.
    rewrite (root_path (cwd w) R).
    rewrite (done_files _ _ _ _ _ Hdone) by lia. unfold htcondor_files.
    rewrite bool_decide_eq_false_2 by apply new_input_not_script.
    by rewrite bool_decide_eq_true_2.
  - cbn [fs with_cwd] in Hdone.
    rewrite (root_path (cwd w) R).
    rewrite (done_files _ _ _ _ _ Hdone) by lia. unfold htcondor_files.
    by rewrite bool_decide_eq_true_2.
  - intros i rest Hi. cbn [fs with_cwd] in Hdone. rewrite job_path.
    destruct (fs w1 !! _) as [x|] eqn:Hx; [|done].
    destruct (done_only _ _ _ _ _ Hdone (job_name i) rest) as [(i' & Hi' & Heq) _].
    { by rewrite Hx. }
    apply job_name_inj in Heq; lia.
Qed.

Lemma htcondor_stops_at_refusal_witness :
  ∃ R w' evs,
    allocate_root "run.inp" None Demo.home = (Ok R, with_root R Demo.home) ∧
    HTCondor.launch_jobs "/opt/fluka/bin" Sample.env_refuse_second
      (Demo.htcondor_args "run.inp" 3 "None" false None) Demo.home
    = (Raise (SchedulerError "refused"), w') ∧
    cwd w' = ["home"; "u"] ++ [R; job_name 2] ∧
    trace w' = trace Demo.home ++ ScheddConnect :: evs ∧
    submitted evs
    = HTCondorSpec.description (Demo.htcondor_args "run.inp" 3 "None" false None)
        <$> seqZ 1 2 ∧
    List.length (log_lines evs) = Z.to_nat (2 - 1) ∧
    is_Some (fs w' !! (["home"; "u"] ++ [R; job_name 2; new_input_of "run.inp" 2])) ∧
    is_Some (fs w' !! (["home"; "u"] ++ [R; job_name 2; HTCondorSpec.script_name 2])) ∧
    ∀ i rest, 2 < i → fs w' !! ((["home"; "u"] ++ [R; job_name i]) ++ rest) = None.
Proof.
  apply (htcondor_stops_at_refusal "/opt/fluka/bin" Sample.env_refuse_second
           (Demo.htcondor_args "run.inp" 3 "None" false None) Demo.home Demo.template 2
           (SchedulerError "refused")).
  - demo_runnable.
  - reflexivity.
  - reflexivity.
  - simpl. lia.
  - intros i Hi. assert (i = 1) as -> by lia. reflexivity.
  - reflexivity.
Defined.

Ltac demo_allocatable :=
  split_and!;
  [ reflexivity
  | apply fs_closed_check, (bool_decide_unpack _); vm_compute; exact I
  | vm_compute; reflexivity ].

Lemma allocate_root_allocatable input_file output_dir w :
  allocatable input_file output_dir w →
  ∃ R, is_name R = true ∧ fs w !! (cwd w ++ [R]) = None ∧
       allocate_root input_file output_dir w = (Ok R, with_root R w).
Proof.
  intros (HP & Hclosed & Hcwd).
  destruct (allocate_root_ok input_file output_dir w)
    as (k & Hk & Halloc & Hnone & _); [done..|].
  exists (candidate (base_directory_name input_file output_dir) k).
  split_and!; [by apply candidate_is_name|done..].
Qed.

(** X8. When the connection to the scheduler fails, the run of the
    HTCondor launcher ends with that exception before the first job, whatever
    the number of jobs and whether or not the template is there; the root has
    been created by then and stays behind, empty. *)
Theorem htcondor_connection_fails FLUKA_PATH env (a : HTCondor.args) w e :
  allocatable (HTCondor.input_file a) (HTCondor.output_dir a) w →
  HTCondor.dry_run a = false →
  schedd_connect env = Raise e →
  ∃ R,
    allocate_root (HTCondor.input_file a) (HTCondor.output_dir a) w
    = (Ok R, with_root R w) ∧
    fs w !! (cwd w ++ [R]) = None ∧
    HTCondor.launch_jobs FLUKA_PATH env a w
    = (Raise e, with_event ScheddConnect (with_root R w)) ∧
    ∀ c rest, fs (with_root R w) !! ((cwd w ++ [R]) ++ c :: rest) = None.
Proof.
  intros Halloc Hwet Hconn. pose proof Halloc as (HP & Hclosed & Hcwd).
  destruct (allocate_root_allocatable _ _ _ Halloc) as (R & HR & Hnone & Hroot).
  exists R. split_and!; [done..| |].
  - unfold HTCondor.launch_jobs. erewrite bind_ok by exact Hroot.
    rewrite Hwet. apply bind_raise.
    unfold mbind, M_bind, emit, lift. simpl. by rewrite Hconn.
  - intros c rest. unfold with_root. cbn [fs with_fs].
    rewrite lookup_insert_ne by path_neq.
    by apply (nothing_under_root (cwd w) (fs w) R).
Qed.

Lemma htcondor_connection_fails_witness :
  ∃ R,
    allocate_root "run.inp" None Demo.home_empty = (Ok R, with_root R Demo.home_empty) ∧
    fs Demo.home_empty !! (["home"; "u"] ++ [R]) = None ∧
    HTCondor.launch_jobs "/opt/fluka/bin" Sample.env_no_scheduler
      (Demo.htcondor_args "run.inp" 3 "None" false None) Demo.home_empty
    = (Raise (SchedulerError "no schedd"),
       with_event ScheddConnect (with_root R Demo.home_empty)) ∧
    ∀ c rest,
      fs (with_root R Demo.home_empty) !! ((["home"; "u"] ++ [R]) ++ c :: rest) = None.
Proof.
  apply (htcondor_connection_fails "/opt/fluka/bin" Sample.env_no_scheduler
           (Demo.htcondor_args "run.inp" 3 "None" false None) Demo.home_empty
           (SchedulerError "no schedd")).
  - demo_allocatable.
  - reflexivity.
  - reflexivity.
Defined.

Lemma jobs_done_keeps root m0 files k m p :
  fs_closed m0 → m0 !! root = None → root ≠ [] →
  jobs_done root m0 files k m → is_Some (m0 !! p) → m !! p = m0 !! p.
Proof.
  intros Hclosed Hnone Hroot Hdone Hp. apply Hdone.
  intros [l ->]. destruct (decide (l = [])) as [->|Hl].
  - rewrite app_nil_r, Hnone in Hp. by destruct Hp.
  - assert (m0 !! root = Some Dir); [|congruence].
    by apply (closed_ancestors m0 root l).
Qed.

(** X9. A run that goes through changes nothing that was there before:
    every entry the file system had keeps its kind and its content, the
    template among them (the jobs work on copies). This holds for the
    HTCondor launcher and for the Task Spooler launcher. *)
Theorem runs_keep_existing_entries FLUKA_PATH env (a : HTCondor.args) w content :
  runnable (HTCondor.input_file a) (HTCondor.output_dir a) content w →
  0 ≤ HTCondor.job_number a →
  HTCondor.dry_run a = true ∨ scheduler_accepts env (HTCondor.job_number a) →
  (∃ w', HTCondor.launch_jobs FLUKA_PATH env a w = (Ok tt, w') ∧
         ∀ p, is_Some (fs w !! p) → fs w' !! p = fs w !! p) ∧
  (∃ w', TS.launch_jobs env (ts_of a) w = (Ok tt, w') ∧
         ∀ p, is_Some (fs w !! p) → fs w' !! p = fs w !! p).
Proof.
  intros Hrun HN Hacc. pose proof Hrun as (HP & Hclosed & Hcwd & Htemplate & Hbase).
  split.
  - destruct (htcondor_run_exact env FLUKA_PATH a w content Hrun HN Hacc)
      as (R & w' & _ & _ & Hnone & Hlaunch & _ & _ & _ & Hdone).
    exists w'. split; [done|]. intros p Hp.
    eapply jobs_done_keeps; [done|exact Hnone| |done..]. by destruct (cwd w).
  - destruct (ts_run_exact env (ts_of a) w content Hrun HN)
      as (R & w' & _ & _ & Hnone & Hlaunch & _ & _ & _ & Hdone).
    exists w'. split; [done|]. intros p Hp.
    eapply jobs_done_keeps; [done|exact Hnone| |done..]. by destruct (cwd w).
Qed.

Lemma runs_keep_existing_entries_witness :
  (∃ w', HTCondor.launch_jobs "/opt/fluka/bin" Demo.env
           (Demo.htcondor_args "run.inp" 3 "None" true None) Demo.home_taken = (Ok tt, w') ∧
         ∀ p, is_Some (fs Demo.home_taken !! p) → fs w' !! p = fs Demo.home_taken !! p) ∧
  (∃ w', TS.launch_jobs Demo.env
           (ts_of (Demo.htcondor_args "run.inp" 3 "None" true None)) Demo.home_taken
         = (Ok tt, w') ∧
         ∀ p, is_Some (fs Demo.home_taken !! p) → fs w' !! p = fs Demo.home_taken !! p).
Proof.
  apply (runs_keep_existing_entries "/opt/fluka/bin" Demo.env
           (Demo.htcondor_args "run.inp" 3 "None" true None) Demo.home_taken Demo.template).
  - demo_runnable.
  - simpl. lia.
  - by left.
Defined.

(** X10. In a run of the Task Spooler launcher the directory of every job
    [i] holds one file and nothing else, the input [<stripped>_<i:04d>.inp]
    with the record of the seed of the [i]-th draw of the run; no script is
    written. *)
Theorem ts_job_directories env (a : TS.args) w content :
  runnable (TS.input_file a) (TS.output_dir a) content w →
  0 ≤ TS.job_number a →
  ∃ R w',
    allocate_root (TS.input_file a) (TS.output_dir a) w = (Ok R, with_root R w) ∧
    TS.launch_jobs env a w = (Ok tt, w') ∧
    draws w' = (draws w + Z.to_nat (TS.job_number a))%nat ∧
    ∀ i, 1 ≤ i ≤ TS.job_number a →
      let job_dir := cwd w ++ [R; job_name i] in
      let new_input := new_input_of (TS.input_file a) i in
      fs w' !! (job_dir ++ [new_input])
      = Some (File (mutated content (seed_of env (draws w + Z.to_nat (i - 1))))) ∧
      (∀ c, c ≠ new_input → fs w' !! (job_dir ++ [c]) = None) ∧
      (∀ c c' rest, fs w' !! (job_dir ++ c :: c' :: rest) = None).
Proof.
  intros Hrun HN.
  destruct (ts_run_exact env a w content Hrun HN)
    as (R & w' & Halloc & _ & _ & Hlaunch & _ & Hdraws & _ & Hdone).
  exists R, w'. split_and!; [done..|].
  intros i Hi job_dir new_input. unfold job_dir. rewrite !job_path.
  split_and!.
  - rewrite (done_files _ _ _ _ _ Hdone) by done. unfold ts_files.
    by rewrite bool_decide_eq_true_2.
  - intros c Hc. rewrite job_path, (done_files _ _ _ _ _ Hdone) by done.
    unfold ts_files. by rewrite bool_decide_eq_false_2.
  - intros c c' rest. rewrite job_path. by eapply jobs_done_deep.
Qed.

Lemma ts_job_directories_witness :
  ∃ R w',
    allocate_root "run.inp" None Demo.home = (Ok R, with_root R Demo.home) ∧
    TS.launch_jobs Demo.env (Demo.ts_args 3 "None" false) Demo.home = (Ok tt, w') ∧
    draws w' = 3%nat ∧
    ∀ i, 1 ≤ i ≤ 3 →
      let job_dir := ["home"; "u"] ++ [R; job_name i] in
      let new_input := new_input_of "run.inp" i in
      fs w' !! (job_dir ++ [new_input])
      = Some (File (mutated Demo.template (seed_of Demo.env (0 + Z.to_nat (i - 1))))) ∧
      (∀ c, c ≠ new_input → fs w' !! (job_dir ++ [c]) = None) ∧
      (∀ c c' rest, fs w' !! (job_dir ++ c :: c' :: rest) = None).
Proof.
  apply (ts_job_directories Demo.env (Demo.ts_args 3 "None" false) Demo.home Demo.template).
  - demo_runnable.
  - simpl. lia.
Defined.

(** X11. A run of the Task Spooler launcher can be repeated: after a run
    the world is runnable again, a second run with the same arguments goes
    through under another root, and it leaves everything the first run made
    as it is. *)
Theorem ts_second_run env (a : TS.args) w content :
  runnable (TS.input_file a) (TS.output_dir a) content w →
  0 ≤ TS.job_number a →
  ∃ R1 w1 R2 w2,
    allocate_root (TS.input_file a) (TS.output_dir a) w = (Ok R1, with_root R1 w) ∧
    TS.launch_jobs env a w = (Ok tt, w1) ∧
    runnable (TS.input_file a) (TS.output_dir a) content w1 ∧
    allocate_root (TS.input_file a) (TS.output_dir a) w1 = (Ok R2, with_root R2 w1) ∧
    TS.launch_jobs env a w1 = (Ok tt, w2) ∧
    R1 ≠ R2 ∧
    ∀ p, is_Some (fs w1 !! p) → fs w2 !! p = fs w1 !! p.
Proof.
  intros Hrun HN. pose proof Hrun as (HP & Hclosed & Hcwd & Htemplate & Hbase).
  destruct (ts_run_exact env a w content Hrun HN)
    as (R1 & w1 & Halloc1 & HR1 & Hnone1 & Hlaunch1 & Hcwd1 & _ & _ & Hdone1).
  assert (cwd w ++ [R1] ≠ []) as Hroot1 by by destruct (cwd w).
  assert (runnable (TS.input_file a) (TS.output_dir a) content w1) as Hrun1.
  { split_and!; [done| | | |done].
    - by eapply jobs_done_closed.
    - rewrite Hcwd1. erewrite jobs_done_keeps; [done..|]. by rewrite Hcwd.
    - rewrite Hcwd1. erewrite jobs_done_keeps; [done..|]. by rewrite Htemplate. }
  destruct (ts_run_exact env a w1 content Hrun1 HN)
    as (R2 & w2 & Halloc2 & HR2 & Hnone2 & Hlaunch2 & _ & _ & _ & Hdone2).
  exists R1, w1, R2, w2. split_and!; [done..| |].
  - intros <-. rewrite Hcwd1, (done_root _ _ _ _ _ Hdone1) in Hnone2. done.
  - intros p Hp. eapply jobs_done_keeps; [by destruct Hrun1 as (_ & ? & _)|exact Hnone2|
                                           by destruct (cwd w1)|done..].
Qed.

Lemma ts_second_run_witness :
  ∃ R1 w1 R2 w2,
    allocate_root "run.inp" None Demo.home = (Ok R1, with_root R1 Demo.home) ∧
    TS.launch_jobs Demo.env (Demo.ts_args 2 "None" true) Demo.home = (Ok tt, w1) ∧
    runnable "run.inp" None Demo.template w1 ∧
    allocate_root "run.inp" None w1 = (Ok R2, with_root R2 w1) ∧
    TS.launch_jobs Demo.env (Demo.ts_args 2 "None" true) w1 = (Ok tt, w2) ∧
    R1 ≠ R2 ∧
    ∀ p, is_Some (fs w1 !! p) → fs w2 !! p = fs w1 !! p.
Proof.
  apply (ts_second_run Demo.env (Demo.ts_args 2 "None" true) Demo.home Demo.template).
  - demo_runnable.
  - simpl. lia.
Defined.

(** *** A dry run and the run proper *)

Lemma jobs_done_agree root m0 files k m1 m2 c rest :
  jobs_done root m0 files k m1 → jobs_done root m0 files k m2 →
  is_Some (m1 !! (root ++ c :: rest)) →
  m2 !! (root ++ c :: rest) = m1 !! (root ++ c :: rest).
Proof.
  intros H1 H2 Hsome.
  destruct (done_only _ _ _ _ _ H1 c rest Hsome) as [(i & Hi & ->) Hlen].
  destruct rest as [|f [|f' rest]]; [| |simpl in Hlen; lia].
  - by rewrite (done_dirs _ _ _ _ _ H1), (done_dirs _ _ _ _ _ H2).
  - by rewrite (done_files _ _ _ _ _ H1), (done_files _ _ _ _ _ H2).
Qed.

Lemma jobs_done_unique root m0 files k m1 m2 :
  jobs_done root m0 files k m1 → jobs_done root m0 files k m2 → m1 = m2.
Proof.
  intros H1 H2. apply map_eq. intros p.
  destruct (decide (root `prefix_of` p)) as [[l ->]|Hout].
  2:{ by rewrite (done_frame _ _ _ _ _ H1), (done_frame _ _ _ _ _ H2). }
  destruct l as [|c rest].
  { by rewrite app_nil_r, (done_root _ _ _ _ _ H1), (done_root _ _ _ _ _ H2). }
  destruct (m1 !! (root ++ c :: rest)) as [x|] eqn:Hx1.
  - rewrite (jobs_done_agree root m0 files k m1 m2) by (done || by rewrite Hx1). done.
  - destruct (m2 !! (root ++ c :: rest)) as [y|] eqn:Hx2; [|done].
    rewrite <-Hx1. symmetry.
    rewrite (jobs_done_agree root m0 files k m2 m1) by (done || by rewrite Hx2). done.
Qed.

(** X12. A dry run is a faithful rehearsal: when the scheduler accepts the
    jobs, the run proper of the HTCondor launcher and its dry run leave the
    same file system, the same working directory and the same state of
    the random generator; and so do the two runs of the Task Spooler
    launcher. (They differ in the trace, by the submissions.) *)
Theorem dry_run_leaves_the_same_files FLUKA_PATH env (a : HTCondor.args) w content :
  runnable (HTCondor.input_file a) (HTCondor.output_dir a) content w →
  0 ≤ HTCondor.job_number a →
  scheduler_accepts env (HTCondor.job_number a) →
  let dry := HTCondor.launch_jobs FLUKA_PATH env (with_dry_run true a) w in
  let wet := HTCondor.launch_jobs FLUKA_PATH env (with_dry_run false a) w in
  let ts_dry := TS.launch_jobs env (ts_of (with_dry_run true a)) w in
  let ts_wet := TS.launch_jobs env (ts_of (with_dry_run false a)) w in
  dry.1 = Ok tt ∧ wet.1 = Ok tt ∧
  fs dry.2 = fs wet.2 ∧ cwd dry.2 = cwd wet.2 ∧ draws dry.2 = draws wet.2 ∧
  ts_dry.1 = Ok tt ∧ ts_wet.1 = Ok tt ∧
  fs ts_dry.2 = fs ts_wet.2 ∧ cwd ts_dry.2 = cwd ts_wet.2 ∧ draws ts_dry.2 = draws ts_wet.2.
Proof.
  intros Hrun HN Hacc.
  destruct (htcondor_run_exact env FLUKA_PATH (with_dry_run true a) w content Hrun HN
              (or_introl eq_refl))
    as (R & w1 & Halloc1 & _ & _ & Hlaunch1 & Hcwd1 & Hdraws1 & _ & Hdone1).
  destruct (htcondor_run_exact env FLUKA_PATH (with_dry_run false a) w content Hrun HN
              (or_intror Hacc))
    as (R' & w2 & Halloc2 & _ & _ & Hlaunch2 & Hcwd2 & Hdraws2 & _ & Hdone2).
  simpl in Halloc1, Halloc2. rewrite Halloc1 in Halloc2. injection Halloc2 as <-.
  destruct (ts_run_exact env (ts_of (with_dry_run true a)) w content Hrun HN)
    as (S & w3 & Halloc3 & _ & _ & Hlaunch3 & Hcwd3 & Hdraws3 & _ & Hdone3).
  destruct (ts_run_exact env (ts_of (with_dry_run false a)) w content Hrun HN)
    as (S' & w4 & Halloc4 & _ & _ & Hlaunch4 & Hcwd4 & Hdraws4 & _ & Hdone4).
  simpl in Halloc3, Halloc4. rewrite Halloc3 in Halloc4. injection Halloc4 as <-.
  intros dry wet ts_dry ts_wet. unfold dry, wet, ts_dry, ts_wet.
  rewrite Hlaunch1, Hlaunch2, Hlaunch3, Hlaunch4. simpl.
  simpl in Hdraws1, Hdraws2, Hdraws3, Hdraws4.
  split_and!; [done|done| |congruence|congruence|done|done| |congruence|congruence].
  - by eapply jobs_done_unique.
  - by eapply jobs_done_unique.
Qed.

Lemma dry_run_leaves_the_same_files_witness :
  let a := Demo.htcondor_args "run.inp" 3 "None" false None in
  let dry := HTCondor.launch_jobs "/opt/fluka/bin" Demo.env (with_dry_run true a) Demo.home in
  let wet := HTCondor.launch_jobs "/opt/fluka/bin" Demo.env (with_dry_run false a) Demo.home in
  let ts_dry := TS.launch_jobs Demo.env (ts_of (with_dry_run true a)) Demo.home in
  let ts_wet := TS.launch_jobs Demo.env (ts_of (with_dry_run false a)) Demo.home in
  dry.1 = Ok tt ∧ wet.1 = Ok tt ∧
  fs dry.2 = fs wet.2 ∧ cwd dry.2 = cwd wet.2 ∧ draws dry.2 = draws wet.2 ∧
  ts_dry.1 = Ok tt ∧ ts_wet.1 = Ok tt ∧
  fs ts_dry.2 = fs ts_wet.2 ∧ cwd ts_dry.2 = cwd ts_wet.2 ∧ draws ts_dry.2 = draws ts_wet.2.
Proof.
  intros a.
  apply (dry_run_leaves_the_same_files "/opt/fluka/bin" Demo.env a Demo.home Demo.template).
  - demo_runnable.
  - simpl. lia.
  - split; [reflexivity|]. intros i Hi. reflexivity.
Defined.

(** *** The LSF launcher *)

(** X13. The LSF launcher never reaches its submission step: whatever the
    arguments and the state of the machine, a run adds to the trace nothing
    but copies of the template (no [bsub], no line in the log, no report),
    and it does not return normally unless there is no job to launch. *)
Theorem lsf_never_submits FLUKA_PATH env (a : LSF.args) w :
  let out := LSF.launch_jobs FLUKA_PATH env a w in
  (∃ evs, trace out.2 = trace w ++ evs ∧ Forall (λ ev, ∃ cmd, ev = System cmd) evs) ∧
  (is_ok out.1 = false ∨ LSF.job_number a ≤ 0).
Proof.
  unfold LSF.launch_jobs.
  destruct (allocate_root (LSF.input_file a) (LSF.output_dir a) w)
    as [[directory|e] w1] eqn:H1.
  2:{ erewrite bind_raise by exact H1. simpl. split; [|by left].
      exists []. rewrite app_nil_r. split; [|constructor].
      by eapply keeps_trace_eq; [apply keeps_trace_allocate_root|]. }
  erewrite bind_ok by exact H1.
  apply (keeps_trace_eq _ _ _ _ (keeps_trace_allocate_root _ _)) in H1.
  destruct (decide (LSF.job_number a ≤ 0)) as [HN|HN].
  - unfold range. rewrite seqZ_nil by lia. simpl. split; [|by right].
    exists []. by rewrite app_nil_r.
  - unfold range. rewrite seqZ_cons by lia. simpl.
    destruct (lsf_job_raises FLUKA_PATH env a (stripped_name_of (LSF.input_file a))
                directory 1 w1) as (e & w' & evs & Hjob & Htrace & Hevs).
    erewrite bind_raise by exact Hjob. simpl. split; [|by left].
    exists evs. split; [congruence|done].
Qed.

(** X14. In a runnable world with at least one job, the run of the LSF
    launcher ends in the first turn with [KeyError('queue')]: the template
    of the script names [$queue], which [generate_sh] does not pass. By then
    the root and the directory of job 1 exist, the input of job 1 has its
    seed record and its new name, no script has been written, and the
    process is left in the directory of job 1. *)
Theorem lsf_stops_in_generate_sh FLUKA_PATH env (a : LSF.args) w content :
  runnable (LSF.input_file a) (LSF.output_dir a) content w →
  1 ≤ LSF.job_number a →
  ∃ R w',
    allocate_root (LSF.input_file a) (LSF.output_dir a) w = (Ok R, with_root R w) ∧
    LSF.launch_jobs FLUKA_PATH env a w = (Raise (KeyError "queue"), w') ∧
    cwd w' = cwd w ++ [R; job_name 1] ∧
    trace w' = trace w ++ [System ("cp " +:+ LSF.input_file a +:+ " "
                                   +:+ OsPath.join R (job_name 1))] ∧
    fs w' !! (cwd w ++ [R; job_name 1; new_input_of (LSF.input_file a) 1])
    = Some (File (mutated content (seed_of env (draws w)))) ∧
    (∀ c, c ≠ new_input_of (LSF.input_file a) 1 →
          fs w' !! (cwd w ++ [R; job_name 1; c]) = None) ∧
    (∀ i rest, 1 < i → fs w' !! ((cwd w ++ [R; job_name i]) ++ rest) = None).
Proof.
  intros Hrun HN.
  destruct (allocate_root_runnable _ _ _ _ Hrun) as (R & HR & Hnone & Halloc).
  destruct Hrun as (HP & Hclosed & Hcwd & Htemplate & Hbase).
  pose proof (jobs_done_init (cwd w) (fs w) R (λ _ _, None) Hclosed Hnone) as Hinit.
  assert (ready (cwd w) R (LSF.input_file a) content (0 + 1) (with_root R w)) as Hready
    by by eapply jobs_done_ready.
  exists R. eexists. split; [done|]. split.
  { unfold LSF.launch_jobs. erewrite bind_ok by exact Halloc.
    unfold range. rewrite seqZ_cons by lia. simpl.
    apply bind_raise. by apply (lsf_job_exact (cwd w) R env (LSF.input_file a) content). }
  destruct Hready as (_ & _ & _ & Hfresh & _). cbn [cwd fs trace with_root with_fs].
  cbn [fs with_root with_fs] in Hfresh.
  split_and!.
  - by rewrite <-app_assoc.
  - done.
  - rewrite (root_path (cwd w) R). unfold with_job. by rewrite lookup_insert_eq.
  - intros c Hc. rewrite (root_path (cwd w) R). unfold with_job.
    rewrite lookup_insert_ne by (intros Heq%app_inv_head; congruence).
    rewrite lookup_insert_ne by path_neq. apply (Hfresh [_]).
  - intros i rest Hi. rewrite job_path. unfold with_job.
    assert (job_name i ≠ job_name 1) as Hne by (intros Heq%job_name_inj; lia).
    rewrite !lookup_insert_ne.
    + by apply (nothing_under_root (cwd w) (fs w) R).
    + path_neq.
    + intros Heq%app_inv_head. congruence.
    + intros Heq%app_inv_head. congruence.
Qed.

Lemma lsf_stops_in_generate_sh_witness :
  ∃ R w',
    allocate_root "run.inp" None Demo.home = (Ok R, with_root R Demo.home) ∧
    LSF.launch_jobs "/opt/fluka/bin" Demo.env (Sample.lsf_args 3 true) Demo.home
    = (Raise (KeyError "queue"), w') ∧
    cwd w' = ["home"; "u"] ++ [R; job_name 1] ∧
    trace w' = trace Demo.home ++ [System ("cp " +:+ "run.inp" +:+ " "
                                           +:+ OsPath.join R (job_name 1))] ∧
    fs w' !! (["home"; "u"] ++ [R; job_name 1; new_input_of "run.inp" 1])
    = Some (File (mutated Demo.template (seed_of Demo.env 0))) ∧
    (∀ c, c ≠ new_input_of "run.inp" 1 →
          fs w' !! (["home"; "u"] ++ [R; job_name 1; c]) = None) ∧
    (∀ i rest, 1 < i → fs w' !! ((["home"; "u"] ++ [R; job_name i]) ++ rest) = None).
Proof.
  apply (lsf_stops_in_generate_sh "/opt/fluka/bin" Demo.env (Sample.lsf_args 3 true)
           Demo.home Demo.template).
  - demo_runnable.
  - simpl. lia.
Defined.

(** *** Runs without jobs, and the empty override *)

(** X15. With a number of jobs of zero or below, the three launchers make
    the root and nothing else, and return: no job directory, no copy, no
    submission. (The HTCondor launcher still connects to the scheduler when
    the run is not a dry run, and fails when the connection does.) *)
Theorem no_jobs_only_the_root FLUKA_PATH env input_file N custom_exe dry_run output_dir
    queue mem ncpu disk time transfer_files output error log lsf_queue lsf_mem ntasks
    lsf_time w :
  allocatable input_file output_dir w →
  N ≤ 0 →
  ∃ R,
    allocate_root input_file output_dir w = (Ok R, with_root R w) ∧
    TS.launch_jobs env (TS.Args input_file N custom_exe dry_run output_dir) w
    = (Ok tt, with_root R w) ∧
    LSF.launch_jobs FLUKA_PATH env
      (LSF.Args input_file N custom_exe lsf_queue lsf_mem ntasks lsf_time dry_run output_dir) w
    = (Ok tt, with_root R w) ∧
    HTCondor.launch_jobs FLUKA_PATH env
      (HTCondor.Args input_file N custom_exe queue mem ncpu disk time dry_run output_dir
         transfer_files output error log) w
    = if dry_run then (Ok tt, with_root R w)
      else (schedd_connect env, with_event ScheddConnect (with_root R w)).
Proof.
  intros Halloc HN.
  destruct (allocate_root_allocatable _ _ _ Halloc) as (R & HR & Hnone & Hroot).
  exists R. split; [done|].
  unfold TS.launch_jobs, LSF.launch_jobs, HTCondor.launch_jobs. simpl.
  unfold range. rewrite seqZ_nil by lia. simpl.
  split_and!.
  - by erewrite bind_ok by exact Hroot.
  - by erewrite bind_ok by exact Hroot.
  - erewrite bind_ok by exact Hroot. destruct dry_run; [done|].
    unfold mbind, M_bind, emit, lift. simpl.
    by destruct (schedd_connect env) as [[]|e].
Qed.

Lemma no_jobs_only_the_root_witness :
  ∃ R,
    allocate_root "run.inp" None Demo.home_taken = (Ok R, with_root R Demo.home_taken) ∧
    TS.launch_jobs Demo.env (TS.Args "run.inp" 0 "None" false None) Demo.home_taken
    = (Ok tt, with_root R Demo.home_taken) ∧
    LSF.launch_jobs "/opt/fluka/bin" Demo.env
      (LSF.Args "run.inp" 0 "None" "normal" "1500" 1 "1-00:00:00" false None) Demo.home_taken
    = (Ok tt, with_root R Demo.home_taken) ∧
    HTCondor.launch_jobs "/opt/fluka/bin" Demo.env
      (HTCondor.Args "run.inp" 0 "None" "vanilla" "1500" 1 100000 86400 false None
         "yes" "job.out" "job.err" "job.log") Demo.home_taken
    = (schedd_connect Demo.env, with_event ScheddConnect (with_root R Demo.home_taken)).
Proof.
  apply (no_jobs_only_the_root "/opt/fluka/bin" Demo.env "run.inp" 0 "None" false None
           "vanilla" "1500" 1 100000 86400 "yes" "job.out" "job.err" "job.log"
           "normal" "1500" 1 "1-00:00:00" Demo.home_taken).
  - demo_allocatable.
  - lia.
Defined.

Lemma empty_override FLUKA_PATH env input_file N custom_exe dry_run
    queue mem ncpu disk time transfer_files output error log lsf_queue lsf_mem ntasks
    lsf_time w :
  TS.launch_jobs env (TS.Args input_file N custom_exe dry_run (Some "")) w
  = (Raise FileNotFoundError, w) ∧
  LSF.launch_jobs FLUKA_PATH env
    (LSF.Args input_file N custom_exe lsf_queue lsf_mem ntasks lsf_time dry_run (Some "")) w
  = (Raise FileNotFoundError, w) ∧
  HTCondor.launch_jobs FLUKA_PATH env
    (HTCondor.Args input_file N custom_exe queue mem ncpu disk time dry_run (Some "")
       transfer_files output error log) w
  = (Raise FileNotFoundError, w).
Proof. done. Qed.

(** *** The main scripts *)

Section mains.
Variables (t : terminal) (env : environment).
Implicit Types (w : world).

Lemma confirm_and_launch_world table launch w :
  (Script.confirm_and_launch t table launch w).2 = w
  ∨ ∃ answer, stdin_line t = Some answer ∧ Script.declined answer = false.
Proof.
  unfold Script.confirm_and_launch.
  destruct (stdin_line t) as [answer|]; [|by left].
  destruct (Script.declined answer) eqn:Hans; [by left|]. right. by exists answer.
Qed.

Lemma fluka_paths_found bin path :
  fluka_config t "--bin" = Output bin → fluka_config t "--path" = Output path →
  Script.fluka_paths t = ([], inr (Py.strip bin, Py.strip path)).
Proof. intros Hbin Hpath. unfold Script.fluka_paths. by rewrite Hbin, Hpath. Qed.

Lemma fluka_paths_inv shown FLUKA_PATH FLUKA_FOLDER :
  Script.fluka_paths t = (shown, inr (FLUKA_PATH, FLUKA_FOLDER)) →
  ∃ bin path, fluka_config t "--bin" = Output bin ∧ fluka_config t "--path" = Output path.
Proof.
  unfold Script.fluka_paths.
  destruct (fluka_config t "--bin") as [bin| |]; [|done..].
  destruct (fluka_config t "--path") as [path| |]; [|done..].
  intros _. by exists bin, path.
Qed.
End mains.

(** X16. No main script touches anything without consent: unless the
    input name ends in [.inp], both calls of [fluka-config] succeed, the time
    limit passes its test and the answer to the question is [yes] or [y], the
    script ends with the world as it found it: no directory, no copy, no
    submission. *)
Theorem mains_launch_on_consent_only t env (ah : HTCondor.args) (al : LSF.args)
    (ats : TS.args) w :
  ((HTCondorMain.main t env ah w).2 = w
   ∨ (consent t (HTCondor.input_file ah) ∧ HTCondor.time ah ≤ 345600)) ∧
  ((LSFMain.main t env al w).2 = w
   ∨ (consent t (LSF.input_file al) ∧ Script.str_gt (LSF.time al) "4-00:00:00" = false)) ∧
  ((TSMain.main t env ats w).2 = w ∨ consent t (TS.input_file ats)).
Proof.
  split_and!.
  - unfold HTCondorMain.main.
    destruct (Script.endswith _ _) eqn:Hend; [|by left]. simpl.
    destruct (Script.fluka_paths t) as [shown [stop|[FLUKA_PATH FLUKA_FOLDER]]] eqn:Hp;
      [by left|].
    case_bool_decide as Htime; [by left|].
    destruct (confirm_and_launch_world t
                (HTCondorMain.table (colors t) ah FLUKA_PATH FLUKA_FOLDER)
                (HTCondor.launch_jobs FLUKA_PATH env ah) w) as [?|Hans]; [by left|].
    right. split; [|unfold HTCondorMain.max_time in Htime; lia].
    split_and!; [done|by eapply fluka_paths_inv|done].
  - unfold LSFMain.main.
    destruct (Script.endswith _ _) eqn:Hend; [|by left]. simpl.
    destruct (Script.fluka_paths t) as [shown [stop|[FLUKA_PATH FLUKA_FOLDER]]] eqn:Hp;
      [by left|].
    destruct (Script.str_gt _ _) eqn:Htime; [by left|].
    destruct (confirm_and_launch_world t
                (LSFMain.table (colors t) al FLUKA_PATH FLUKA_FOLDER)
                (LSF.launch_jobs FLUKA_PATH env al) w) as [?|Hans]; [by left|].
    right. split; [|done].
    split_and!; [done|by eapply fluka_paths_inv|done].
  - unfold TSMain.main.
    destruct (Script.endswith _ _) eqn:Hend; [|by left]. simpl.
    destruct (Script.fluka_paths t) as [shown [stop|[FLUKA_PATH FLUKA_FOLDER]]] eqn:Hp;
      [by left|].
    destruct (confirm_and_launch_world t (TSMain.table (colors t) ats)
                (TS.launch_jobs env ats) w) as [?|Hans]; [by left|].
    right. split_and!; [done|by eapply fluka_paths_inv|done].
Qed.

Section answers.
Lemma lower_char_is (c x : ascii) :
  (97 ≤ nat_of_ascii x ≤ 122)%nat →
  Script.lower_char c = x ↔ c = x ∨ c = ascii_of_nat (nat_of_ascii x - 32).
Proof.
  intros Hx. unfold Script.lower_char.
  destruct (_ && _) eqn:Hup.
  - apply andb_true_iff in Hup as [H1%Nat.leb_le H2%Nat.leb_le]. split.
    + intros <-. right. rewrite nat_ascii_embedding by lia.
      replace (nat_of_ascii c + 32 - 32)%nat with (nat_of_ascii c) by lia.
      by rewrite ascii_nat_embedding.
    + intros [->| ->]; [lia|].
      rewrite nat_ascii_embedding by lia.
      replace (nat_of_ascii x - 32 + 32)%nat with (nat_of_ascii x) by lia.
      by rewrite ascii_nat_embedding.
  - split; [by left|]. intros [->| ->]; [done|].
    rewrite nat_ascii_embedding in Hup by lia.
    apply andb_false_iff in Hup as [H%Nat.leb_gt|H%Nat.leb_gt]; lia.
Qed.
End answers.

(** X17. The answers that let a main script go on are [y] and [yes] in
    any case of the letters, and nothing else: an answer with a blank before
    or after it, a longer word or the empty line ends the script. *)
Theorem accepted_answers answer :
  Script.declined answer = false ↔
  answer ∈ ["y"; "Y"; "yes"; "yeS"; "yEs"; "yES"; "Yes"; "YeS"; "YEs"; "YES"].
Proof.
  unfold Script.declined. rewrite negb_false_iff, bool_decide_eq_true.
  rewrite !elem_of_cons, !elem_of_nil.
  pose proof (lower_char_is) as Hc.
  split.
  - intros [Hyes|[Hy|[]]].
    + destruct answer as [|c1 [|c2 [|c3 [|]]]]; try done. simpl in Hyes.
      injection Hyes as H1 H2 H3.
      apply (Hc c1 "y"%char) in H1; [|vm_compute; lia].
      apply (Hc c2 "e"%char) in H2; [|vm_compute; lia].
      apply (Hc c3 "s"%char) in H3; [|vm_compute; lia].
      simpl in H1, H2, H3.
      destruct H1 as [->| ->], H2 as [->| ->], H3 as [->| ->]; tauto.
    + destruct answer as [|c1 [|]]; try done. simpl in Hy.
      injection Hy as H1. apply (Hc c1 "y"%char) in H1; [|vm_compute; lia].
      simpl in H1. destruct H1 as [->| ->]; tauto.
  - intros H. repeat (destruct H as [->|H]; [vm_compute; tauto|]). done.
Qed.

(** X18. The LSF script compares the time limit with [4-00:00:00] as
    text, not as a duration: a limit whose first character comes before [4]
    passes whatever follows (ten days, [10-00:00:00], pass), and a limit whose
    first character comes after [4] ends the script with an error and the
    exit status 1. *)
Theorem lsf_time_limit_is_textual t env (a : LSF.args) w c rest bin path :
  Script.endswith (LSF.input_file a) ".inp" = true →
  fluka_config t "--bin" = Output bin →
  fluka_config t "--path" = Output path →
  LSF.time a = String c rest →
  ((nat_of_ascii c < nat_of_ascii "4")%nat →
   LSFMain.main t env a w
   = Script.confirm_and_launch t
       (LSFMain.table (colors t) a (Py.strip bin) (Py.strip path))
       (LSF.launch_jobs (Py.strip bin) env a) w) ∧
  ((nat_of_ascii "4" < nat_of_ascii c)%nat →
   LSFMain.main t env a w
   = (SystemExit (Some 1), [LoggingError "Time limit cannot exceed 4-00:00:00"], w)).
Proof.
  intros Hend Hbin Hpath Htime. unfold LSFMain.main.
  rewrite Hend, (fluka_paths_found t bin path Hbin Hpath), Htime. simpl negb. cbv iota.
  unfold LSFMain.max_time. cbn [Script.str_gt].
  change (nat_of_ascii "4") with 52%nat.
  split; intros Hc.
  - destruct (Nat.ltb_spec 52 (nat_of_ascii c)); [lia|].
    destruct (Nat.ltb_spec (nat_of_ascii c) 52); [done|lia].
  - by destruct (Nat.ltb_spec 52 (nat_of_ascii c)); [|lia].
Qed.

Lemma lsf_time_limit_is_textual_witness :
  let a := LSF.Args "run.inp" 2 "None" "normal" "1500" 1 "10-00:00:00" true None in
  ((nat_of_ascii "1" < nat_of_ascii "4")%nat →
   LSFMain.main Sample.terminal_yes Demo.env a Demo.home
   = Script.confirm_and_launch Sample.terminal_yes
       (LSFMain.table Sample.palette a (Py.strip "/opt/fluka/bin
") (Py.strip "/opt/fluka
"))
       (LSF.launch_jobs (Py.strip "/opt/fluka/bin
") Demo.env a) Demo.home) ∧
  ((nat_of_ascii "4" < nat_of_ascii "1")%nat →
   LSFMain.main Sample.terminal_yes Demo.env a Demo.home
   = (SystemExit (Some 1), [LoggingError "Time limit cannot exceed 4-00:00:00"],
      Demo.home)).
Proof.
  intros a.
  apply (lsf_time_limit_is_textual Sample.terminal_yes Demo.env a Demo.home "1"
           "0-00:00:00" "/opt/fluka/bin
" "/opt/fluka
"); reflexivity.
Defined.

Lemma confirm_and_launch_same t1 t2 tb1 tb2 launch w :
  stdin_line t1 = stdin_line t2 →
  (Script.confirm_and_launch t1 tb1 launch w).1.1
  = (Script.confirm_and_launch t2 tb2 launch w).1.1 ∧
  (Script.confirm_and_launch t1 tb1 launch w).2
  = (Script.confirm_and_launch t2 tb2 launch w).2.
Proof.
  intros Hin. unfold Script.confirm_and_launch. rewrite Hin.
  destruct (stdin_line t2) as [answer|]; [|done].
  destruct (Script.declined answer); [done|]. by destruct (launch w) as [[]].
Qed.

(** X19. The Task Spooler script asks [fluka-config] for the two paths of
    FLUKA and uses neither: as long as both calls succeed, it does the same
    whatever they answer, down to what it shows on the console (its jobs run
    [rfluka] as the shell finds it). *)
Theorem ts_main_ignores_the_fluka_paths t1 t2 env (a : TS.args) w bin1 path1 bin2 path2 :
  colors t1 = colors t2 →
  stdin_line t1 = stdin_line t2 →
  fluka_config t1 "--bin" = Output bin1 → fluka_config t1 "--path" = Output path1 →
  fluka_config t2 "--bin" = Output bin2 → fluka_config t2 "--path" = Output path2 →
  TSMain.main t1 env a w = TSMain.main t2 env a w.
Proof.
  intros Hcol Hin Hb1 Hp1 Hb2 Hp2. unfold TSMain.main.
  rewrite (fluka_paths_found t1 bin1 path1), (fluka_paths_found t2 bin2 path2) by done.
  destruct (negb _); [done|].
  unfold Script.confirm_and_launch. by rewrite Hcol, Hin.
Qed.

Lemma ts_main_ignores_the_fluka_paths_witness :
  TSMain.main Sample.terminal_yes Demo.env (Demo.ts_args 2 "None" true) Demo.home
  = TSMain.main Sample.terminal_elsewhere Demo.env (Demo.ts_args 2 "None" true) Demo.home.
Proof.
  apply (ts_main_ignores_the_fluka_paths Sample.terminal_yes Sample.terminal_elsewhere
           Demo.env (Demo.ts_args 2 "None" true) Demo.home
           "/opt/fluka/bin
" "/opt/fluka
" "/usr/local/fluka/bin
" "/usr/local/fluka
"); reflexivity.
Defined.

(** X20. In the HTCondor and the LSF script the folder of FLUKA
    ([fluka-config --path]) is shown in the table and used nowhere else: the
    way the script ends and the world it leaves are the same for two answers,
    as long as the binary directory ([--bin]) is the same once stripped. *)
Theorem fluka_folder_is_for_show t1 t2 env (ah : HTCondor.args) (al : LSF.args) w
    bin1 path1 bin2 path2 :
  stdin_line t1 = stdin_line t2 →
  fluka_config t1 "--bin" = Output bin1 → fluka_config t1 "--path" = Output path1 →
  fluka_config t2 "--bin" = Output bin2 → fluka_config t2 "--path" = Output path2 →
  Py.strip bin1 = Py.strip bin2 →
  (HTCondorMain.main t1 env ah w).1.1 = (HTCondorMain.main t2 env ah w).1.1 ∧
  (HTCondorMain.main t1 env ah w).2 = (HTCondorMain.main t2 env ah w).2 ∧
  (LSFMain.main t1 env al w).1.1 = (LSFMain.main t2 env al w).1.1 ∧
  (LSFMain.main t1 env al w).2 = (LSFMain.main t2 env al w).2.
Proof.
  intros Hin Hb1 Hp1 Hb2 Hp2 Hbin. unfold HTCondorMain.main, LSFMain.main.
  rewrite (fluka_paths_found t1 bin1 path1), (fluka_paths_found t2 bin2 path2) by done.
  rewrite Hbin. split_and!.
  - destruct (negb _); [done|]. case_bool_decide; [done|].
    by apply confirm_and_launch_same.
  - destruct (negb _); [done|]. case_bool_decide; [done|].
    by apply confirm_and_launch_same.
  - destruct (negb _); [done|]. destruct (Script.str_gt _ _); [done|].
    by apply confirm_and_launch_same.
  - destruct (negb _); [done|]. destruct (Script.str_gt _ _); [done|].
    by apply confirm_and_launch_same.
Qed.

Lemma fluka_folder_is_for_show_witness :
  let ah := Demo.htcondor_args "run.inp" 2 "None" true None in
  let al := Sample.lsf_args 2 true in
  (HTCondorMain.main Sample.terminal_yes Demo.env ah Demo.home).1.1
  = (HTCondorMain.main Sample.terminal_moved Demo.env ah Demo.home).1.1 ∧
  (HTCondorMain.main Sample.terminal_yes Demo.env ah Demo.home).2
  = (HTCondorMain.main Sample.terminal_moved Demo.env ah Demo.home).2 ∧
  (LSFMain.main Sample.terminal_yes Demo.env al Demo.home).1.1
  = (LSFMain.main Sample.terminal_moved Demo.env al Demo.home).1.1 ∧
  (LSFMain.main Sample.terminal_yes Demo.env al Demo.home).2
  = (LSFMain.main Sample.terminal_moved Demo.env al Demo.home).2.
Proof.
  intros ah al.
  apply (fluka_folder_is_for_show Sample.terminal_yes Sample.terminal_moved Demo.env ah al
           Demo.home "/opt/fluka/bin
" "/opt/fluka
" "  /opt/fluka/bin" "/srv/fluka
"); reflexivity.
Defined.

(** X21. A machine without [fluka-config] is not told so: the scripts
    catch the failure of the command ([CalledProcessError]: the error is
    logged, the exit status is 1), not its absence, which ends each of them
    with the exception of the system, before anything is shown. *)
Theorem missing_fluka_config_is_not_caught t env (ah : HTCondor.args) (al : LSF.args)
    (ats : TS.args) w e :
  Script.endswith (HTCondor.input_file ah) ".inp" = true →
  Script.endswith (LSF.input_file al) ".inp" = true →
  Script.endswith (TS.input_file ats) ".inp" = true →
  fluka_config t "--bin" = OSError e →
  HTCondorMain.main t env ah w = (Uncaught e, [], w) ∧
  LSFMain.main t env al w = (Uncaught e, [], w) ∧
  TSMain.main t env ats w = (Uncaught e, [], w).
Proof.
  intros Hh Hl Hts Hbin. unfold HTCondorMain.main, LSFMain.main, TSMain.main.
  rewrite Hh, Hl, Hts. unfold Script.fluka_paths. by rewrite Hbin.
Qed.

Lemma missing_fluka_config_is_not_caught_witness :
  HTCondorMain.main Sample.terminal_bare Demo.env
    (Demo.htcondor_args "run.inp" 2 "None" false None) Demo.home
  = (Uncaught FileNotFoundError, [], Demo.home) ∧
  LSFMain.main Sample.terminal_bare Demo.env (Sample.lsf_args 2 false) Demo.home
  = (Uncaught FileNotFoundError, [], Demo.home) ∧
  TSMain.main Sample.terminal_bare Demo.env (Demo.ts_args 2 "None" false) Demo.home
  = (Uncaught FileNotFoundError, [], Demo.home).
Proof.
  apply (missing_fluka_config_is_not_caught Sample.terminal_bare Demo.env
           (Demo.htcondor_args "run.inp" 2 "None" false None) (Sample.lsf_args 2 false)
           (Demo.ts_args 2 "None" false) Demo.home FileNotFoundError); reflexivity.
Defined.

(** X22. An empty output directory ([-d] with an empty value) is shown as
    [Default] in the table and yet not taken for the default: once the user
    has agreed, each of the three scripts ends with an uncaught
    [FileNotFoundError], raised where the root is created, and leaves the
    world as it found it. *)
Theorem empty_override_is_not_the_default t env input_file N custom_exe dry_run
    queue mem ncpu disk time transfer_files output error log lsf_queue lsf_mem ntasks
    lsf_time w :
  let ah := HTCondor.Args input_file N custom_exe queue mem ncpu disk time dry_run (Some "")
              transfer_files output error log in
  let al := LSF.Args input_file N custom_exe lsf_queue lsf_mem ntasks lsf_time dry_run
              (Some "") in
  let ats := TS.Args input_file N custom_exe dry_run (Some "") in
  consent t input_file →
  time ≤ 345600 →
  Script.str_gt lsf_time "4-00:00:00" = false →
  ∃ FLUKA_PATH FLUKA_FOLDER,
    let shown_as_default :=
      ["-d"; Script.cell (colors t) (Color.B (colors t)) "Output Directory";
       Script.cell (colors t) (Color.B (colors t)) "Default"] in
    HTCondorMain.main t env ah w
    = (Uncaught FileNotFoundError,
       [PrintTabulate (HTCondorMain.table (colors t) ah FLUKA_PATH FLUKA_FOLDER);
        InputPrompt Script.PROMPT], w) ∧
    shown_as_default ∈ HTCondorMain.table (colors t) ah FLUKA_PATH FLUKA_FOLDER ∧
    LSFMain.main t env al w
    = (Uncaught FileNotFoundError,
       [PrintTabulate (LSFMain.table (colors t) al FLUKA_PATH FLUKA_FOLDER);
        InputPrompt Script.PROMPT], w) ∧
    shown_as_default ∈ LSFMain.table (colors t) al FLUKA_PATH FLUKA_FOLDER ∧
    TSMain.main t env ats w
    = (Uncaught FileNotFoundError,
       [PrintTabulate (TSMain.table (colors t) ats); InputPrompt Script.PROMPT], w) ∧
    shown_as_default ∈ TSMain.table (colors t) ats.
Proof.
  intros ah al ats (Hend & (bin & path & Hbin & Hpath) & (answer & Hin & Hyes)) Htime Hlsf.
  exists (Py.strip bin), (Py.strip path). intros shown_as_default.
  destruct (empty_override (Py.strip bin) env input_file N custom_exe dry_run
              queue mem ncpu disk time transfer_files output error log lsf_queue lsf_mem
              ntasks lsf_time w) as (Hts & Hl & Hh).
  fold ah in Hh. fold al in Hl. fold ats in Hts.
  unfold HTCondorMain.main, LSFMain.main, TSMain.main.
  rewrite (fluka_paths_found t bin path Hbin Hpath).
  change (HTCondor.input_file ah) with input_file.
  change (LSF.input_file al) with input_file.
  change (TS.input_file ats) with input_file.
  rewrite Hend. simpl negb. cbv iota.
  change (HTCondor.time ah) with time. change (LSF.time al) with lsf_time.
  rewrite bool_decide_eq_false_2 by (unfold HTCondorMain.max_time; lia).
  unfold LSFMain.max_time. rewrite Hlsf.
  unfold Script.confirm_and_launch. rewrite Hin, Hyes, Hh, Hl, Hts.
  split_and!; try reflexivity.
  - unfold shown_as_default, HTCondorMain.table. rewrite !elem_of_cons.
    do 11 right. by left.
  - unfold shown_as_default, LSFMain.table. rewrite !elem_of_cons.
    do 10 right. by left.
  - unfold shown_as_default, TSMain.table. rewrite !elem_of_cons.
    do 4 right. by left.
Qed.

Lemma empty_override_is_not_the_default_witness :
  let ah := HTCondor.Args "run.inp" 2 "None" "vanilla" "1500" 1 100000 86400 false (Some "")
              "yes" "job.out" "job.err" "job.log" in
  let al := LSF.Args "run.inp" 2 "None" "normal" "1500" 1 "1-00:00:00" false (Some "") in
  let ats := TS.Args "run.inp" 2 "None" false (Some "") in
  let t := Sample.terminal_yes in
  ∃ FLUKA_PATH FLUKA_FOLDER,
    let shown_as_default :=
      ["-d"; Script.cell (colors t) (Color.B (colors t)) "Output Directory";
       Script.cell (colors t) (Color.B (colors t)) "Default"] in
    HTCondorMain.main t Demo.env ah Demo.home
    = (Uncaught FileNotFoundError,
       [PrintTabulate (HTCondorMain.table (colors t) ah FLUKA_PATH FLUKA_FOLDER);
        InputPrompt Script.PROMPT], Demo.home) ∧
    shown_as_default ∈ HTCondorMain.table (colors t) ah FLUKA_PATH FLUKA_FOLDER ∧
    LSFMain.main t Demo.env al Demo.home
    = (Uncaught FileNotFoundError,
       [PrintTabulate (LSFMain.table (colors t) al FLUKA_PATH FLUKA_FOLDER);
        InputPrompt Script.PROMPT], Demo.home) ∧
    shown_as_default ∈ LSFMain.table (colors t) al FLUKA_PATH FLUKA_FOLDER ∧
    TSMain.main t Demo.env ats Demo.home
    = (Uncaught FileNotFoundError,
       [PrintTabulate (TSMain.table (colors t) ats); InputPrompt Script.PROMPT],
       Demo.home) ∧
    shown_as_default ∈ TSMain.table (colors t) ats.
Proof.
  apply (empty_override_is_not_the_default Sample.terminal_yes Demo.env "run.inp" 2 "None"
           false "vanilla" "1500" 1 100000 86400 "yes" "job.out" "job.err" "job.log"
           "normal" "1500" 1 "1-00:00:00" Demo.home).
  - split_and!; [reflexivity|by eexists _, _|by eexists].
  - lia.
  - reflexivity.
Defined.

Section names.
Lemma str_take_drop n s : Py.str_take n s +:+ Py.str_drop n s = s.
Proof.
  revert s. induction n as [|n IH]; intros s; [by destruct s|].
  destruct s as [|c s]; [done|]. simpl. by rewrite app_cons, IH.
Qed.

Lemma endswith_inv s suffix :
  Script.endswith s suffix = true → ∃ pre, s = pre +:+ suffix.
Proof.
  unfold Script.endswith. intros Heq%bool_decide_eq_true.
  exists (Py.str_take (String.length s - String.length suffix) s).
  etransitivity; [symmetry; apply (str_take_drop (String.length s - String.length suffix))|].
  by rewrite Heq.
Qed.

Lemma rsplit1_free_none sep s : free_of sep s = true → Py.rsplit1 sep s = None.
Proof.
  induction s as [|c s IH]; [done|]. rewrite free_of_cons.
  intros [Hc Hs]%andb_true_iff. simpl. rewrite IH by done.
  apply negb_true_iff in Hc. by rewrite Hc.
Qed.

Lemma rsplit1_app_free sep s t :
  free_of sep t = true →
  Py.rsplit1 sep (s +:+ t)
  = match Py.rsplit1 sep s with Some (a, b) => Some (a, b +:+ t) | None => None end.
Proof.
  intros Ht. induction s as [|c s IH].
  - rewrite app_empty_l. by apply rsplit1_free_none.
  - rewrite app_cons. simpl. rewrite IH.
    destruct (Py.rsplit1 sep s) as [[a b]|]; [done|].
    by case_bool_decide.
Qed.

Lemma rsplit1_last sep s t :
  free_of sep t = true → Py.rsplit1 sep (s +:+ String sep t) = Some (s, t).
Proof.
  intros Ht. induction s as [|c s IH].
  - rewrite app_empty_l. simpl. rewrite rsplit1_free_none by done.
    by rewrite bool_decide_eq_true_2.
  - rewrite app_cons. simpl. by rewrite IH.
Qed.

Lemma basename_app_free p t :
  free_of "/" t = true → OsPath.basename (p +:+ t) = OsPath.basename p +:+ t.
Proof.
  intros Ht. unfold OsPath.basename. rewrite rsplit1_app_free by done.
  by destruct (Py.rsplit1 "/" p) as [[a b]|].
Qed.
End names.

(** X23. The test of the main scripts on the input name and the name the
    launcher works with: an input name that ends in [.inp] has a base name
    [<stem>.inp], and the launcher strips the extension, so that the file it
    mutates in a job directory, [<stripped>.inp], is the copy of the
    template, unless the stem is empty or made of dots (as in [.inp]): then
    nothing is stripped, and the launcher looks for [<stem>.inp.inp]. *)
Theorem input_name_after_the_test input_file :
  Script.endswith input_file ".inp" = true →
  ∃ stem,
    OsPath.basename input_file = stem +:+ ".inp" ∧
    free_of "/" stem = true ∧
    stripped_name_of input_file
    = (if Py.all_chars is_dot stem then stem +:+ ".inp" else stem) ∧
    (Py.all_chars is_dot stem = false →
     OsPath.basename input_file = stripped_name_of input_file +:+ ".inp").
Proof.
  intros [pre ->]%endswith_inv. exists (OsPath.basename pre).
  rewrite basename_app_free by done.
  assert (free_of "/" (OsPath.basename pre) = true) as Hfree by apply basename_free.
  assert (stripped_name_of (pre +:+ ".inp")
          = if Py.all_chars is_dot (OsPath.basename pre)
            then OsPath.basename pre +:+ ".inp" else OsPath.basename pre) as Hstripped.
  { unfold stripped_name_of. rewrite basename_app_free by done.
    unfold OsPath.splitext.
    rewrite rsplit1_free_none by (by rewrite free_of_app, Hfree).
    unfold OsPath.splitext_name.
    change ".inp" with (String "." "inp"). rewrite rsplit1_last by done.
    fold is_dot. by destruct (Py.all_chars _ _). }
  split_and!; [done..|].
  intros Hdots. by rewrite Hstripped, Hdots.
Qed.

Lemma input_name_after_the_test_witness :
  ∃ stem,
    OsPath.basename "data/run.v2.inp" = stem +:+ ".inp" ∧
    free_of "/" stem = true ∧
    stripped_name_of "data/run.v2.inp"
    = (if Py.all_chars is_dot stem then stem +:+ ".inp" else stem) ∧
    (Py.all_chars is_dot stem = false →
     OsPath.basename "data/run.v2.inp" = stripped_name_of "data/run.v2.inp" +:+ ".inp").
Proof. apply (input_name_after_the_test "data/run.v2.inp"). reflexivity. Defined.

(** *** A template whose name starts with its extension *)

Section hidden.
Variables (cwd0 : list string) (R : string).
Variables (env : environment) (input_file content stem : string).
Local Abbreviation root := (cwd0 ++ [R]).
Local Abbreviation stripped := (stripped_name_of input_file).
Hypothesis HR : is_name R = true.
Hypothesis Hstem : OsPath.basename input_file = stem +:+ ".inp".
Hypothesis Hdots : Py.all_chars is_dot stem = true.

Lemma hidden_stripped : stripped = stem +:+ ".inp".
Proof.
  unfold stripped_name_of. rewrite Hstem. unfold OsPath.splitext.
  assert (free_of "/" (stem +:+ ".inp") = true) as Hfree
    by (rewrite <-Hstem; apply basename_free).
  rewrite rsplit1_free_none by done.
  unfold OsPath.splitext_name.
  change ".inp" with (String "." "inp"). rewrite rsplit1_last by done.
  fold is_dot. by rewrite Hdots.
Qed.

(** The turn of job [i] up to the seed mutation, which finds no file. *)
Lemma prologue_hidden {B} i w (f : string → M B) :
  ready cwd0 R input_file content i w →
  let job_dir := OsPath.join R (job_name i) in
  (Os.makedirs job_dir ≫= λ _,
   Os.system_cp input_file job_dir ≫= λ _,
   Os.chdir job_dir ≫= λ _,
   generate_input env stripped i ≫= f) w
  = (Raise FileNotFoundError,
     World (root ++ [job_name i])
       (<[root ++ [job_name i; stem +:+ ".inp"] := File content]>
          (<[root ++ [job_name i] := Dir]> (fs w)))
       (trace w ++ [System ("cp " +:+ input_file +:+ " " +:+ job_dir)])
       (S (draws w))).
Proof.
  intros (Hcwdw & _ & Hup & Hfresh & Htemplate) job_dir.
  pose proof (job_name_is_name i) as Hjn.
  assert (free_of "/" (stem +:+ ".inp") = true) as Hfree
    by (rewrite <-Hstem; apply basename_free).
  assert (is_name (stem +:+ ".inp") = true) as Htn.
  { apply dotless_is_name; [done|]. by rewrite all_chars_app, andb_false_r. }
  assert (is_name (stripped +:+ ".inp") = true) as Hsn.
  { rewrite hidden_stripped. apply dotless_is_name.
    - by rewrite free_of_app, Hfree.
    - by rewrite all_chars_app, andb_false_r. }
  assert (input_file ≠ "") as Hine.
  { intros Heq. rewrite Heq in Hstem. by destruct stem. }
  assert (OsPath.resolve (cwd w) job_dir = root ++ [job_name i]) as Hjd.
  { unfold job_dir. rewrite Hcwdw, resolve_join by done. by rewrite <-app_assoc. }
  assert (job_dir ≠ "") as Hjdne by by apply join_names_nonempty.
  erewrite bind_ok; last first.
  { eapply makedirs_child; [done|exact Hjd|done|]. apply (Hfresh []). }
  set (w1 := with_fs _ w).
  erewrite (bind_ok (Os.system_cp _ _) _ w1 tt
    (with_fs (<[root ++ [job_name i; stem +:+ ".inp"] := File content]> (fs w1))
       (with_event (System ("cp " +:+ input_file +:+ " " +:+ job_dir)) w1)));
    last first.
  { unfold Os.system_cp.
    rewrite !lookup_path_resolve by done.
    change (cwd w1) with (cwd w). rewrite Hjd, Hcwdw.
    unfold w1. cbn [fs with_fs].
    rewrite lookup_insert_ne, Htemplate; last first.
    { intros Heq. rewrite <-Heq in Htemplate. by rewrite (Hfresh []) in Htemplate. }
    rewrite lookup_insert_eq, Hstem, <-app_assoc. simpl.
    rewrite lookup_insert_ne by path_neq. by rewrite (Hfresh [_]). }
  set (w2 := with_fs _ _).
  erewrite (bind_ok (Os.chdir _) _ w2 tt (with_cwd (root ++ [job_name i]) w2));
    last first.
  { unfold Os.chdir. rewrite lookup_path_resolve by done.
    change (cwd w2) with (cwd w). rewrite Hjd.
    unfold w2, w1. cbn [fs with_fs with_event].
    rewrite lookup_insert_ne by path_neq. by rewrite lookup_insert_eq. }
  set (w2' := with_cwd _ w2).
  assert (fs w2' !! OsPath.resolve (cwd w2') (stripped +:+ ".inp") = None) as Hgone.
  { unfold w2', w2, w1. simpl. rewrite resolve_name by done.
    rewrite <-app_assoc. simpl. rewrite hidden_stripped.
    rewrite lookup_insert_ne; last first.
    { intros Heq%app_inv_head. injection Heq as Heq.
      apply (f_equal String.length) in Heq. rewrite !length_app_str in Heq.
      simpl in Heq. lia. }
    rewrite lookup_insert_ne by path_neq. apply (Hfresh [_]). }
  apply bind_raise. rewrite generate_input_unreadable.
  - by rewrite Hgone.
  - intros content'. by rewrite Hgone.
Qed.
End hidden.

(** X24. The test on the input name lets a template through that the
    launchers cannot work with: when the base name of the input is its
    extension alone, or dots before it ([.inp], [..inp]), the root and the
    directory of job 1 are made and the template is copied, and then the
    seed mutation looks for [<base name>.inp] and raises
    [FileNotFoundError]. No job is submitted, in none of the three
    launchers, and the process is left in the directory of job 1. *)
Theorem extension_only_template_fails FLUKA_PATH env input_file N custom_exe dry_run
    output_dir queue mem ncpu disk time transfer_files output error log lsf_queue lsf_mem
    ntasks lsf_time content stem w :
  let ah := HTCondor.Args input_file N custom_exe queue mem ncpu disk time dry_run output_dir
              transfer_files output error log in
  let al := LSF.Args input_file N custom_exe lsf_queue lsf_mem ntasks lsf_time dry_run
              output_dir in
  let ats := TS.Args input_file N custom_exe dry_run output_dir in
  1 ≤ N →
  dry_run = true ∨ schedd_connect env = Ok tt →
  allocatable input_file output_dir w →
  fs w !! OsPath.resolve (cwd w) input_file = Some (File content) →
  OsPath.basename input_file = stem +:+ ".inp" →
  Py.all_chars is_dot stem = true →
  ∃ R,
    allocate_root input_file output_dir w = (Ok R, with_root R w) ∧
    let stopped connection :=
      World (cwd w ++ [R; job_name 1])
        (<[cwd w ++ [R; job_name 1; stem +:+ ".inp"] := File content]>
           (<[cwd w ++ [R; job_name 1] := Dir]> (<[cwd w ++ [R] := Dir]> (fs w))))
        (trace w ++ connection
           ++ [System ("cp " +:+ input_file +:+ " " +:+ OsPath.join R (job_name 1))])
        (S (draws w)) in
    TS.launch_jobs env ats w = (Raise FileNotFoundError, stopped []) ∧
    LSF.launch_jobs FLUKA_PATH env al w = (Raise FileNotFoundError, stopped []) ∧
    HTCondor.launch_jobs FLUKA_PATH env ah w
    = (Raise FileNotFoundError, stopped (if dry_run then [] else [ScheddConnect])).
Proof.
  intros ah al ats HN Hconn Hal Htemplate Hstem Hdots.
  destruct (allocate_root_allocatable _ _ _ Hal) as (R & HR & Hnone & Halloc).
  destruct Hal as (HP & Hclosed & Hcwd).
  pose proof (jobs_done_init (cwd w) (fs w) R (λ _ _, None) Hclosed Hnone) as Hinit.
  assert (ready (cwd w) R input_file content (0 + 1) (with_root R w)) as Hready
    by by eapply jobs_done_ready.
  assert (∀ connection,
            World ((cwd w ++ [R]) ++ [job_name 1])
              (<[(cwd w ++ [R]) ++ [job_name 1; stem +:+ ".inp"] := File content]>
                 (<[(cwd w ++ [R]) ++ [job_name 1] := Dir]> (<[cwd w ++ [R] := Dir]> (fs w))))
              ((trace w ++ connection)
                 ++ [System ("cp " +:+ input_file +:+ " " +:+ OsPath.join R (job_name 1))])
              (S (draws w))
            = World (cwd w ++ [R; job_name 1])
                (<[cwd w ++ [R; job_name 1; stem +:+ ".inp"] := File content]>
                   (<[cwd w ++ [R; job_name 1] := Dir]> (<[cwd w ++ [R] := Dir]> (fs w))))
                (trace w ++ connection
                   ++ [System ("cp " +:+ input_file +:+ " " +:+ OsPath.join R (job_name 1))])
                (S (draws w))) as Hshape.
  { intros connection. by rewrite <-!app_assoc. }
  exists R. split; [done|]. intros stopped. split_and!.
  - unfold TS.launch_jobs. change (TS.input_file ats) with input_file.
    change (TS.output_dir ats) with output_dir. erewrite bind_ok by exact Halloc.
    unfold range. rewrite seqZ_cons by (simpl; lia). simpl for_each.
    apply bind_raise. unfold TS.job. change (TS.input_file ats) with input_file.
    rewrite (prologue_hidden (cwd w) R env input_file content stem HR Hstem Hdots
               1 _ _ Hready).
    unfold stopped. rewrite <-(Hshape []). by rewrite app_nil_r.
  - unfold LSF.launch_jobs. change (LSF.input_file al) with input_file.
    change (LSF.output_dir al) with output_dir. erewrite bind_ok by exact Halloc.
    unfold range. rewrite seqZ_cons by (simpl; lia). simpl for_each.
    apply bind_raise. unfold LSF.job. change (LSF.input_file al) with input_file.
    rewrite (prologue_hidden (cwd w) R env input_file content stem HR Hstem Hdots
               1 _ _ Hready).
    unfold stopped. rewrite <-(Hshape []). by rewrite app_nil_r.
  - unfold HTCondor.launch_jobs. change (HTCondor.input_file ah) with input_file.
    change (HTCondor.output_dir ah) with output_dir. erewrite bind_ok by exact Halloc.
    change (HTCondor.dry_run ah) with dry_run.
    set (w0 := World (cwd w) (<[cwd w ++ [R] := Dir]> (fs w))
                 (trace w ++ if dry_run then [] else [ScheddConnect]) (draws w)).
    erewrite (bind_ok _ _ _ tt w0); last first.
    { unfold w0. destruct dry_run.
      - unfold mret, M_ret, with_root, with_fs. simpl. by rewrite app_nil_r.
      - destruct Hconn as [?|Hc]; [done|].
        unfold mbind, M_bind, emit, lift. simpl. by rewrite Hc. }
    unfold range. rewrite seqZ_cons by (simpl; lia). simpl for_each.
    apply bind_raise. unfold HTCondor.job. change (HTCondor.input_file ah) with input_file.
    rewrite (prologue_hidden (cwd w) R env input_file content stem HR Hstem Hdots
               1 w0 _ Hready).
    unfold stopped. by rewrite <-Hshape.
Qed.

Lemma extension_only_template_fails_witness :
  let ah := HTCondor.Args ".inp" 2 "None" "vanilla" "1500" 1 100000 86400 false None
              "yes" "job.out" "job.err" "job.log" in
  let al := LSF.Args ".inp" 2 "None" "normal" "1500" 1 "1-00:00:00" false None in
  let ats := TS.Args ".inp" 2 "None" false None in
  ∃ R,
    allocate_root ".inp" None Sample.home_hidden = (Ok R, with_root R Sample.home_hidden) ∧
    let stopped connection :=
      World (["home"; "u"] ++ [R; job_name 1])
        (<[["home"; "u"] ++ [R; job_name 1; "" +:+ ".inp"] := File Demo.template]>
           (<[["home"; "u"] ++ [R; job_name 1] := Dir]>
              (<[["home"; "u"] ++ [R] := Dir]> (fs Sample.home_hidden))))
        (trace Sample.home_hidden ++ connection
           ++ [System ("cp " +:+ ".inp" +:+ " " +:+ OsPath.join R (job_name 1))])
        (S (draws Sample.home_hidden)) in
    TS.launch_jobs Demo.env ats Sample.home_hidden = (Raise FileNotFoundError, stopped []) ∧
    LSF.launch_jobs "/opt/fluka/bin" Demo.env al Sample.home_hidden
    = (Raise FileNotFoundError, stopped []) ∧
    HTCondor.launch_jobs "/opt/fluka/bin" Demo.env ah Sample.home_hidden
    = (Raise FileNotFoundError, stopped [ScheddConnect]).
Proof.
  apply (extension_only_template_fails "/opt/fluka/bin" Demo.env ".inp" 2 "None" false None
           "vanilla" "1500" 1 100000 86400 "yes" "job.out" "job.err" "job.log"
           "normal" "1500" 1 "1-00:00:00" Demo.template "" Sample.home_hidden).
  - lia.
  - by right.
  - demo_allocatable.
  - vm_compute. reflexivity.
  - reflexivity.
  - reflexivity.
Defined.
